(** * Wallet ledger: the money-moving handlers of [user.controller]

    A shallow embedding of the request handlers [registerUser], [addFunds],
    [payBill], [sendMoney] and [getUserTransactions], of [findRecipient],
    and of the SQL statements they send, followed by the properties of the
    balance store and of the ledger.  The handlers [loginUser] and
    [getUserProfileAndBalance] and those of the payment instruments
    ([getUserBankAccounts], [addBankAccount], [getUpiIds], [addUpiId],
    [getCards], [addCard]) come after them, and their properties after
    those of the ledger.

    Layout: numbers, binary64 and [parseFloat]; the tables; connections
    and the atomic unit; the statements; the handlers; runs of requests;
    the observations and example stores that the properties speak of; the
    stores that the handlers leave; the profile, the payment instruments
    and logging in; then the properties.

    Scope of the model.  Requests are served one after the other.  A
    Number is a binary64 value, carried as the rational it stands for (or
    NaN, or an infinity): [parseFloat] rounds the decimal it reads to the
    nearest such value, the driver sends a Number to the store as the
    shortest decimal that reads back as it, and a balance that the handler
    reads from the store is rounded again.  The store itself keeps and
    adds decimals exactly.  An identifier field of a request to the ledger
    routes is a JSON number or a JSON string.  What the sources leave to
    the store about the tables of instruments (the identifier issued, the
    defaults, the constraints, the collation) and the verdict of
    [bcrypt.compare] are inputs of the handlers that meet them. *)

From Stdlib Require Import ZArith QArith Qabs Qround Lqa Lia.
From Stdlib Require Import List String Ascii Bool.
From Stdlib Require Import Permutation Sorted.
From Stdlib Require Import Floats.PrimFloat Floats.SpecFloat Floats.FloatOps.
Import ListNotations.

Local Open Scope Z_scope.

(* ================================================================= *)
(** ** JavaScript numbers *)

(** The values of type Number that the handlers meet. *)
Inductive number : Type :=
| NaN
| Infinity (negative : bool)
| Num (value : Q).

(** [x <= y] on Numbers: false as soon as one side is NaN. *)
Definition js_le (x y : number) : bool :=
  match x, y with
  | NaN, _ | _, NaN => false
  | Num a, Num b => Qle_bool a b
  | Infinity true, _ => true
  | Infinity false, Infinity false => true
  | Infinity false, _ => false
  | Num _, Infinity negative => negb negative
  end.

(** [x < y] on Numbers. *)
Definition js_lt (x y : number) : bool :=
  match x, y with
  | NaN, _ | _, NaN => false
  | Num a, Num b => negb (Qle_bool b a)
  | Infinity true, Infinity true => false
  | Infinity true, _ => true
  | Infinity false, _ => false
  | Num _, Infinity negative => negb negative
  end.

(* ----------------------------------------------------------------- *)
(** *** [parseFloat] *)

(** [parseFloat(v)] first takes [ToString(v)]; a field of a request body
    is therefore carried as that text (an absent field reads
    ["undefined"], a JSON number reads as its decimal numeral).  The
    function then drops leading white space and reads the longest prefix
    that is a [StrDecimalLiteral]:
      sign? ( Infinity | digits [. digits?] exponent? | . digits exponent? )
    and answers NaN when there is none; otherwise it answers the Number
    nearest to the decimal that the prefix writes.  White space is the
    ASCII part of the ECMAScript set. *)

Definition is_digit (c : ascii) : bool :=
  let n := N_of_ascii c in (48 <=? n)%N && (n <=? 57)%N.

Definition digit_value (c : ascii) : Z := Z.of_N (N_of_ascii c) - 48.

Definition is_white_space (c : ascii) : bool :=
  let n := N_of_ascii c in
  ((9 <=? n)%N && (n <=? 13)%N) || (n =? 32)%N.

Fixpoint trim_start (s : string) : string :=
  match s with
  | String c rest => if is_white_space c then trim_start rest else s
  | EmptyString => s
  end.

(** The digits at the head of [s], and what follows them. *)
Fixpoint span_digits (s : string) : list ascii * string :=
  match s with
  | String c rest =>
      if is_digit c
      then let (ds, tl) := span_digits rest in (c :: ds, tl)
      else ([], s)
  | EmptyString => ([], s)
  end.

Definition digits_value (ds : list ascii) : Z :=
  fold_left (fun acc c => 10 * acc + digit_value c) ds 0.

(** A leading [+] or [-]: whether the literal is negated, and the rest. *)
Definition read_sign (s : string) : bool * string :=
  match s with
  | String "-" rest => (true, rest)
  | String "+" rest => (false, rest)
  | _ => (false, s)
  end.

(** [ExponentPart]: [e] or [E], an optional sign, at least one digit.
    When the text does not go that far the literal has no exponent. *)
Definition read_exponent (s : string) : Z :=
  match s with
  | String c rest =>
      if (Ascii.eqb c "e" || Ascii.eqb c "E")%bool
      then let (negative, rest') := read_sign rest in
           match span_digits rest' with
           | ([], _) => 0
           | (ds, _) => if negative then - digits_value ds else digits_value ds
           end
      else 0
  | EmptyString => 0
  end.

(** [10^e] as a rational, for any integer [e]. *)
Definition pow10 (e : Z) : Q :=
  if e <? 0 then 1 # Z.to_pos (10 ^ (- e)) else (10 ^ e) # 1.

(** The mathematical value of the literal at the head of the text: the
    decimal as it is written, before any rounding. *)
Definition literal_value (inputString : string) : number :=
  let trimmed := trim_start inputString in
  let (negative, unsigned) := read_sign trimmed in
  if String.prefix "Infinity" unsigned then Infinity negative
  else
    let (int_digits, after_int) := span_digits unsigned in
    let (frac_digits, after_frac) :=
      match after_int with
      | String "." rest => span_digits rest
      | _ => ([], after_int)
      end in
    match int_digits, frac_digits with
    | [], [] => NaN
    | _, _ =>
        let mantissa := digits_value (int_digits ++ frac_digits) in
        let scale := Z.of_nat (List.length frac_digits) in
        let magnitude :=
          (inject_Z mantissa * pow10 (read_exponent after_frac - scale))%Q in
        Num (if negative then - magnitude else magnitude)%Q
    end.

(* ----------------------------------------------------------------- *)
(** *** binary64 *)

Module Binary64.

(** The Number value of a decimal is the binary64 value nearest to it,
    ties going to the even significand: 53 significant bits, the last of
    weight at least [2^-1074], and overflow from [2^1024] on.  Values are
    kept in lowest terms. *)

(** The largest [e] with [2^e <= n/d], for [n] and [d] positive. *)
Definition floor_log2 (n d : Z) : Z :=
  let e := Z.log2 n - Z.log2 d in
  if (if e <? 0 then d <=? n * 2 ^ (- e) else 2 ^ e * d <=? n)
  then e else e - 1.

(** The integer nearest to [n/d], the even one when two are as near. *)
Definition round_half_even (n d : Z) : Z :=
  let floor := n / d in
  match 2 * (n mod d) ?= d with
  | Lt => floor
  | Gt => floor + 1
  | Eq => if Z.even floor then floor else floor + 1
  end.

(** [m * 2^x] as a rational. *)
Definition scaled (m x : Z) : Q :=
  if x <? 0 then m # Z.to_pos (2 ^ (- x)) else (m * 2 ^ x) # 1.

Definition round_positive (n d : Z) : number :=
  let x := Z.max (floor_log2 n d - 52) (-1074) in
  let m := if x <? 0 then round_half_even (n * 2 ^ (- x)) d
           else round_half_even n (d * 2 ^ x) in
  if Qle_bool (scaled 1 1024) (scaled m x) then Infinity false
  else Num (Qred (scaled m x)).

(** The binary64 value nearest to the rational [q]. *)
Definition binary64 (q : Q) : number :=
  let n := Qnum (Qred q) in
  let d := Zpos (Qden (Qred q)) in
  match n ?= 0 with
  | Eq => Num 0
  | Gt => round_positive n d
  | Lt =>
      match round_positive (- n) d with
      | Num v => Num (- v)
      | Infinity _ => Infinity true
      | NaN => NaN
      end
  end.

(** [Number::toString] writes a Number as a decimal [s * 10^(n-k)] of
    [k] digits that reads back as the same Number, with [k] as small as
    possible; of two such decimals it writes the nearer one, as the
    engines do.  What follows is the value of that decimal. *)

(** The decimal [v] reads as the Number [q]. *)
Definition reads_as (v q : Q) : bool :=
  match binary64 v with
  | Num w => Qeq_bool w q
  | _ => false
  end.

(** The largest [e] with [10^e <= q], for [q] positive, found upwards
    from an estimate below it. *)
Fixpoint raise_log10 (fuel : nat) (e : Z) (q : Q) : Z :=
  match fuel with
  | O => e
  | S fuel' =>
      if Qle_bool (pow10 (e + 1)) q then raise_log10 fuel' (e + 1) q else e
  end.

Definition floor_log10 (q : Q) : Z :=
  let l := floor_log2 (Qnum q) (Zpos (Qden q)) in
  raise_log10 8 (l * 30102 / 100000 - 2) q.

(** The decimals of [k] digits on either side of [q], where
    [10^e <= q < 10^(e+1)]: the one that reads as [q], the nearer one
    when both do. *)
Definition candidate (q : Q) (e k : Z) : option Q :=
  let unit := pow10 (e - k + 1) in
  let below := Qfloor (q / unit) in
  let lo := (inject_Z below * unit)%Q in
  let hi := (inject_Z (below + 1) * unit)%Q in
  match (10 ^ (k - 1) <=? below) && reads_as lo q, reads_as hi q with
  | true, true =>
      match (q - lo ?= hi - q)%Q with
      | Lt => Some lo
      | Gt => Some hi
      | Eq => Some (if Z.even below then lo else hi)
      end
  | true, false => Some lo
  | false, true => Some hi
  | false, false => None
  end.

(** Seventeen digits tell any two Numbers apart. *)
Fixpoint shortest_from (fuel : nat) (k : Z) (q : Q) (e : Z) : Q :=
  match fuel with
  | O => q
  | S fuel' =>
      match candidate q e k with
      | Some v => v
      | None => shortest_from fuel' (k + 1) q e
      end
  end.

Definition shortest_decimal (q : Q) : Q :=
  match (Qnum q ?= 0)%Z with
  | Eq => 0
  | Gt => Qred (shortest_from 17 1 q (floor_log10 q))
  | Lt => Qred (- shortest_from 17 1 (- q) (floor_log10 (- q)))
  end.

End Binary64.

(** [StringNumericValue] rounds the mathematical value of the literal. *)
Definition parseFloat (inputString : string) : number :=
  match literal_value inputString with
  | Num q => Binary64.binary64 q
  | other => other
  end.

(* ================================================================= *)
(** ** The tables *)

(** Modelled from the spec: the table definitions are not among the
    sources.  An amount column is a fixed-point decimal (section 3 of the
    specification); such a PostgreSQL column also holds the value NaN and
    refuses an infinity.  No scale is given, so values are kept as they
    are sent. *)
Inductive numeric : Type :=
| NNaN
| Dec (value : Q).

(** [a + b] and [a - b] in the store: NaN absorbs. *)
Definition numeric_add (a b : numeric) : numeric :=
  match a, b with
  | Dec x, Dec y => Dec (x + y)
  | _, _ => NNaN
  end.

Definition numeric_sub (a b : numeric) : numeric :=
  match a, b with
  | Dec x, Dec y => Dec (x - y)
  | _, _ => NNaN
  end.

(** The order of the store on numeric values: NaN is equal to itself and
    above every number. *)
Definition numeric_le (a b : numeric) : bool :=
  match a, b with
  | _, NNaN => true
  | NNaN, Dec _ => false
  | Dec x, Dec y => Qle_bool x y
  end.

(** The driver sends a Number as the text that [toString] writes; the
    store reads the text as a numeric parameter, and raises on an
    infinity. *)
Definition to_numeric (x : number) : option numeric :=
  match x with
  | NaN => Some NNaN
  | Num q => Some (Dec (Binary64.shortest_decimal q))
  | Infinity _ => None
  end.

(** [parseFloat(row.amount)]: the driver hands a numeric column over as
    the text of its decimal, which [parseFloat] rounds to a Number. *)
Definition parseFloat_numeric (a : numeric) : number :=
  match a with
  | NNaN => NaN
  | Dec q => Binary64.binary64 q
  end.

Module Users.
(** The columns the handlers of this model read or write; the password
    hash and the date of birth are left out. *)
Record row : Type := {
  user_id : Z;
  first_name : string;
  last_name : string;
  email_id : string;
  mobile_number : string;
  created_at : Z
}.
End Users.

Module AccountBalances.
Record row : Type := {
  user_id : Z;
  amount : numeric;
  last_updated_at : Z
}.
End AccountBalances.

Inductive transaction_type : Type := CREDIT | DEBIT.

Module Transactions.
Record row : Type := {
  transaction_id : Z;
  user_id : Z;
  type : transaction_type;
  amount : numeric;
  description : string;
  status : string;
  counterparty_id : option Z;
  created_at : Z;
  last_updated_at : Z
}.
End Transactions.

Record database : Type := {
  users : list Users.row;
  account_balances : list AccountBalances.row;
  transactions : list Transactions.row
}.

(** Modelled from the spec: the table definitions are not among the
    sources.  The user identifier and the transaction identifier are
    issued by the store, unique and increasing, from two sequences (a
    sequence is not rewound by ROLLBACK), and [created_at] defaults to
    the time of the insertion.  This is what the server keeps between
    requests. *)
Record store : Type := {
  committed : database;
  users_user_id_seq : Z;
  transactions_transaction_id_seq : Z
}.

Definition empty_store : store :=
  {| committed := {| users := []; account_balances := []; transactions := [] |};
     users_user_id_seq := 1;
     transactions_transaction_id_seq := 1 |}.

(* ================================================================= *)
(** ** Connections and the atomic unit *)

(** A handler runs with the connection [client] it took from the pool.
    Between BEGIN and COMMIT the statements sent through [client] act on
    a working copy; [pool.query] goes through another connection and
    sees, and acts on, committed data only. *)
Record connection : Type := {
  server : store;
  working : option database
}.

(** An awaited call either completes with a value or throws; what it did
    to the connection stays done in both cases. *)
Inductive completion (A : Type) : Type :=
| Normal (a : A)
| Throw.
Arguments Normal {A} a.
Arguments Throw {A}.

Definition io (A : Type) : Type := connection -> completion A * connection.

Definition ret {A} (a : A) : io A := fun c => (Normal a, c).

Definition bind {A B} (m : io A) (k : A -> io B) : io B :=
  fun c =>
    match m c with
    | (Normal a, c') => k a c'
    | (Throw, c') => (Throw, c')
    end.

Definition throw {A} : io A := fun c => (Throw, c).

Declare Scope io_scope.
Delimit Scope io_scope with io.
Notation "x <- m ;; k" := (bind m (fun x => k))
  (at level 61, m at next level, right associativity) : io_scope.
Notation "m ;; k" := (bind m (fun _ => k))
  (at level 61, right associativity) : io_scope.
Local Open Scope io_scope.

Definition set_committed (d : database) (s : store) : store :=
  {| committed := d;
     users_user_id_seq := users_user_id_seq s;
     transactions_transaction_id_seq := transactions_transaction_id_seq s |}.

(** [client.query('BEGIN')] *)
Definition BEGIN : io unit :=
  fun c =>
    match working c with
    | Some _ => (Normal tt, c)
    | None => (Normal tt, {| server := server c;
                             working := Some (committed (server c)) |})
    end.

(** [client.query('COMMIT')] *)
Definition COMMIT : io unit :=
  fun c =>
    match working c with
    | Some d => (Normal tt, {| server := set_committed d (server c);
                               working := None |})
    | None => (Normal tt, c)
    end.

(** ROLLBACK drops the working copy; outside an atomic unit it does
    nothing. *)
Definition rollback (c : connection) : connection :=
  {| server := server c; working := None |}.

(** [client.query('ROLLBACK')] *)
Definition ROLLBACK : io unit := fun c => (Normal tt, rollback c).

(** A statement sent through [client]. *)
Definition client_query {A} (stmt : database -> A * database) : io A :=
  fun c =>
    match working c with
    | Some d =>
        (Normal (fst (stmt d)),
         {| server := server c; working := Some (snd (stmt d)) |})
    | None =>
        let d := committed (server c) in
        (Normal (fst (stmt d)),
         {| server := set_committed (snd (stmt d)) (server c);
            working := None |})
    end.

(** A SELECT sent through [pool.query]. *)
Definition pool_query {A} (stmt : database -> A) : io A :=
  fun c => (Normal (stmt (committed (server c))), c).

(** A Number bound to a numeric parameter of a statement. *)
Definition numeric_parameter (x : number) : io numeric :=
  match to_numeric x with
  | Some a => ret a
  | None => throw
  end.

(** [rows[0]] followed by a field access: a TypeError when there is no
    row. *)
Definition first_row {A} (rows : list A) : io A :=
  match rows with
  | r :: _ => ret r
  | [] => throw
  end.

Definition nextval_user_id : io Z :=
  fun c =>
    let s := server c in
    (Normal (users_user_id_seq s),
     {| server := {| committed := committed s;
                     users_user_id_seq := users_user_id_seq s + 1;
                     transactions_transaction_id_seq :=
                       transactions_transaction_id_seq s |};
        working := working c |}).

Definition nextval_transaction_id : io Z :=
  fun c =>
    let s := server c in
    (Normal (transactions_transaction_id_seq s),
     {| server := {| committed := committed s;
                     users_user_id_seq := users_user_id_seq s;
                     transactions_transaction_id_seq :=
                       transactions_transaction_id_seq s + 1 |};
        working := working c |}).

(* ================================================================= *)
(** ** The statements *)

(** SELECT user_id, first_name FROM users WHERE <column> = $1 *)
Definition select_user_where (column : Users.row -> string) (v : string)
  (d : database) : list Users.row :=
  filter (fun u => String.eqb (column u) v) (users d).

(** SELECT email_id FROM users WHERE email_id = $1 OR mobile_number = $2 *)
Definition select_existing_user (email mobile : string) (d : database)
  : list Users.row :=
  filter (fun u => String.eqb (Users.email_id u) email
                   || String.eqb (Users.mobile_number u) mobile) (users d).

(** SELECT first_name FROM users WHERE user_id = $1 *)
Definition select_first_name (uid : Z) (d : database) : list string :=
  map Users.first_name (filter (fun u => Users.user_id u =? uid) (users d)).

(** SELECT amount FROM account_balances WHERE user_id = $1 [FOR UPDATE] *)
Definition select_amount (uid : Z) (d : database) : list numeric :=
  map AccountBalances.amount
    (filter (fun b => AccountBalances.user_id b =? uid) (account_balances d)).

(** UPDATE account_balances
    SET amount = amount <op> $1, last_updated_at = CURRENT_TIMESTAMP
    WHERE user_id = $2 [RETURNING amount] *)
Definition update_amount (op : numeric -> numeric -> numeric) (delta : numeric)
  (uid now : Z) (d : database) : list numeric * database :=
  let d' :=
    {| users := users d;
       account_balances :=
         map (fun b =>
                if AccountBalances.user_id b =? uid
                then {| AccountBalances.user_id := AccountBalances.user_id b;
                        AccountBalances.amount :=
                          op (AccountBalances.amount b) delta;
                        AccountBalances.last_updated_at := now |}
                else b)
             (account_balances d);
       transactions := transactions d |} in
  (select_amount uid d', d').

(** INSERT INTO transactions (...) VALUES (...) *)
Definition insert_transaction (r : Transactions.row) (d : database)
  : unit * database :=
  (tt, {| users := users d;
          account_balances := account_balances d;
          transactions := transactions d ++ [r] |}).

(** INSERT INTO users (...) VALUES (...) RETURNING user_id, ... *)
Definition insert_user (r : Users.row) (d : database) : Users.row * database :=
  (r, {| users := users d ++ [r];
         account_balances := account_balances d;
         transactions := transactions d |}).

(** INSERT INTO account_balances (user_id, amount) VALUES ($1, 0.00) *)
Definition insert_balance (uid now : Z) (d : database) : unit * database :=
  (tt, {| users := users d;
          account_balances :=
            account_balances d ++
            [{| AccountBalances.user_id := uid;
                AccountBalances.amount := Dec 0;
                AccountBalances.last_updated_at := now |}];
          transactions := transactions d |}).

(** The INSERT into the ledger as [client] runs it at time [now]: the
    store issues the identifier and stamps the row. *)
Definition log_transaction (now uid : Z) (ty : transaction_type)
  (amt : numeric) (descr : string) (counterparty : option Z) (st : string)
  : io unit :=
  tid <- nextval_transaction_id ;;
  client_query (insert_transaction
    {| Transactions.transaction_id := tid;
       Transactions.user_id := uid;
       Transactions.type := ty;
       Transactions.amount := amt;
       Transactions.description := descr;
       Transactions.status := st;
       Transactions.counterparty_id := counterparty;
       Transactions.created_at := now;
       Transactions.last_updated_at := now |}).

(** ORDER BY created_at DESC.  PostgreSQL promises no order among rows
    with equal keys; here they stay in table order. *)
Fixpoint insert_by_created_at (r : Transactions.row)
  (sorted : list Transactions.row) : list Transactions.row :=
  match sorted with
  | [] => [r]
  | x :: rest =>
      if Transactions.created_at x <=? Transactions.created_at r
      then r :: sorted
      else x :: insert_by_created_at r rest
  end.

Definition order_by_created_at_desc (rows : list Transactions.row)
  : list Transactions.row :=
  fold_right insert_by_created_at [] rows.

(** SELECT ... FROM transactions WHERE user_id = $1 ORDER BY created_at DESC *)
Definition select_transactions (uid : Z) (d : database)
  : list Transactions.row :=
  order_by_created_at_desc
    (filter (fun t => Transactions.user_id t =? uid) (transactions d)).

(* ================================================================= *)
(** ** Requests and responses *)

(** One entry of the [transactions] array of a listing.  The two times
    are carried as the timestamps that [toISOString] prints. *)
Record transaction_view : Type := {
  id : Z;
  view_type : transaction_type;
  view_amount : numeric;
  view_status : string;
  view_description : string;
  createdAt : Z;
  lastUpdatedAt : Z;
  counterpartyId : option Z
}.

(** The JSON payloads.  The [message] text of a success is left out. *)
Inductive json : Type :=
| error_json (error : string)
| new_balance_json (new_balance : numeric)
| transactions_json (transactions : list transaction_view)
| user_json (user_id : Z) (first_name email_id : string) (created_at : Z).

Record response : Type := {
  status : Z;
  body : json
}.

Definition respond (code : Z) (payload : json) : response :=
  {| status := code; body := payload |}.

(** [!v] for an identifier sent as a number, as on the routes of the
    instruments: false exactly when it is present and not 0. *)
Definition truthy_id (v : option Z) : option Z :=
  match v with
  | Some n => if n =? 0 then None else Some n
  | None => None
  end.

(** [!v] is false exactly for a present, non-empty string. *)
Definition truthy_string (v : option string) : option string :=
  match v with
  | Some s => if String.eqb s EmptyString then None else Some s
  | None => None
  end.

(** An identifier field of a request to the ledger routes: a JSON number
    (whole, as the identifiers are) or a JSON string. *)
Inductive id_field : Type :=
| id_number (n : Z)
| id_text (s : string).

(** [!v] is false exactly for a present field that is a number other
    than 0 or a string other than the empty one. *)
Definition truthy_field (v : option id_field) : option id_field :=
  match v with
  | Some (id_number n) => if n =? 0 then None else v
  | Some (id_text s) => if String.eqb s EmptyString then None else v
  | None => None
  end.

(** [v === n] for a Number [n]: no string is strictly equal to it. *)
Definition strict_equal (v : id_field) (n : Z) : bool :=
  match v with
  | id_number m => m =? n
  | id_text _ => false
  end.

(** The integer that the store reads from a text bound to an integer
    column: a sign and decimal digits, white space allowed around them;
    nothing for any other text. *)
Definition integer_text (s : string) : option Z :=
  let (negative, unsigned) := read_sign (trim_start s) in
  match span_digits unsigned with
  | ([], _) => None
  | (ds, rest) =>
      match trim_start rest with
      | EmptyString =>
          Some (if negative then - digits_value ds else digits_value ds)
      | _ => None
      end
  end.

Definition integer_of (v : id_field) : option Z :=
  match v with
  | id_number n => Some n
  | id_text s => integer_text s
  end.

(** An identifier field bound to an integer parameter of a statement:
    the store raises on a text that writes no integer. *)
Definition integer_parameter (v : id_field) : io Z :=
  match integer_of v with
  | Some n => ret n
  | None => throw
  end.

(** The user that a field names when it passes [!v] and the store reads
    it. *)
Definition user_of (v : option id_field) : option Z :=
  match truthy_field v with
  | Some f => integer_of f
  | None => None
  end.

(** try { body } catch { ROLLBACK; failure } finally { client.release() } *)
Definition run_handler (body : io response) (failure : response) (s : store)
  : response * store :=
  match body {| server := s; working := None |} with
  | (Normal r, c) => (r, server c)
  | (Throw, c) => (failure, server (rollback c))
  end.

(** [identifier.includes('@')] *)
Fixpoint includes (c : ascii) (s : string) : bool :=
  match s with
  | String c' rest => Ascii.eqb c' c || includes c rest
  | EmptyString => false
  end.

Definition findRecipient (identifier : string) : io (option Users.row) :=
  let isEmail := includes "@" identifier in
  rows <- pool_query
            (select_user_where
               (if isEmail then Users.email_id else Users.mobile_number)
               identifier) ;;
  ret (match rows with
       | r :: _ => Some r
       | [] => None
       end).

(* ================================================================= *)
(** ** The handlers *)

(** Each handler takes the time [now] at which the store runs its
    statements ([CURRENT_TIMESTAMP]), the request body and the store, and
    gives the response and the store it leaves. *)

Record register_body : Type := {
  reg_first_name : string;
  reg_last_name : string;
  reg_email_id : string;
  reg_password : option string;
  reg_mobile_number : string
}.

(** [bcrypt.hash(password, saltRounds)] rejects when there is no
    password; the hash itself is not kept in this model. *)
Definition bcrypt_hash (password : option string) : io unit :=
  match password with
  | Some _ => ret tt
  | None => throw
  end.

Definition registerUser (now : Z) (b : register_body)
  : store -> response * store :=
  run_handler
    (existingUser <- pool_query
         (select_existing_user (reg_email_id b) (reg_mobile_number b)) ;;
     match existingUser with
     | _ :: _ =>
         ret (respond 409
                (error_json
                   "User with this email or mobile number already exists."))
     | [] =>
         bcrypt_hash (reg_password b) ;;
         BEGIN ;;
         newUserId <- nextval_user_id ;;
         newUser <- client_query (insert_user
           {| Users.user_id := newUserId;
              Users.first_name := reg_first_name b;
              Users.last_name := reg_last_name b;
              Users.email_id := reg_email_id b;
              Users.mobile_number := reg_mobile_number b;
              Users.created_at := now |}) ;;
         client_query (insert_balance (Users.user_id newUser) now) ;;
         COMMIT ;;
         ret (respond 201
                (user_json (Users.user_id newUser) (Users.first_name newUser)
                   (Users.email_id newUser) (Users.created_at newUser)))
     end)
    (respond 500
       (error_json
          "Internal server error. Registration failed during final database commit/cleanup.")).

Record add_funds_body : Type := {
  af_user_id : option id_field;
  af_amount : string
}.

Definition addFunds (now : Z) (b : add_funds_body) (s : store)
  : response * store :=
  let depositAmount := parseFloat (af_amount b) in
  match truthy_field (af_user_id b), js_le depositAmount (Num 0) with
  | Some user_id, false =>
      run_handler
        (BEGIN ;;
         delta <- numeric_parameter depositAmount ;;
         user <- integer_parameter user_id ;;
         balanceResult <-
           client_query (update_amount numeric_add delta user now) ;;
         log_transaction now user CREDIT delta
           "Wallet Deposit (External)" None "COMPLETED" ;;
         COMMIT ;;
         new_balance <- first_row balanceResult ;;
         ret (respond 200 (new_balance_json new_balance)))
        (respond 500 (error_json "Internal server error: Deposit failed."))
        s
  | _, _ =>
      (respond 400 (error_json "Valid user ID and positive amount required."),
       s)
  end.

(** [rows.length === 0 || parseFloat(rows[0].amount) < amount] *)
Definition insufficient (rows : list numeric) (amount : number) : bool :=
  match rows with
  | [] => true
  | a :: _ => js_lt (parseFloat_numeric a) amount
  end.

Record pay_bill_body : Type := {
  pb_user_id : option id_field;
  pb_merchant_id : option string;
  pb_amount : string;
  pb_description : string
}.

Definition payBill (now : Z) (b : pay_bill_body) (s : store)
  : response * store :=
  let paymentAmount := parseFloat (pb_amount b) in
  match truthy_field (pb_user_id b), truthy_string (pb_merchant_id b),
        js_le paymentAmount (Num 0) with
  | Some user_id, Some merchant_id, false =>
      run_handler
        (BEGIN ;;
         user <- integer_parameter user_id ;;
         senderBalanceResult <- pool_query (select_amount user) ;;
         if insufficient senderBalanceResult paymentAmount
         then
           ROLLBACK ;;
           ret (respond 402
                  (error_json "Insufficient funds for this payment."))
         else
           amt <- numeric_parameter paymentAmount ;;
           log_transaction now user DEBIT amt (pb_description b) None
             "COMPLETED" ;;
           COMMIT ;;
           newBalanceResult <- pool_query (select_amount user) ;;
           new_balance <- first_row newBalanceResult ;;
           ret (respond 200 (new_balance_json new_balance)))
        (respond 500
           (error_json "Internal server error: Payment processing failed."))
        s
  | _, _, _ =>
      (respond 400
         (error_json
            "Valid user ID, merchant ID, and positive amount required."),
       s)
  end.

Record send_money_body : Type := {
  sm_sender_id : option id_field;
  sm_recipient_identifier : option string;
  sm_amount : string
}.

(** A SELECT sent through [client]. *)
Definition client_select {A} (stmt : database -> A) : io A :=
  client_query (fun d => (stmt d, d)).

Definition sendMoney (now : Z) (b : send_money_body) (s : store)
  : response * store :=
  let transferAmount := parseFloat (sm_amount b) in
  match truthy_field (sm_sender_id b),
        truthy_string (sm_recipient_identifier b),
        js_le transferAmount (Num 0) with
  | Some sender_id, Some recipient_identifier, false =>
      run_handler
        (BEGIN ;;
         found <- findRecipient recipient_identifier ;;
         match found with
         | None =>
             ROLLBACK ;;
             ret (respond 404 (error_json "Recipient not found."))
         | Some recipient =>
             let recipientId := Users.user_id recipient in
             let recipientName := Users.first_name recipient in
             if strict_equal sender_id recipientId
             then
               ROLLBACK ;;
               ret (respond 400 (error_json "Cannot send money to yourself."))
             else
               sender <- integer_parameter sender_id ;;
               senderBalanceResult <-
                 client_select (select_amount sender) ;;
               if insufficient senderBalanceResult transferAmount
               then
                 ROLLBACK ;;
                 ret (respond 402 (error_json "Insufficient funds."))
               else
                 amt <- numeric_parameter transferAmount ;;
                 client_query (update_amount numeric_sub amt sender now) ;;
                 client_query (update_amount numeric_add amt recipientId now) ;;
                 log_transaction now sender DEBIT amt
                   ("Transfer to " ++ recipientName ++ " (P2P)")
                   (Some recipientId) "COMPLETED" ;;
                 senderNameResult <-
                   pool_query (select_first_name sender) ;;
                 senderName <- first_row senderNameResult ;;
                 log_transaction now recipientId CREDIT amt
                   ("Transfer from " ++ senderName ++ " (P2P)")
                   (Some sender) "COMPLETED" ;;
                 COMMIT ;;
                 newSenderBalanceResult <-
                   pool_query (select_amount sender) ;;
                 new_balance <- first_row newSenderBalanceResult ;;
                 ret (respond 200 (new_balance_json new_balance))
         end)
        (respond 500
           (error_json "Internal server error: P2P transfer failed."))
        s
  | _, _, _ =>
      (respond 400
         (error_json "Sender ID, recipient, and positive amount required."),
       s)
  end.

Record transactions_body : Type := {
  tx_user_id : option id_field
}.

Definition view_of (tx : Transactions.row) : transaction_view :=
  {| id := Transactions.transaction_id tx;
     view_type := Transactions.type tx;
     view_amount := Transactions.amount tx;
     view_status := Transactions.status tx;
     view_description := Transactions.description tx;
     createdAt := Transactions.created_at tx;
     lastUpdatedAt := Transactions.last_updated_at tx;
     counterpartyId := Transactions.counterparty_id tx |}.

(** [!user_id || typeof user_id !== 'number'] lets a number through
    only.  The query goes through [pool.query] and nothing is written. *)
Definition getUserTransactions (b : transactions_body) (s : store)
  : response * store :=
  match truthy_field (tx_user_id b) with
  | Some (id_number user_id) =>
      run_handler
        (rows <- pool_query (select_transactions user_id) ;;
         ret (respond 200 (transactions_json (map view_of rows))))
        (respond 500
           (error_json
              "Internal server error while fetching transaction history."))
        s
  | _ =>
      (respond 400
         (error_json "Valid user_id is required to fetch transactions."),
       s)
  end.

(* ================================================================= *)
(** ** Runs *)

(** The routes of [user.routes] that reach the handlers above. *)
Inductive request : Type :=
| POST_register (b : register_body)
| POST_user_transactions (b : transactions_body)
| POST_user_funds_add (b : add_funds_body)
| POST_user_transfer_p2p (b : send_money_body)
| POST_user_pay_bill (b : pay_bill_body).

Definition route (now : Z) (r : request) (s : store) : response * store :=
  match r with
  | POST_register b => registerUser now b s
  | POST_user_transactions b => getUserTransactions b s
  | POST_user_funds_add b => addFunds now b s
  | POST_user_transfer_p2p b => sendMoney now b s
  | POST_user_pay_bill b => payBill now b s
  end.

(** The store after a sequence of requests, each with its time. *)
Fixpoint serve (rs : list (Z * request)) (s : store) : store :=
  match rs with
  | [] => s
  | (now, r) :: rest => serve rest (snd (route now r s))
  end.

(* ================================================================= *)
(** ** Observations used by the properties *)

(** What [findRecipient] answers on the committed data of a store. *)
Definition recipient_of (identifier : string) (s : store)
  : option Users.row :=
  match findRecipient identifier {| server := s; working := None |} with
  | (Normal found, _) => found
  | (Throw, _) => None
  end.

(** The balance rows of a user, as [SELECT amount] shows them. *)
Definition balance_of (user : Z) (s : store) : list numeric :=
  select_amount user (committed s).

(** The ledger: the rows of [transactions], oldest first. *)
Definition ledger (s : store) : list Transactions.row :=
  transactions (committed s).

(** Section 6 of the specification gives status 404 to "not found". *)
Definition NotFound (r : response) : Prop := status r = 404.

(* ----------------------------------------------------------------- *)
(** *** Stores used as examples *)

Definition alice : register_body :=
  {| reg_first_name := "Alice"; reg_last_name := "Liddell";
     reg_email_id := "alice@example.com"; reg_password := Some "secret"%string;
     reg_mobile_number := "9000000001" |}.

Definition bob : register_body :=
  {| reg_first_name := "Bob"; reg_last_name := "Marley";
     reg_email_id := "bob@example.com"; reg_password := Some "secret"%string;
     reg_mobile_number := "9000000002" |}.

Definition deposit (user : Z) (amount : string) : request :=
  POST_user_funds_add
    {| af_user_id := Some (id_number user); af_amount := amount |}.

(** Alice (user 1) holds 200 and Bob (user 2) holds 10. *)
Definition two_wallets : store :=
  serve [(10, POST_register alice); (11, POST_register bob);
         (20, deposit 1 "200"); (21, deposit 2 "10")] empty_store.

(** Alice holds 199999999999999.99, which reads as the Number
    200000000000000, and Bob holds nothing. *)
Definition fine_wallet : store :=
  serve [(10, POST_register alice); (11, POST_register bob);
         (20, deposit 1 "199999999999999"); (21, deposit 1 "0.99")]
    empty_store.

(* ----------------------------------------------------------------- *)
(** *** The order of a listing *)

(** The order that [ORDER BY created_at DESC] asks of two rows. *)
Definition created_at_desc (x y : Transactions.row) : Prop :=
  Transactions.created_at y <= Transactions.created_at x.

(** The [transactions] array of a response (empty for any other
    payload). *)
Definition listing (r : response) : list transaction_view :=
  match body r with
  | transactions_json l => l
  | _ => []
  end.

(** Most recent first. *)
Definition newest_first (l : list transaction_view) : Prop :=
  StronglySorted (fun x y => createdAt y <= createdAt x) l.

(** Most recent first and, among the records of one instant, the higher
    identifier first. *)
Definition newest_first_then_highest_id (l : list transaction_view) : Prop :=
  StronglySorted
    (fun x y => createdAt y < createdAt x \/
                (createdAt y = createdAt x /\ id y < id x)) l.

(** The ledger records of a user, in table order. *)
Definition ledger_of (user : Z) (s : store) : list Transactions.row :=
  filter (fun t => Transactions.user_id t =? user) (ledger s).

(** Alice receives two deposits stamped with the same instant. *)
Definition same_instant : store :=
  serve [(10, POST_register alice); (20, deposit 1 "5"); (20, deposit 1 "7")]
    empty_store.

(* ----------------------------------------------------------------- *)
(** *** Reconciliation *)

Definition transaction_type_eqb (x y : transaction_type) : bool :=
  match x, y with
  | CREDIT, CREDIT | DEBIT, DEBIT => true
  | _, _ => false
  end.

(** The sum of the amounts of the records of one type on the ledger of
    a user. *)
Definition total (ty : transaction_type) (user : Z) (s : store) : numeric :=
  fold_right numeric_add (Dec 0)
    (map Transactions.amount
       (filter (fun t => transaction_type_eqb (Transactions.type t) ty)
          (ledger_of user s))).

(** Credits minus debits. *)
Definition ledger_net (user : Z) (s : store) : numeric :=
  numeric_sub (total CREDIT user s) (total DEBIT user s).

(** Two numeric values that the store holds equal. *)
Definition numeric_eq (a b : numeric) : Prop :=
  match a, b with
  | Dec x, Dec y => (x == y)%Q
  | NNaN, NNaN => True
  | _, _ => False
  end.

Definition reconciled (user : Z) (s : store) : Prop :=
  forall balance, In balance (balance_of user s) ->
                  numeric_eq balance (ledger_net user s).

Definition pay_bill (user : Z) (amount : string) : request :=
  POST_user_pay_bill
    {| pb_user_id := Some (id_number user);
       pb_merchant_id := Some "electricity"%string;
       pb_amount := amount; pb_description := "October bill" |}.

(* ----------------------------------------------------------------- *)
(** *** Balances that are not negative *)

(** [0 <= a] in the order of the store. *)
Definition non_negative (a : numeric) : Prop := numeric_le (Dec 0) a = true.

(** The amount is a decimal, not NaN. *)
Definition is_decimal (a : numeric) : Prop := exists q, a = Dec q.

(** Every balance row holds a decimal. *)
Definition decimal_amounts (s : store) : Prop :=
  Forall (fun r => is_decimal (AccountBalances.amount r))
    (account_balances (committed s)).

(** The amount of a deposit or of a transfer reads as a number, finite
    or not.  (A bill payment writes no balance.) *)
Definition amount_is_a_number (r : request) : Prop :=
  match r with
  | POST_user_funds_add b => parseFloat (af_amount b) <> NaN
  | POST_user_transfer_p2p b => parseFloat (sm_amount b) <> NaN
  | _ => True
  end.

(** What the runs keep true of [account_balances]: no user has two
    rows, and every row belongs to a user the sequence has already
    issued. *)
Record balances_ok (s : store) : Prop := {
  rows_unique :
    NoDup (map AccountBalances.user_id (account_balances (committed s)));
  rows_issued :
    Forall (fun r => AccountBalances.user_id r < users_user_id_seq s)
      (account_balances (committed s))
}.

(* ================================================================= *)
(** ** The Number that [parseFloat] yields *)

(** The request amount reaches the store as the decimal that the text
    writes: rounding it to a Number and printing the Number gives the
    same decimal back. *)
Definition amount_is_exact (s : string) : Prop :=
  match literal_value s, parseFloat s with
  | Num written, Num read => (Binary64.shortest_decimal read == written)%Q
  | _, _ => False
  end.

(* ----------------------------------------------------------------- *)
(** *** The hardware arithmetic as a yardstick *)

(** The rational that a primitive binary64 float stands for (nothing for
    an infinity or a NaN). *)
Definition float_value (f : PrimFloat.float) : option Q :=
  match Prim2SF f with
  | S754_finite negative m e =>
      Some (Binary64.scaled (if negative then Zneg m else Zpos m) e)
  | S754_zero _ => Some 0%Q
  | _ => None
  end.

(** [f] is the value that [Binary64.binary64] gives for [q]. *)
Definition agree (f : PrimFloat.float) (q : Q) : bool :=
  match float_value f, Binary64.binary64 q with
  | Some a, Num b => Qeq_bool a b
  | None, Infinity _ => true
  | _, _ => false
  end.

(* ================================================================= *)
(** ** The stores that the handlers leave *)

(** The transaction row that the store writes at time [now]. *)
Definition ledger_row (now tid uid : Z) (ty : transaction_type)
  (amt : numeric) (descr : string) (counterparty : option Z)
  : Transactions.row :=
  {| Transactions.transaction_id := tid;
     Transactions.user_id := uid;
     Transactions.type := ty;
     Transactions.amount := amt;
     Transactions.description := descr;
     Transactions.status := "COMPLETED";
     Transactions.counterparty_id := counterparty;
     Transactions.created_at := now;
     Transactions.last_updated_at := now |}.

(** The user row of a registration served at time [now]. *)
Definition new_user (now : Z) (b : register_body) (s : store) : Users.row :=
  {| Users.user_id := users_user_id_seq s;
     Users.first_name := reg_first_name b;
     Users.last_name := reg_last_name b;
     Users.email_id := reg_email_id b;
     Users.mobile_number := reg_mobile_number b;
     Users.created_at := now |}.

(** After a registration that was answered 201. *)
Definition registered (now : Z) (b : register_body) (s : store) : store :=
  {| committed :=
       {| users := users (committed s) ++ [new_user now b s];
          account_balances :=
            account_balances (committed s) ++
            [{| AccountBalances.user_id := users_user_id_seq s;
                AccountBalances.amount := Dec 0;
                AccountBalances.last_updated_at := now |}];
          transactions := transactions (committed s) |};
     users_user_id_seq := users_user_id_seq s + 1;
     transactions_transaction_id_seq := transactions_transaction_id_seq s |}.

(** After the atomic unit of a deposit of [delta] was committed. *)
Definition deposited (now user : Z) (delta : numeric) (s : store) : store :=
  {| committed :=
       snd (insert_transaction
              (ledger_row now (transactions_transaction_id_seq s) user CREDIT
                 delta "Wallet Deposit (External)" None)
              (snd (update_amount numeric_add delta user now (committed s))));
     users_user_id_seq := users_user_id_seq s;
     transactions_transaction_id_seq := transactions_transaction_id_seq s + 1 |}.

(** After the atomic unit of a bill payment was committed. *)
Definition bill_recorded (now user : Z) (amt : numeric) (descr : string)
  (s : store) : store :=
  {| committed :=
       snd (insert_transaction
              (ledger_row now (transactions_transaction_id_seq s) user DEBIT
                 amt descr None)
              (committed s));
     users_user_id_seq := users_user_id_seq s;
     transactions_transaction_id_seq := transactions_transaction_id_seq s + 1 |}.

(** After the atomic unit of a transfer was committed. *)
Definition transferred (now sender : Z) (recipient : Users.row)
  (senderName : string) (delta : numeric) (s : store) : store :=
  {| committed :=
       snd (insert_transaction
              (ledger_row now (transactions_transaction_id_seq s + 1)
                 (Users.user_id recipient) CREDIT delta
                 ("Transfer from " ++ senderName ++ " (P2P)") (Some sender))
         (snd (insert_transaction
                 (ledger_row now (transactions_transaction_id_seq s) sender
                    DEBIT delta
                    ("Transfer to " ++ Users.first_name recipient ++ " (P2P)")
                    (Some (Users.user_id recipient)))
            (snd (update_amount numeric_add delta (Users.user_id recipient) now
               (snd (update_amount numeric_sub delta sender now
                       (committed s))))))));
     users_user_id_seq := users_user_id_seq s;
     transactions_transaction_id_seq :=
       transactions_transaction_id_seq s + 1 + 1 |}.

(** After a transfer that threw once its DEBIT record had drawn an
    identifier: nothing is committed and the sequence has moved on. *)
Definition identifier_spent (s : store) : store :=
  {| committed := committed s;
     users_user_id_seq := users_user_id_seq s;
     transactions_transaction_id_seq := transactions_transaction_id_seq s + 1 |}.

(* ----------------------------------------------------------------- *)
(** *** What the runs keep true of the ledger and of the users *)

(** The amount of a record is a positive decimal, or NaN. *)
Definition positive_or_NaN (a : numeric) : Prop :=
  match a with
  | Dec q => (0 < q)%Q
  | NNaN => True
  end.

(** The identifiers on the ledger grow along the table and lie below
    the next one to be issued; every record is COMPLETED and carries an
    amount that is positive (or NaN). *)
Record ledger_ok (s : store) : Prop := {
  identifiers_increase :
    StronglySorted Z.lt (map Transactions.transaction_id (ledger s));
  identifiers_issued :
    Forall (fun t => Transactions.transaction_id t <
                     transactions_transaction_id_seq s) (ledger s);
  records_completed :
    Forall (fun t => Transactions.status t = "COMPLETED"%string /\
                     positive_or_NaN (Transactions.amount t)) (ledger s)
}.

(** The users and the balance rows go together, one row per user and
    in the same order; no two users share an email address or a mobile
    number. *)
Record directory_ok (s : store) : Prop := {
  one_row_each :
    map Users.user_id (users (committed s)) =
    map AccountBalances.user_id (account_balances (committed s));
  emails_unique : NoDup (map Users.email_id (users (committed s)));
  mobiles_unique : NoDup (map Users.mobile_number (users (committed s)))
}.

(* ----------------------------------------------------------------- *)
(** *** The money in the wallets *)

(** The decimal that an amount holds (0 for NaN). *)
Definition decimal_value (a : numeric) : Q :=
  match a with
  | Dec q => q
  | NNaN => 0%Q
  end.

(** The sum of the balance rows of a table. *)
Definition total_of (l : list AccountBalances.row) : Q :=
  fold_right (fun r acc => (decimal_value (AccountBalances.amount r) + acc)%Q)
    0%Q l.

(** The sum of all balances of a store. *)
Definition total_balance (s : store) : Q :=
  total_of (account_balances (committed s)).

(* ================================================================= *)
(** ** The profile handler *)

Record profile_body : Type := {
  pf_email_id : option string
}.

(** A row of the join of [users] with [account_balances]. *)
Record profile_row : Type := {
  pr_user_id : Z;
  pr_first_name : string;
  pr_last_name : string;
  pr_email_id : string;
  pr_mobile_number : string;
  current_balance : numeric;
  balance_last_updated : Z
}.

(** SELECT u.user_id, ..., b.amount AS current_balance,
           b.last_updated_at AS balance_last_updated
    FROM users u JOIN account_balances b ON u.user_id = b.user_id
    WHERE u.email_id = $1 *)
Definition select_profile (email : string) (d : database)
  : list profile_row :=
  flat_map
    (fun u =>
       map (fun b =>
              {| pr_user_id := Users.user_id u;
                 pr_first_name := Users.first_name u;
                 pr_last_name := Users.last_name u;
                 pr_email_id := Users.email_id u;
                 pr_mobile_number := Users.mobile_number u;
                 current_balance := AccountBalances.amount b;
                 balance_last_updated := AccountBalances.last_updated_at b |})
           (filter (fun b => AccountBalances.user_id b =? Users.user_id u)
              (account_balances d)))
    (filter (fun u => String.eqb (Users.email_id u) email) (users d)).

(** The payloads of the profile handler (the [message] text of a
    success is left out). *)
Inductive profile_json : Type :=
| profile_error (error : string)
| profile_user (id : Z) (firstName lastName emailId mobileNumber : string)
    (currentBalance : numeric) (balanceLastUpdated : Z).

Record profile_response : Type := {
  profile_status : Z;
  profile_payload : profile_json
}.

(** The query goes through [pool.query] and nothing is written. *)
Definition getUserProfileAndBalance (b : profile_body) (s : store)
  : profile_response * store :=
  match truthy_string (pf_email_id b) with
  | None =>
      ({| profile_status := 400;
          profile_payload :=
            profile_error "Missing email_id in request body." |}, s)
  | Some email_id =>
      match select_profile email_id (committed s) with
      | [] =>
          ({| profile_status := 404;
              profile_payload :=
                profile_error "User profile or balance account not found." |},
           s)
      | user :: _ =>
          ({| profile_status := 200;
              profile_payload :=
                profile_user (pr_user_id user) (pr_first_name user)
                  (pr_last_name user) (pr_email_id user)
                  (pr_mobile_number user) (current_balance user)
                  (balance_last_updated user) |}, s)
      end
  end.

(* ================================================================= *)
(** ** Payment instruments *)

(** The handlers of bank accounts, UPI identifiers and cards read and
    write three tables of their own through [pool.query].  Texts are
    taken as ASCII, on which [slice], [trim], [toLowerCase] of the
    handlers and [RIGHT] of the store count and change the same
    characters as the definitions below. *)

(** [s.slice(-n)] and [RIGHT(s, n)]: the last [n] characters, or all of
    [s] when it has fewer. *)
Definition slice_last (n : nat) (s : string) : string :=
  substring (String.length s - n) n s.

(** [s.trim()] *)
Fixpoint trim_end (s : string) : string :=
  match s with
  | EmptyString => EmptyString
  | String c rest =>
      match trim_end rest with
      | EmptyString =>
          if is_white_space c then EmptyString else String c EmptyString
      | kept => String c kept
      end
  end.

Definition trim (s : string) : string := trim_end (trim_start s).

Definition is_upper (c : ascii) : bool :=
  let n := N_of_ascii c in (65 <=? n)%N && (n <=? 90)%N.

Definition lower (c : ascii) : ascii :=
  if is_upper c then ascii_of_N (N_of_ascii c + 32) else c.

(** [s.toLowerCase()] *)
Fixpoint toLowerCase (s : string) : string :=
  match s with
  | EmptyString => EmptyString
  | String c rest => String (lower c) (toLowerCase rest)
  end.

Module UserBankAccounts.
Record row : Type := {
  account_id : Z;
  user_id : Z;
  bank_name : string;
  account_number : string;
  ifsc_code : string;
  account_holder_name : string;
  is_primary : bool
}.
End UserBankAccounts.

Module UserUpiIds.
Record row : Type := {
  upi_id : Z;
  user_id : Z;
  vpa : string;
  is_primary : bool;
  created_at : Z
}.
End UserUpiIds.

Module UserCards.
Record row : Type := {
  card_id : Z;
  user_id : Z;
  masked_card_number : string;
  card_type : string;
  expiry_date : string;
  token : string;
  is_primary : bool;
  created_at : Z
}.
End UserCards.

(** The three tables. *)
Record instruments : Type := {
  user_bank_accounts : list UserBankAccounts.row;
  user_upi_ids : list UserUpiIds.row;
  user_cards : list UserCards.row
}.

(** What an INSERT of these handlers gets from the store, none of which
    the sources fix: the identifier issued for the row, the value that
    the defaults give to [is_primary] (taken to be one of true and false,
    as [created_at] is taken to be a time), and the error that the store
    raises instead of writing, if any, as its SQLSTATE code. *)
Record insertion : Type := {
  issued : Z;
  primary : bool;
  raised : option string
}.

(** ORDER BY with the rows that may come first decided by [precedes];
    rows that [precedes] does not tell apart stay in table order. *)
Fixpoint insert_by {A} (precedes : A -> A -> bool) (r : A) (sorted : list A)
  : list A :=
  match sorted with
  | [] => [r]
  | x :: rest =>
      if precedes r x then r :: sorted
      else x :: insert_by precedes r rest
  end.

Definition order_by {A} (precedes : A -> A -> bool) (rows : list A) : list A :=
  fold_right (insert_by precedes) [] rows.

(** [is_primary DESC], then the order [next] of a second key. *)
Definition primary_first {A} (is_primary : A -> bool) (next : A -> A -> bool)
  (r x : A) : bool :=
  if Bool.eqb (is_primary r) (is_primary x) then next r x else is_primary r.

Record bank_account_view : Type := {
  view_account_id : Z;
  view_bank_name : string;
  masked_account : string;
  view_account_is_primary : bool;
  view_account_holder_name : string
}.

Record upi_view : Type := {
  view_upi_id : Z;
  view_vpa : string;
  view_upi_is_primary : bool
}.

Record card_view : Type := {
  view_card_id : Z;
  view_masked_card_number : string;
  view_card_type : string;
  view_expiry_date : string;
  view_card_is_primary : bool
}.

(** The payloads of these handlers (the [message] text of a success is
    left out).  The listing of UPI identifiers comes under the key
    [accounts], as that of bank accounts does. *)
Inductive instrument_json : Type :=
| instrument_error (error : string)
| bank_accounts_json (accounts : list bank_account_view)
| bank_account_json (account_id : Z) (bank_name : string)
| upi_ids_json (accounts : list upi_view)
| upi_id_json (upi_id : Z) (vpa : string)
| cards_json (cards : list card_view)
| card_json (card_id : Z) (card_type masked_card_number : string).

Record instrument_response : Type := {
  instrument_status : Z;
  instrument_body : instrument_json
}.

Definition answer (code : Z) (payload : instrument_json)
  : instrument_response :=
  {| instrument_status := code; instrument_body := payload |}.

Record instruments_body : Type := {
  ib_user_id : option Z
}.

(** RIGHT(account_number, 4) AS masked_account *)
Definition bank_account_view_of (r : UserBankAccounts.row)
  : bank_account_view :=
  {| view_account_id := UserBankAccounts.account_id r;
     view_bank_name := UserBankAccounts.bank_name r;
     masked_account := slice_last 4 (UserBankAccounts.account_number r);
     view_account_is_primary := UserBankAccounts.is_primary r;
     view_account_holder_name := UserBankAccounts.account_holder_name r |}.

(** SELECT ... FROM user_bank_accounts WHERE user_id = $1
    ORDER BY is_primary DESC, bank_name ASC;
    [collate a b] tells whether the store sorts [a] no later than [b]. *)
Definition select_bank_accounts (collate : string -> string -> bool)
  (uid : Z) (t : instruments) : list bank_account_view :=
  map bank_account_view_of
    (order_by
       (primary_first UserBankAccounts.is_primary
          (fun r x => collate (UserBankAccounts.bank_name r)
                              (UserBankAccounts.bank_name x)))
       (filter (fun r => UserBankAccounts.user_id r =? uid)
          (user_bank_accounts t))).

Definition getUserBankAccounts (collate : string -> string -> bool)
  (b : instruments_body) (t : instruments)
  : instrument_response * instruments :=
  match truthy_id (ib_user_id b) with
  | None =>
      (answer 400 (instrument_error "Valid user_id is required."), t)
  | Some user_id =>
      (answer 200 (bank_accounts_json (select_bank_accounts collate user_id t)),
       t)
  end.

Record add_bank_account_body : Type := {
  ba_user_id : option Z;
  ba_bank_name : option string;
  ba_account_number : option string;
  ba_ifsc_code : option string;
  ba_account_holder_name : option string
}.

Definition addBankAccount (i : insertion) (b : add_bank_account_body)
  (t : instruments) : instrument_response * instruments :=
  match truthy_id (ba_user_id b), truthy_string (ba_bank_name b),
        truthy_string (ba_account_number b), truthy_string (ba_ifsc_code b),
        truthy_string (ba_account_holder_name b) with
  | Some user_id, Some bank_name, Some account_number, Some ifsc_code,
    Some account_holder_name =>
      match raised i with
      | None =>
          (answer 201 (bank_account_json (issued i) bank_name),
           {| user_bank_accounts :=
                user_bank_accounts t ++
                [{| UserBankAccounts.account_id := issued i;
                    UserBankAccounts.user_id := user_id;
                    UserBankAccounts.bank_name := bank_name;
                    UserBankAccounts.account_number := account_number;
                    UserBankAccounts.ifsc_code := ifsc_code;
                    UserBankAccounts.account_holder_name :=
                      account_holder_name;
                    UserBankAccounts.is_primary := primary i |}];
              user_upi_ids := user_upi_ids t;
              user_cards := user_cards t |})
      | Some code =>
          if String.eqb code "23505" then
            (answer 409 (instrument_error
               "This bank account is already linked to your profile."), t)
          else
            (answer 500 (instrument_error
               "Internal server error while adding account."), t)
      end
  | _, _, _, _, _ =>
      (answer 400 (instrument_error "All bank account fields are required."),
       t)
  end.

Definition upi_view_of (r : UserUpiIds.row) : upi_view :=
  {| view_upi_id := UserUpiIds.upi_id r;
     view_vpa := UserUpiIds.vpa r;
     view_upi_is_primary := UserUpiIds.is_primary r |}.

(** SELECT upi_id, vpa, is_primary FROM user_upi_ids WHERE user_id = $1
    ORDER BY is_primary DESC, created_at DESC; *)
Definition select_upi_ids (uid : Z) (t : instruments) : list upi_view :=
  map upi_view_of
    (order_by
       (primary_first UserUpiIds.is_primary
          (fun r x => UserUpiIds.created_at x <=? UserUpiIds.created_at r))
       (filter (fun r => UserUpiIds.user_id r =? uid) (user_upi_ids t))).

Definition getUpiIds (b : instruments_body) (t : instruments)
  : instrument_response * instruments :=
  match truthy_id (ib_user_id b) with
  | None =>
      (answer 400 (instrument_error "Valid user_id is required."), t)
  | Some user_id =>
      (answer 200 (upi_ids_json (select_upi_ids user_id t)), t)
  end.

Record add_upi_id_body : Type := {
  au_user_id : option Z;
  au_vpa : option string
}.

Definition addUpiId (now : Z) (i : insertion) (b : add_upi_id_body)
  (t : instruments) : instrument_response * instruments :=
  match truthy_id (au_user_id b), truthy_string (au_vpa b) with
  | Some user_id, Some vpa =>
      match raised i with
      | None =>
          let stored := toLowerCase (trim vpa) in
          (answer 201 (upi_id_json (issued i) stored),
           {| user_bank_accounts := user_bank_accounts t;
              user_upi_ids :=
                user_upi_ids t ++
                [{| UserUpiIds.upi_id := issued i;
                    UserUpiIds.user_id := user_id;
                    UserUpiIds.vpa := stored;
                    UserUpiIds.is_primary := primary i;
                    UserUpiIds.created_at := now |}];
              user_cards := user_cards t |})
      | Some code =>
          if String.eqb code "23505" then
            (answer 409 (instrument_error
               "This UPI ID is already linked to your profile."), t)
          else
            (answer 500 (instrument_error
               "Internal server error while adding UPI ID."), t)
      end
  | _, _ =>
      (answer 400 (instrument_error "User ID and VPA are required."), t)
  end.

Definition card_view_of (r : UserCards.row) : card_view :=
  {| view_card_id := UserCards.card_id r;
     view_masked_card_number := UserCards.masked_card_number r;
     view_card_type := UserCards.card_type r;
     view_expiry_date := UserCards.expiry_date r;
     view_card_is_primary := UserCards.is_primary r |}.

(** SELECT card_id, masked_card_number, card_type, expiry_date, is_primary
    FROM user_cards WHERE user_id = $1
    ORDER BY is_primary DESC, created_at DESC; *)
Definition select_cards (uid : Z) (t : instruments) : list card_view :=
  map card_view_of
    (order_by
       (primary_first UserCards.is_primary
          (fun r x => UserCards.created_at x <=? UserCards.created_at r))
       (filter (fun r => UserCards.user_id r =? uid) (user_cards t))).

Definition getCards (b : instruments_body) (t : instruments)
  : instrument_response * instruments :=
  match truthy_id (ib_user_id b) with
  | None =>
      (answer 400 (instrument_error "Valid user_id is required."), t)
  | Some user_id =>
      (answer 200 (cards_json (select_cards user_id t)), t)
  end.

Record add_card_body : Type := {
  ac_user_id : option Z;
  ac_card_number : option string;
  ac_card_type : option string;
  ac_expiry_date : option string;
  ac_cvv : option string
}.

(** [simulatedToken] is the text that [crypto.randomBytes] gives. *)
Definition addCard (now : Z) (simulatedToken : string) (i : insertion)
  (b : add_card_body) (t : instruments)
  : instrument_response * instruments :=
  match truthy_id (ac_user_id b), truthy_string (ac_card_number b),
        truthy_string (ac_card_type b), truthy_string (ac_expiry_date b),
        truthy_string (ac_cvv b) with
  | Some user_id, Some card_number, Some card_type, Some expiry_date,
    Some cvv =>
      if negb (String.eqb card_type "DEBIT")
         && negb (String.eqb card_type "CREDIT") then
        (answer 400 (instrument_error
           "Card Type must be either DEBIT or CREDIT."), t)
      else
        let maskedCard := slice_last 4 card_number in
        match raised i with
        | None =>
            (answer 201 (card_json (issued i) card_type maskedCard),
             {| user_bank_accounts := user_bank_accounts t;
                user_upi_ids := user_upi_ids t;
                user_cards :=
                  user_cards t ++
                  [{| UserCards.card_id := issued i;
                      UserCards.user_id := user_id;
                      UserCards.masked_card_number := maskedCard;
                      UserCards.card_type := card_type;
                      UserCards.expiry_date := expiry_date;
                      UserCards.token := simulatedToken;
                      UserCards.is_primary := primary i;
                      UserCards.created_at := now |}];
                |})
        | Some _ =>
            (answer 500 (instrument_error
               "Internal server error while adding card."), t)
        end
  | _, _, _, _, _ =>
      (answer 400 (instrument_error "All card fields are required."), t)
  end.

(** No row of a primary instrument comes after one that is not. *)
Definition primaries_first (flags : list bool) : Prop :=
  StronglySorted (fun a b => b = true -> a = true) flags.

(** No capital letter of the ASCII alphabet, and no white space at
    either end. *)
Fixpoint no_upper (s : string) : bool :=
  match s with
  | EmptyString => true
  | String c rest => negb (is_upper c) && no_upper rest
  end.

Fixpoint last_char (s : string) : option ascii :=
  match s with
  | EmptyString => None
  | String c EmptyString => Some c
  | String _ rest => last_char rest
  end.

Definition first_char (s : string) : option ascii :=
  match s with
  | EmptyString => None
  | String c _ => Some c
  end.

Definition dark (c : option ascii) : bool :=
  match c with
  | Some c => negb (is_white_space c)
  | None => true
  end.

Definition normalised (s : string) : Prop :=
  no_upper s = true /\ dark (first_char s) = true /\ dark (last_char s) = true.

(* ================================================================= *)
(** ** Logging in *)

Record login_body : Type := {
  login_email_id : option string;
  login_password : option string
}.

Inductive login_json : Type :=
| login_error (error : string)
| login_user (user_id : Z) (first_name email_id : string).

Record login_response : Type := {
  login_status : Z;
  login_payload : login_json
}.

(** SELECT user_id, password, first_name, email_id, mobile_number
    FROM users WHERE <column> = $1 *)
Definition select_login (isEmail : bool) (loginIdentifier : string)
  (d : database) : list Users.row :=
  if isEmail then select_user_where Users.email_id loginIdentifier d
  else select_user_where Users.mobile_number loginIdentifier d.

(** [bcrypt.compare(password, storedHash)] is [compare password user] for
    the row [user] that holds [storedHash]; it rejects when there is no
    password.  [loginIdentifier.includes] throws when there is no
    identifier. *)
Definition loginUser (compare : string -> Users.row -> bool) (b : login_body)
  (s : store) : login_response * store :=
  let failure :=
    {| login_status := 500;
       login_payload := login_error "Internal server error during login." |} in
  let refusal :=
    {| login_status := 401;
       login_payload :=
         login_error "Invalid email/mobile number or password." |} in
  match login_email_id b with
  | None => (failure, s)
  | Some loginIdentifier =>
      let isEmail := includes "@" loginIdentifier in
      match select_login isEmail loginIdentifier (committed s) with
      | [] => (refusal, s)
      | user :: _ =>
          match login_password b with
          | None => (failure, s)
          | Some password =>
              if compare password user then
                ({| login_status := 200;
                    login_payload :=
                      login_user (Users.user_id user) (Users.first_name user)
                        (Users.email_id user) |}, s)
              else (refusal, s)
          end
      end
  end.

(** The routes of [user.routes] that reach the handlers of instruments,
    each with what the clock, the store and [crypto] give to it. *)
Inductive instrument_request : Type :=
| POST_user_bank_accounts_list (collate : string -> string -> bool)
    (b : instruments_body)
| POST_user_bank_accounts_add (i : insertion) (b : add_bank_account_body)
| POST_user_upi_ids_list (b : instruments_body)
| POST_user_upi_ids_add (now : Z) (i : insertion) (b : add_upi_id_body)
| POST_user_cards_list (b : instruments_body)
| POST_user_cards_add (now : Z) (simulatedToken : string) (i : insertion)
    (b : add_card_body).

Definition route_instrument (r : instrument_request) (t : instruments)
  : instrument_response * instruments :=
  match r with
  | POST_user_bank_accounts_list collate b => getUserBankAccounts collate b t
  | POST_user_bank_accounts_add i b => addBankAccount i b t
  | POST_user_upi_ids_list b => getUpiIds b t
  | POST_user_upi_ids_add now i b => addUpiId now i b t
  | POST_user_cards_list b => getCards b t
  | POST_user_cards_add now simulatedToken i b =>
      addCard now simulatedToken i b t
  end.

Fixpoint serve_instruments (rs : list instrument_request) (t : instruments)
  : instruments :=
  match rs with
  | [] => t
  | r :: rest => serve_instruments rest (snd (route_instrument r t))
  end.

Definition no_instruments : instruments :=
  {| user_bank_accounts := []; user_upi_ids := []; user_cards := [] |}.





(** [is_primary DESC, created_at DESC] on two rows, the first of which is
    listed before the second. *)
Definition primary_then_newest (primary_a primary_b : bool)
  (created_a created_b : Z) : Prop :=
  (primary_b = true -> primary_a = true)
  /\ (primary_a = primary_b -> created_b <= created_a).

(* ----------------------------------------------------------------- *)
(** *** Further examples *)

Definition carol : register_body :=
  {| reg_first_name := "Carol"; reg_last_name := "Shields";
     reg_email_id := "carol@example.com"; reg_password := Some "secret"%string;
     reg_mobile_number := "9000000003" |}.

Definition alice_row : Users.row :=
  {| Users.user_id := 1; Users.first_name := "Alice";
     Users.last_name := "Liddell"; Users.email_id := "alice@example.com";
     Users.mobile_number := "9000000001"; Users.created_at := 10 |}.

Definition bob_row : Users.row :=
  {| Users.user_id := 2; Users.first_name := "Bob";
     Users.last_name := "Marley"; Users.email_id := "bob@example.com";
     Users.mobile_number := "9000000002"; Users.created_at := 11 |}.

Definition transfer (sender : Z) (identifier amount : string)
  : send_money_body :=
  {| sm_sender_id := Some (id_number sender);
     sm_recipient_identifier := Some identifier;
     sm_amount := amount |}.

Definition unconstrained (id : Z) : insertion :=
  {| issued := id; primary := false; raised := None |}.

Definition visa : add_card_body :=
  {| ac_user_id := Some 1;
     ac_card_number := Some "4111111111111111"%string;
     ac_card_type := Some "DEBIT"%string;
     ac_expiry_date := Some "2030-01-31"%string;
     ac_cvv := Some "123"%string |}.

(** User 1 has a bank account, a UPI identifier and two cards, the
    second of which is primary. *)
Definition some_instruments : instruments :=
  serve_instruments
    [POST_user_bank_accounts_add (unconstrained 1)
       {| ba_user_id := Some 1;
          ba_bank_name := Some "First Bank"%string;
          ba_account_number := Some "000123456789"%string;
          ba_ifsc_code := Some "FRST0000001"%string;
          ba_account_holder_name := Some "Alice Liddell"%string |};
     POST_user_upi_ids_add 31 (unconstrained 1)
       {| au_user_id := Some 1; au_vpa := Some " Alice@UPI "%string |};
     POST_user_cards_add 32 "00ff" (unconstrained 1) visa;
     POST_user_cards_add 33 "11ee"
       {| issued := 2; primary := true; raised := None |}
       {| ac_user_id := Some 1;
          ac_card_number := Some "5500005555555559"%string;
          ac_card_type := Some "CREDIT"%string;
          ac_expiry_date := Some "2031-06-30"%string;
          ac_cvv := Some "456"%string |}]
    no_instruments.

(** [bcrypt.compare] for users whose password is all the same. *)
Definition same_password (expected : string) (password : string)
  (user : Users.row) : bool :=
  String.eqb password expected.

(* ================================================================= *)
(** ** Proof tools *)

(** Unfolds the plumbing of a handler down to the statements. *)
Ltac io_cbn :=
  cbv beta iota zeta delta
    [run_handler bind ret throw BEGIN COMMIT ROLLBACK rollback
     pool_query client_select client_query numeric_parameter
     integer_parameter
     log_transaction nextval_transaction_id nextval_user_id first_row
     bcrypt_hash];
  cbn [server working committed fst snd
       users_user_id_seq transactions_transaction_id_seq set_committed].

(** Closes a branch whose answer is not the status assumed. *)
Ltac now_refused :=
  let H := fresh in intros H; cbn in H; discriminate H.

(** Takes apart the rows that the goal branches on. *)
Ltac destruct_rows :=
  match goal with
  | |- context [match ?rows with [] => _ | _ :: _ => _ end] => destruct rows
  end.

(** Takes apart the alternatives of an outcome, once introduced. *)
Ltac break_outcome :=
  repeat match goal with
         | H : _ \/ _ |- _ => destruct H
         | H : exists _, _ |- _ => destruct H
         | H : _ /\ _ |- _ => destruct H
         end.

(** Replaces the call of a handler by the outcome at hand. *)
Ltac use_outcome :=
  match goal with
  | E : registerUser _ _ _ = _ |- _ => rewrite E in *
  | E : addFunds _ _ _ = _ |- _ => rewrite E in *
  | E : payBill _ _ _ = _ |- _ => rewrite E in *
  | E : sendMoney _ _ _ = _ |- _ => rewrite E in *
  end.

(* ================================================================= *)
(** * Properties *)

(* ----------------------------------------------------------------- *)
(** ** Comparisons and validation *)

Lemma js_le_positive (a : Q) : (0 < a)%Q -> js_le (Num a) (Num 0) = false.
Proof.
  intros Ha. simpl. destruct (Qle_bool a 0) eqn:E; [|reflexivity].
  apply Qle_bool_iff in E. lra.
Qed.

Lemma js_le_not_positive (a : Q) : (a <= 0)%Q -> js_le (Num a) (Num 0) = true.
Proof. intros Ha. simpl. now apply Qle_bool_iff. Qed.

Lemma js_le_false_positive (a : Q) :
  js_le (Num a) (Num 0) = false -> (0 < a)%Q.
Proof.
  intros Hle. destruct (Qlt_le_dec 0 a) as [H|H]; [exact H|].
  now rewrite (js_le_not_positive a H) in Hle.
Qed.

Lemma js_lt_iff (a b : Q) : js_lt (Num a) (Num b) = true <-> (a < b)%Q.
Proof.
  simpl. destruct (Qle_bool b a) eqn:E; simpl.
  - apply Qle_bool_iff in E. split; [discriminate | lra].
  - split; [intros _ | reflexivity].
    destruct (Qlt_le_dec a b) as [H|H]; [exact H|].
    apply Qle_bool_iff in H. congruence.
Qed.

Lemma js_lt_false_iff (a b : Q) : js_lt (Num a) (Num b) = false <-> (b <= a)%Q.
Proof.
  simpl. rewrite negb_false_iff. apply Qle_bool_iff.
Qed.

(* ----------------------------------------------------------------- *)
(** ** The decimal that the driver sends *)

Lemma pow10_positive (e : Z) : (0 < pow10 e)%Q.
Proof.
  unfold pow10. destruct (e <? 0) eqn:E.
  - reflexivity.
  - apply Z.ltb_ge in E. unfold Qlt. cbn [Qnum Qden].
    assert (0 < 10 ^ e) by (apply Z.pow_pos_nonneg; lia). lia.
Qed.

Lemma candidate_positive (q : Q) (e k : Z) (v : Q) :
  (0 < q)%Q -> 1 <= k -> Binary64.candidate q e k = Some v -> (0 < v)%Q.
Proof.
  intros Hq Hk. unfold Binary64.candidate.
  set (unit := pow10 (e - k + 1)).
  assert (Hunit : (0 < unit)%Q) by apply pow10_positive.
  set (below := Qfloor (q / unit)).
  assert (Hbelow : 0 <= below).
  { change 0 with (Qfloor 0). apply Qfloor_resp_le.
    apply Qlt_le_weak, Qlt_shift_div_l; [exact Hunit | lra]. }
  assert (Hhi : (0 < inject_Z (below + 1) * unit)%Q).
  { apply Qmult_lt_0_compat; [|exact Hunit].
    change 0%Q with (inject_Z 0). rewrite <- Zlt_Qlt. lia. }
  assert (Hlo : 10 ^ (k - 1) <= below -> (0 < inject_Z below * unit)%Q).
  { intros Hdigits. apply Qmult_lt_0_compat; [|exact Hunit].
    change 0%Q with (inject_Z 0). rewrite <- Zlt_Qlt.
    assert (0 < 10 ^ (k - 1)) by (apply Z.pow_pos_nonneg; lia). lia. }
  destruct (10 ^ (k - 1) <=? below) eqn:Hdigits; cbn [andb].
  - apply Z.leb_le in Hdigits. specialize (Hlo Hdigits).
    destruct (Binary64.reads_as (inject_Z below * unit) q),
             (Binary64.reads_as (inject_Z (below + 1) * unit) q);
      try discriminate.
    + destruct (q - inject_Z below * unit
                ?= inject_Z (below + 1) * unit - q)%Q;
        [destruct (Z.even below) | |]; intros [= <-]; assumption.
    + intros [= <-]; assumption.
    + intros [= <-]; assumption.
  - destruct (Binary64.reads_as (inject_Z (below + 1) * unit) q);
      [intros [= <-]; assumption | discriminate].
Qed.

Lemma shortest_from_positive (fuel : nat) (k : Z) (q : Q) (e : Z) :
  (0 < q)%Q -> 1 <= k -> (0 < Binary64.shortest_from fuel k q e)%Q.
Proof.
  revert k. induction fuel as [|fuel IH]; intros k Hq Hk;
    cbn [Binary64.shortest_from]; [exact Hq|].
  destruct (Binary64.candidate q e k) as [v|] eqn:E.
  - eapply candidate_positive; eassumption.
  - apply IH; [exact Hq | lia].
Qed.

(** What the driver sends for a positive Number is a positive decimal. *)
Lemma shortest_decimal_positive (a : Q) :
  (0 < a)%Q -> (0 < Binary64.shortest_decimal a)%Q.
Proof.
  intros Ha. unfold Binary64.shortest_decimal.
  assert (Hnum : (Qnum a ?= 0) = Gt).
  { apply Z.compare_gt_iff. unfold Qlt in Ha. cbn in Ha. lia. }
  rewrite Hnum. rewrite Qred_correct.
  apply shortest_from_positive; [exact Ha | lia].
Qed.

(** A Number that passes [amount <= 0] as false and reaches the store is
    NaN or a positive decimal. *)
Lemma accepted_amount (x : number) (v : numeric) :
  js_le x (Num 0) = false -> to_numeric x = Some v ->
  v = NNaN \/ exists a, v = Dec a /\ (0 < a)%Q.
Proof.
  destruct x as [|negative|a]; cbn [to_numeric]; intros Hle Hv;
    try discriminate.
  - left. congruence.
  - right. exists (Binary64.shortest_decimal a). split; [congruence|].
    apply shortest_decimal_positive, js_le_false_positive, Hle.
Qed.

Lemma findRecipient_run (identifier : string) (c : connection) :
  findRecipient identifier c = (Normal (recipient_of identifier (server c)), c).
Proof. reflexivity. Qed.

(* ----------------------------------------------------------------- *)
(** ** The identifier fields *)

Lemma user_of_number (n : Z) : n <> 0 -> user_of (Some (id_number n)) = Some n.
Proof.
  intros Hn. unfold user_of. cbn [truthy_field].
  apply Z.eqb_neq in Hn. rewrite Hn. reflexivity.
Qed.

(** A field that names a user passes [!v], and the store reads the user
    from it. *)
Lemma user_of_some (v : option id_field) (user : Z) :
  user_of v = Some user ->
  exists f, truthy_field v = Some f /\ integer_of f = Some user.
Proof.
  unfold user_of. destruct (truthy_field v) as [f|]; [|discriminate].
  intros H. exists f. split; [reflexivity | exact H].
Qed.

(* ----------------------------------------------------------------- *)
(** ** What the statements do to the tables *)

Section UpdateAmount.

(** One UPDATE of [account_balances]: [amount = amount <op> delta] on
    the rows of user [u], run at time [now]. *)
Variable op : numeric -> numeric -> numeric.
Variables (delta : numeric) (u now : Z).

Lemma select_amount_update_same (d : database) :
  select_amount u (snd (update_amount op delta u now d)) =
  map (fun x => op x delta) (select_amount u d).
Proof.
  unfold select_amount, update_amount. cbn [snd account_balances].
  induction (account_balances d) as [|r l IH]; [reflexivity|].
  cbn [map filter].
  destruct (Z.eqb_spec (AccountBalances.user_id r) u) as [E|E];
    cbn [AccountBalances.user_id].
  - rewrite E, Z.eqb_refl. cbn [map AccountBalances.amount]. now rewrite IH.
  - destruct (Z.eqb_spec (AccountBalances.user_id r) u); [contradiction|].
    exact IH.
Qed.

Lemma select_amount_update_other (other : Z) (d : database) :
  other <> u ->
  select_amount other (snd (update_amount op delta u now d)) =
  select_amount other d.
Proof.
  intros Hne. unfold select_amount, update_amount.
  cbn [snd account_balances].
  induction (account_balances d) as [|r l IH]; [reflexivity|].
  cbn [map filter].
  destruct (Z.eqb_spec (AccountBalances.user_id r) u) as [E'|E'];
    cbn [AccountBalances.user_id].
  - destruct (Z.eqb_spec (AccountBalances.user_id r) other) as [E|E];
      [congruence|exact IH].
  - destruct (Z.eqb_spec (AccountBalances.user_id r) other) as [E|E];
      [cbn [map]; now rewrite IH | exact IH].
Qed.

(** RETURNING amount *)
Lemma fst_update_amount (d : database) :
  fst (update_amount op delta u now d) =
  map (fun x => op x delta) (select_amount u d).
Proof. rewrite <- select_amount_update_same. reflexivity. Qed.


Lemma user_id_update_amount (d : database) :
  map AccountBalances.user_id
    (account_balances (snd (update_amount op delta u now d))) =
  map AccountBalances.user_id (account_balances d).
Proof.
  unfold update_amount. cbn [snd account_balances]. rewrite map_map.
  apply map_ext. intros r.
  now destruct (AccountBalances.user_id r =? u).
Qed.

(** A property of the amounts that the rows of [u] keep under [op] is
    kept by the table. *)
Lemma amounts_update_amount (P : numeric -> Prop) (d : database) :
  Forall (fun r => P (AccountBalances.amount r)) (account_balances d) ->
  (forall r, In r (account_balances d) -> AccountBalances.user_id r = u ->
             P (op (AccountBalances.amount r) delta)) ->
  Forall (fun r => P (AccountBalances.amount r))
    (account_balances (snd (update_amount op delta u now d))).
Proof.
  intros Hall Hrow. unfold update_amount. cbn [snd account_balances].
  apply Forall_map. apply Forall_forall. intros r Hr.
  destruct (Z.eqb_spec (AccountBalances.user_id r) u) as [E|E].
  - cbn [AccountBalances.amount]. now apply Hrow.
  - rewrite Forall_forall in Hall. now apply Hall.
Qed.

Lemma issued_update_amount (bound : Z) (d : database) :
  Forall (fun r => AccountBalances.user_id r < bound) (account_balances d) ->
  Forall (fun r => AccountBalances.user_id r < bound)
    (account_balances (snd (update_amount op delta u now d))).
Proof.
  intros H.
  apply (Forall_map AccountBalances.user_id (fun i => i < bound)).
  rewrite user_id_update_amount.
  now apply (Forall_map AccountBalances.user_id (fun i => i < bound)).
Qed.

End UpdateAmount.

Lemma select_amount_insert_transaction (u : Z) (r : Transactions.row)
  (d : database) :
  select_amount u (snd (insert_transaction r d)) = select_amount u d.
Proof. reflexivity. Qed.


(* ----------------------------------------------------------------- *)
(** ** The outcomes of each handler *)

(** A registration is answered 409, 500 or 201; only the last changes
    the store. *)
Lemma registerUser_outcome (now : Z) (b : register_body) (s : store) :
  let existing :=
    select_existing_user (reg_email_id b) (reg_mobile_number b) (committed s) in
  (existing <> [] /\
   registerUser now b s =
     (respond 409
        (error_json "User with this email or mobile number already exists."),
      s)) \/
  (existing = [] /\ reg_password b = None /\
   registerUser now b s =
     (respond 500
        (error_json
           "Internal server error. Registration failed during final database commit/cleanup."),
      s)) \/
  (existing = [] /\ reg_password b <> None /\
   registerUser now b s =
     (respond 201
        (user_json (users_user_id_seq s) (reg_first_name b) (reg_email_id b)
           now),
      registered now b s)).
Proof.
  cbv zeta. unfold registerUser. io_cbn.
  destruct (select_existing_user _ _ _) as [|u rest]; io_cbn.
  - right. destruct (reg_password b) as [p|]; io_cbn.
    + right. repeat split; discriminate || reflexivity.
    + left. repeat split; reflexivity.
  - left. split; [discriminate|reflexivity].
Qed.

(** A deposit is refused (400), fails before anything is written (500:
    an infinite amount, or an identifier that the store cannot read), or
    commits its atomic unit; in the last case it is answered 200 with
    the first updated amount, or 500 when the user had no balance row to
    update. *)
Lemma addFunds_outcome (now : Z) (b : add_funds_body) (s : store) :
  let amount := parseFloat (af_amount b) in
  ((truthy_field (af_user_id b) = None \/ js_le amount (Num 0) = true) /\
   addFunds now b s =
     (respond 400 (error_json "Valid user ID and positive amount required."),
      s)) \/
  (exists field,
     truthy_field (af_user_id b) = Some field /\
     js_le amount (Num 0) = false /\
     (to_numeric amount = None \/ integer_of field = None) /\
     addFunds now b s =
       (respond 500 (error_json "Internal server error: Deposit failed."),
        s)) \/
  (exists user delta,
     user_of (af_user_id b) = Some user /\ js_le amount (Num 0) = false /\
     to_numeric amount = Some delta /\
     addFunds now b s =
       (match balance_of user s with
        | old :: _ => respond 200 (new_balance_json (numeric_add old delta))
        | [] =>
            respond 500 (error_json "Internal server error: Deposit failed.")
        end,
        deposited now user delta s)).
Proof.
  cbv zeta. unfold addFunds, balance_of, deposited, user_of.
  destruct (truthy_field (af_user_id b)) as [field|];
    [|left; split; [now left|reflexivity]].
  destruct (js_le (parseFloat (af_amount b)) (Num 0)) eqn:Hle;
    [left; split; [now right|reflexivity]|].
  right. io_cbn.
  destruct (to_numeric (parseFloat (af_amount b))) as [delta|]; io_cbn;
    [|left; exists field; repeat split; left; reflexivity].
  destruct (integer_of field) as [user|] eqn:Hfield; io_cbn;
    [|left; exists field; repeat split; right; exact Hfield].
  right. exists user, delta. repeat split.
  rewrite fst_update_amount.
  destruct (select_amount user (committed s)); reflexivity.
Qed.

(** A bill payment is refused (400), turned down for lack of funds
    (402), fails before anything is written (500), or records its DEBIT
    and is answered 200 with the balance it read. *)
Lemma payBill_outcome (now : Z) (b : pay_bill_body) (s : store) :
  let amount := parseFloat (pb_amount b) in
  ((truthy_field (pb_user_id b) = None \/
    truthy_string (pb_merchant_id b) = None \/
    js_le amount (Num 0) = true) /\
   payBill now b s =
     (respond 400
        (error_json
           "Valid user ID, merchant ID, and positive amount required."),
      s)) \/
  (exists field merchant,
     truthy_field (pb_user_id b) = Some field /\
     truthy_string (pb_merchant_id b) = Some merchant /\
     js_le amount (Num 0) = false /\
     integer_of field = None /\
     payBill now b s =
       (respond 500
          (error_json "Internal server error: Payment processing failed."),
        s)) \/
  (exists user merchant,
     user_of (pb_user_id b) = Some user /\
     truthy_string (pb_merchant_id b) = Some merchant /\
     js_le amount (Num 0) = false /\
     ((insufficient (balance_of user s) amount = true /\
       payBill now b s =
         (respond 402 (error_json "Insufficient funds for this payment."),
          s)) \/
      (insufficient (balance_of user s) amount = false /\
       to_numeric amount = None /\
       payBill now b s =
         (respond 500
            (error_json "Internal server error: Payment processing failed."),
          s)) \/
      (exists amt old rest,
         insufficient (balance_of user s) amount = false /\
         to_numeric amount = Some amt /\
         balance_of user s = old :: rest /\
         payBill now b s =
           (respond 200 (new_balance_json old),
            bill_recorded now user amt (pb_description b) s)))).
Proof.
  cbv zeta. unfold payBill, balance_of, bill_recorded, user_of.
  destruct (truthy_field (pb_user_id b)) as [field|];
    [|left; split; [now left|reflexivity]].
  destruct (truthy_string (pb_merchant_id b)) as [merchant|];
    [|left; split; [right; now left|reflexivity]].
  destruct (js_le (parseFloat (pb_amount b)) (Num 0)) eqn:Hle;
    [left; split; [right; now right|reflexivity]|].
  right. io_cbn.
  destruct (integer_of field) as [user|] eqn:Hfield; io_cbn;
    [|left; exists field, merchant; now repeat split].
  right. exists user, merchant. repeat split.
  destruct (insufficient (select_amount user (committed s))
              (parseFloat (pb_amount b))) eqn:Hins; io_cbn;
    [left; now split|].
  right.
  destruct (to_numeric (parseFloat (pb_amount b))) as [amt|]; io_cbn;
    [|left; now repeat split].
  right. rewrite select_amount_insert_transaction.
  destruct (select_amount user (committed s)) as [|old rest] eqn:Hrows;
    [discriminate Hins|].
  exists amt, old, rest. io_cbn. now repeat split.
Qed.

(** A transfer goes through its checks in this order: the fields (400),
    the recipient (404), the self-transfer (400); the store then reads
    the sender (500 when it cannot) and the funds are checked (402); an
    infinite amount fails before anything is written (500), a sender
    without a users row fails after the DEBIT record drew its identifier
    (500, nothing committed), and otherwise the atomic unit is committed
    and the answer is 200 with the sender's new balance. *)
Lemma sendMoney_outcome (now : Z) (b : send_money_body) (s : store) :
  let amount := parseFloat (sm_amount b) in
  ((truthy_field (sm_sender_id b) = None \/
    truthy_string (sm_recipient_identifier b) = None \/
    js_le amount (Num 0) = true) /\
   sendMoney now b s =
     (respond 400
        (error_json "Sender ID, recipient, and positive amount required."),
      s)) \/
  (exists field identifier,
     truthy_field (sm_sender_id b) = Some field /\
     truthy_string (sm_recipient_identifier b) = Some identifier /\
     js_le amount (Num 0) = false /\
     ((recipient_of identifier s = None /\
       sendMoney now b s =
         (respond 404 (error_json "Recipient not found."), s)) \/
      (exists recipient,
         recipient_of identifier s = Some recipient /\
         ((strict_equal field (Users.user_id recipient) = true /\
           sendMoney now b s =
             (respond 400 (error_json "Cannot send money to yourself."), s)) \/
          (strict_equal field (Users.user_id recipient) = false /\
           integer_of field = None /\
           sendMoney now b s =
             (respond 500
                (error_json "Internal server error: P2P transfer failed."),
              s)) \/
          (exists sender,
             strict_equal field (Users.user_id recipient) = false /\
             integer_of field = Some sender /\
             ((insufficient (balance_of sender s) amount = true /\
               sendMoney now b s =
                 (respond 402 (error_json "Insufficient funds."), s)) \/
              (insufficient (balance_of sender s) amount = false /\
               to_numeric amount = None /\
               sendMoney now b s =
                 (respond 500
                    (error_json "Internal server error: P2P transfer failed."),
                  s)) \/
              (exists delta,
                 insufficient (balance_of sender s) amount = false /\
                 to_numeric amount = Some delta /\
                 select_first_name sender (committed s) = [] /\
                 sendMoney now b s =
                   (respond 500
                      (error_json
                         "Internal server error: P2P transfer failed."),
                    identifier_spent s)) \/
              (exists delta senderName names old rest new_balance others,
                 insufficient (balance_of sender s) amount = false /\
                 to_numeric amount = Some delta /\
                 select_first_name sender (committed s)
                 = senderName :: names /\
                 balance_of sender s = old :: rest /\
                 balance_of sender
                   (transferred now sender recipient senderName delta s)
                 = new_balance :: others /\
                 sendMoney now b s =
                   (respond 200 (new_balance_json new_balance),
                    transferred now sender recipient senderName delta
                      s)))))))).
Proof.
  cbv zeta. unfold sendMoney, balance_of, transferred, identifier_spent.
  destruct (truthy_field (sm_sender_id b)) as [field|];
    [|left; split; [now left|reflexivity]].
  destruct (truthy_string (sm_recipient_identifier b)) as [identifier|];
    [|left; split; [right; now left|reflexivity]].
  destruct (js_le (parseFloat (sm_amount b)) (Num 0)) eqn:Hle;
    [left; split; [right; now right|reflexivity]|].
  right. exists field, identifier. repeat split.
  io_cbn. rewrite findRecipient_run. io_cbn.
  destruct (recipient_of identifier s) as [recipient|]; io_cbn;
    [|left; now split].
  right. exists recipient. split; [reflexivity|].
  destruct (strict_equal field (Users.user_id recipient)) eqn:Hself;
    io_cbn; [left; now split|].
  right.
  destruct (integer_of field) as [sender|] eqn:Hfield; io_cbn;
    [|left; now repeat split].
  right. exists sender. split; [reflexivity|]. split; [reflexivity|].
  destruct (insufficient (select_amount sender (committed s))
              (parseFloat (sm_amount b))) eqn:Hins; io_cbn;
    [left; now repeat split|].
  right.
  destruct (to_numeric (parseFloat (sm_amount b))) as [delta|]; io_cbn;
    [|left; now repeat split].
  right.
  destruct (select_first_name sender (committed s)) as [|senderName names];
    io_cbn; [left; exists delta; now repeat split|].
  right.
  destruct (select_amount sender (committed s)) as [|old rest] eqn:Hrows;
    [discriminate Hins|].
  rewrite !select_amount_insert_transaction.
  assert (Hnew : exists new_balance others,
    select_amount sender
      (snd (update_amount numeric_add delta (Users.user_id recipient) now
              (snd (update_amount numeric_sub delta sender now
                      (committed s))))) = new_balance :: others).
  { destruct (Z.eq_dec (Users.user_id recipient) sender) as [E|E].
    - rewrite E, !select_amount_update_same, Hrows. cbn [map].
      eexists; eexists; reflexivity.
    - rewrite select_amount_update_other by congruence.
      rewrite select_amount_update_same, Hrows. cbn [map].
      eexists; eexists; reflexivity. }
  destruct Hnew as [new_balance [others Hnew]].
  exists delta, senderName, names, old, rest, new_balance, others.
  rewrite Hnew. io_cbn. now repeat split.
Qed.

(** The sender of a transfer that is another user than the recipient is
    left with what the row held less the amount. *)
Lemma transferred_sender (now sender : Z) (recipient : Users.row)
  (senderName : string) (delta : numeric) (s : store) :
  Users.user_id recipient <> sender ->
  balance_of sender (transferred now sender recipient senderName delta s) =
  map (fun x => numeric_sub x delta) (balance_of sender s).
Proof.
  intros Hother. unfold balance_of, transferred. cbn [committed].
  rewrite !select_amount_insert_transaction.
  rewrite select_amount_update_other by congruence.
  apply select_amount_update_same.
Qed.



(** A deposit with valid fields of an amount that reads as a positive
    Number commits its atomic unit. *)
Lemma deposit_of_a_number (now : Z) (b : add_funds_body) (s : store)
  (user : Z) (a : Q) :
  user_of (af_user_id b) = Some user ->
  parseFloat (af_amount b) = Num a ->
  (0 < a)%Q ->
  to_numeric (parseFloat (af_amount b))
  = Some (Dec (Binary64.shortest_decimal a)) /\
  addFunds now b s =
    (match balance_of user s with
     | old :: _ =>
         respond 200
           (new_balance_json
              (numeric_add old (Dec (Binary64.shortest_decimal a))))
     | [] =>
         respond 500 (error_json "Internal server error: Deposit failed.")
     end,
     deposited now user (Dec (Binary64.shortest_decimal a)) s).
Proof.
  intros Hu Ha Hpos. split; [rewrite Ha; reflexivity|].
  pose proof (addFunds_outcome now b s) as H. cbv zeta in H.
  rewrite Ha, (js_le_positive a Hpos) in H. cbn [to_numeric] in H.
  destruct H as [[[H|H] _]|[[field [Hf [_ [[H|H] _]]]]
                           |[u [delta [Eu [_ [Ed E]]]]]]].
  - unfold user_of in Hu. rewrite H in Hu. discriminate.
  - discriminate.
  - discriminate.
  - unfold user_of in Hu. rewrite Hf in Hu. congruence.
  - assert (u = user) by congruence. subst u.
    injection Ed as <-. exact E.
Qed.

(** A field that names another user than [n] is not strictly equal to
    [n]. *)
Lemma strict_equal_other (field : id_field) (sender n : Z) :
  integer_of field = Some sender -> n <> sender ->
  strict_equal field n = false.
Proof.
  destruct field as [m|t]; cbn [strict_equal integer_of]; [|reflexivity].
  intros [= ->] Hn. apply Z.eqb_neq. congruence.
Qed.

(** A transfer with valid fields to a recipient who is another user
    than the sender comes to the funds check. *)
Lemma sendMoney_to_another (now : Z) (b : send_money_body) (s : store)
  (sender : Z) (identifier : string) (recipient : Users.row) :
  user_of (sm_sender_id b) = Some sender ->
  truthy_string (sm_recipient_identifier b) = Some identifier ->
  js_le (parseFloat (sm_amount b)) (Num 0) = false ->
  recipient_of identifier s = Some recipient ->
  Users.user_id recipient <> sender ->
  let amount := parseFloat (sm_amount b) in
  (insufficient (balance_of sender s) amount = true /\
   sendMoney now b s =
     (respond 402 (error_json "Insufficient funds."), s)) \/
  (insufficient (balance_of sender s) amount = false /\
   to_numeric amount = None /\
   sendMoney now b s =
     (respond 500
        (error_json "Internal server error: P2P transfer failed."), s)) \/
  (exists delta,
     insufficient (balance_of sender s) amount = false /\
     to_numeric amount = Some delta /\
     select_first_name sender (committed s) = [] /\
     sendMoney now b s =
       (respond 500
          (error_json "Internal server error: P2P transfer failed."),
        identifier_spent s)) \/
  (exists delta senderName names old rest,
     insufficient (balance_of sender s) amount = false /\
     to_numeric amount = Some delta /\
     select_first_name sender (committed s) = senderName :: names /\
     balance_of sender s = old :: rest /\
     sendMoney now b s =
       (respond 200 (new_balance_json (numeric_sub old delta)),
        transferred now sender recipient senderName delta s)).
Proof.
  intros Hs Hi Hle Hr Hother. cbv zeta.
  apply user_of_some in Hs. destruct Hs as [field [Hf Hint]].
  pose proof (strict_equal_other field sender (Users.user_id recipient)
                Hint Hother) as Hstrict.
  pose proof (sendMoney_outcome now b s) as H. cbv zeta in H.
  destruct H as [[[H|[H|H]] _]|[field' [identifier' [Hf' [Hi' [_ H]]]]]];
    try congruence.
  assert (field' = field) by congruence.
  assert (identifier' = identifier) by congruence. subst field' identifier'.
  destruct H as [[H _]|[recipient' [Hr' H]]]; [congruence|].
  assert (recipient' = recipient) by congruence. subst recipient'.
  destruct H as [[H _]|[[_ [H _]]|[sender' [_ [Hint' H]]]]];
    [congruence | congruence |].
  assert (sender' = sender) by congruence. subst sender'.
  destruct H as [H|[H|[H|H]]]; [left; exact H | right; left; exact H
                               | right; right; left; exact H |].
  right; right; right.
  destruct H as [delta [senderName [names [old [rest [nb [others H]]]]]]].
  destruct H as [Hins [Hnum [Hname [Hrow [Hnew E]]]]].
  exists delta, senderName, names, old, rest.
  rewrite transferred_sender in Hnew by exact Hother.
  rewrite Hrow in Hnew. cbn [map] in Hnew. injection Hnew as <- _.
  repeat split; assumption.
Qed.

(* ----------------------------------------------------------------- *)
(** ** Requests that are turned down *)

(** A bill payment with valid fields is answered 402 when the funds check
    of the handler fails: there is no balance row, or the balance, read
    as a Number, is below the amount. *)
Lemma payBill_insufficient_funds
  (now : Z) (b : pay_bill_body) (s : store) (user : Z) :
  user_of (pb_user_id b) = Some user ->
  truthy_string (pb_merchant_id b) <> None ->
  js_le (parseFloat (pb_amount b)) (Num 0) = false ->
  insufficient (balance_of user s) (parseFloat (pb_amount b)) = true ->
  payBill now b s =
    (respond 402 (error_json "Insufficient funds for this payment."), s).
Proof.
  intros Hu Hm Hle Hins.
  destruct (payBill_outcome now b s)
    as [[[H|[H|H]] _]
       |[[field [merchant [Hf [_ [_ [Hnone _]]]]]]
        |[user' [merchant [Hu' [_ [_ Hcases]]]]]]].
  - unfold user_of in Hu. rewrite H in Hu. discriminate.
  - contradiction.
  - congruence.
  - unfold user_of in Hu. rewrite Hf in Hu. congruence.
  - assert (user' = user) by congruence. subst user'.
    destruct Hcases as [[_ E]|[[H _]|[amt [old [rest [H _]]]]]];
      [exact E | congruence | congruence].
Qed.

(** A transfer whose sender is given as the number that the recipient
    resolves to is answered 400 and leaves the store as it was; when the
    fields pass validation the answer is "Cannot send money to
    yourself.". *)
Lemma sendMoney_to_oneself
  (now : Z) (b : send_money_body) (s : store)
  (sender : Z) (identifier : string) (recipient : Users.row) :
  sm_sender_id b = Some (id_number sender) ->
  sm_recipient_identifier b = Some identifier ->
  recipient_of identifier s = Some recipient ->
  Users.user_id recipient = sender ->
  snd (sendMoney now b s) = s /\
  status (fst (sendMoney now b s)) = 400 /\
  (sender <> 0 -> identifier <> EmptyString ->
   js_le (parseFloat (sm_amount b)) (Num 0) = false ->
   fst (sendMoney now b s) =
     respond 400 (error_json "Cannot send money to yourself.")).
Proof.
  intros Hs Hi Hr Hself.
  unfold sendMoney. rewrite Hs, Hi. cbn [truthy_field truthy_string].
  destruct (Z.eqb_spec sender 0) as [Hz|Hz];
    [repeat split; try reflexivity; intros; contradiction|].
  destruct (String.eqb_spec identifier EmptyString) as [He|He];
    [repeat split; try reflexivity; intros; contradiction|].
  destruct (js_le (parseFloat (sm_amount b)) (Num 0)) eqn:Hle;
    [repeat split; try reflexivity; intros; discriminate|].
  io_cbn. rewrite findRecipient_run. cbn [server]. rewrite Hr.
  cbn [strict_equal]. rewrite Hself, Z.eqb_refl. cbn.
  repeat split; reflexivity.
Qed.

(** C8 at work: Alice sends 75 to her own email address and gives her
    identifier as the string ["1"].  No string is strictly equal to the
    number that the recipient resolves to, the store reads the string as
    user 1, and the transfer is carried out: the answer is 200, and a
    DEBIT and a CREDIT of 75 on Alice, each naming her as counterparty,
    are on the ledger.  Given as the number [1], the same identifier is
    turned down. *)
Theorem sendMoney_to_oneself_as_text :
  let as_text :=
    {| sm_sender_id := Some (id_text "1");
       sm_recipient_identifier := Some "alice@example.com"%string;
       sm_amount := "75" |} in
  let sent := sendMoney 30 as_text two_wallets in
  recipient_of "alice@example.com" two_wallets = Some alice_row /\
  user_of (sm_sender_id as_text) = Some (Users.user_id alice_row) /\
  status (fst sent) = 200 /\
  map (fun t => (Transactions.type t, Transactions.amount t,
                 Transactions.counterparty_id t))
    (ledger_of 1 (snd sent)) =
  [(CREDIT, Dec 200, None); (DEBIT, Dec 75, Some 1); (CREDIT, Dec 75, Some 1)]
  /\ fst (sendMoney 30 (transfer 1 "alice@example.com" "75") two_wallets) =
     respond 400 (error_json "Cannot send money to yourself.").
Proof. vm_compute. repeat split; reflexivity. Qed.

(** C5, as the handlers have it.  A bill payment made with valid fields
    for a user who has no balance row is answered 402, the response for
    insufficient funds, and the store is left as it was; so is a transfer
    with valid fields from such a user to a recipient who is another
    user. *)
Theorem no_balance_row_is_insufficient_funds :
  forall (now : Z) (s : store) (user : Z),
    balance_of user s = [] ->
    (forall pb : pay_bill_body,
       user_of (pb_user_id pb) = Some user ->
       truthy_string (pb_merchant_id pb) <> None ->
       js_le (parseFloat (pb_amount pb)) (Num 0) = false ->
       payBill now pb s =
         (respond 402 (error_json "Insufficient funds for this payment."),
          s)) /\
    (forall (sm : send_money_body) (identifier : string)
            (recipient : Users.row),
       user_of (sm_sender_id sm) = Some user ->
       truthy_string (sm_recipient_identifier sm) = Some identifier ->
       js_le (parseFloat (sm_amount sm)) (Num 0) = false ->
       recipient_of identifier s = Some recipient ->
       Users.user_id recipient <> user ->
       sendMoney now sm s =
         (respond 402 (error_json "Insufficient funds."), s)).
Proof.
  intros now s user Hrows. split.
  - intros pb Hu Hm Hle. apply (payBill_insufficient_funds now pb s user);
      try assumption.
    rewrite Hrows. reflexivity.
  - intros sm identifier recipient Hu Hi Hle Hr Hother.
    apply user_of_some in Hu. destruct Hu as [field [Hf Hint]].
    unfold balance_of in Hrows.
    unfold sendMoney. rewrite Hf, Hi, Hle. io_cbn.
    rewrite findRecipient_run. cbn [server]. rewrite Hr.
    assert (Hstrict : strict_equal field (Users.user_id recipient) = false).
    { destruct field as [n|t]; cbn [strict_equal]; [|reflexivity].
      cbn [integer_of] in Hint. apply Z.eqb_neq. congruence. }
    rewrite Hstrict. io_cbn. rewrite Hint. io_cbn. rewrite Hrows.
    reflexivity.
Qed.

(* ----------------------------------------------------------------- *)
(** ** Transfers *)

(** A transfer with valid fields, to another user, that passes the funds
    check of a registered sender is answered 200. *)
Lemma sendMoney_accepted
  (now : Z) (b : send_money_body) (s : store)
  (sender : Z) (identifier : string) (recipient : Users.row)
  (a : Q) (name : string) (names : list string) :
  user_of (sm_sender_id b) = Some sender ->
  truthy_string (sm_recipient_identifier b) = Some identifier ->
  recipient_of identifier s = Some recipient ->
  Users.user_id recipient <> sender ->
  parseFloat (sm_amount b) = Num a ->
  (0 < a)%Q ->
  insufficient (balance_of sender s) (Num a) = false ->
  select_first_name sender (committed s) = name :: names ->
  status (fst (sendMoney now b s)) = 200.
Proof.
  intros Hs Hi Hr Hother Ha Hpos Hins Hname.
  apply user_of_some in Hs. destruct Hs as [field [Hf Hint]].
  assert (Hstrict : strict_equal field (Users.user_id recipient) = false).
  { destruct field as [n|t]; cbn [strict_equal]; [|reflexivity].
    cbn [integer_of] in Hint. apply Z.eqb_neq. congruence. }
  destruct (sendMoney_outcome now b s)
    as [[[H|[H|H]] _]|[field' [identifier' [Hf' [Hi' [Hle Hcases]]]]]].
  - congruence.
  - congruence.
  - rewrite Ha, (js_le_positive a Hpos) in H. discriminate.
  - assert (field' = field) by congruence.
    assert (identifier' = identifier) by congruence.
    subst field' identifier'. rewrite Ha in Hcases.
    destruct Hcases as [[H _]|[recipient' [Hr' Hcases]]]; [congruence|].
    assert (recipient' = recipient) by congruence. subst recipient'.
    destruct Hcases as [[H _]|[[_ [H _]]|[sender' [_ [Hint' Hcases]]]]];
      [congruence | congruence |].
    assert (sender' = sender) by congruence. subst sender'.
    destruct Hcases
      as [[H _]|[[_ [H _]]|[[delta [_ [_ [H _]]]]
         |[delta [senderName [names' [old [rest [nb [others
            [_ [_ [_ [_ [_ E]]]]]]]]]]]]]]];
      [congruence | discriminate H | congruence |].
    rewrite E. reflexivity.
Qed.


(* ----------------------------------------------------------------- *)
(** ** Listings *)

Lemma insert_by_created_at_perm (r : Transactions.row)
  (l : list Transactions.row) :
  Permutation (insert_by_created_at r l) (r :: l).
Proof.
  induction l as [|x l IH]; cbn [insert_by_created_at]; [reflexivity|].
  destruct (Transactions.created_at x <=? Transactions.created_at r);
    [reflexivity|].
  rewrite IH. apply perm_swap.
Qed.

Lemma order_by_created_at_desc_perm (l : list Transactions.row) :
  Permutation (order_by_created_at_desc l) l.
Proof.
  induction l as [|r l IH]; cbn [order_by_created_at_desc fold_right];
    [reflexivity|].
  fold (order_by_created_at_desc l).
  rewrite insert_by_created_at_perm. now constructor.
Qed.

Lemma insert_by_created_at_sorted (r : Transactions.row)
  (l : list Transactions.row) :
  StronglySorted created_at_desc l ->
  StronglySorted created_at_desc (insert_by_created_at r l).
Proof.
  induction 1 as [|x l Hl IH Hx]; cbn [insert_by_created_at].
  - repeat constructor.
  - destruct (Z.leb_spec (Transactions.created_at x)
                (Transactions.created_at r)) as [Hle|Hgt].
    + constructor; [now constructor|].
      constructor; [exact Hle|].
      eapply Forall_impl; [|exact Hx].
      unfold created_at_desc. intros y Hy. lia.
    + constructor; [exact IH|].
      eapply Permutation_Forall;
        [symmetry; apply insert_by_created_at_perm|].
      constructor; [unfold created_at_desc; lia | exact Hx].
Qed.

Lemma order_by_created_at_desc_sorted (l : list Transactions.row) :
  StronglySorted created_at_desc (order_by_created_at_desc l).
Proof.
  induction l as [|r l IH]; cbn [order_by_created_at_desc fold_right].
  - constructor.
  - now apply insert_by_created_at_sorted.
Qed.

Lemma newest_first_map_view_of (l : list Transactions.row) :
  StronglySorted created_at_desc l -> newest_first (map view_of l).
Proof.
  unfold newest_first.
  induction 1 as [|x l Hl IH Hx]; cbn [map]; constructor; [exact IH|].
  apply Forall_map. exact Hx.
Qed.

(** C9, as the query has it.  For a [user_id] that is a number other
    than 0 the listing is answered 200 and holds all the ledger records
    of that user, and only them, the most recent first; the store is
    left as it was.  The query sorts on [created_at] alone. *)
Theorem getUserTransactions_newest_first :
  forall (b : transactions_body) (s : store) (user : Z),
    truthy_field (tx_user_id b) = Some (id_number user) ->
    exists l : list transaction_view,
      getUserTransactions b s = (respond 200 (transactions_json l), s) /\
      Permutation l (map view_of (ledger_of user s)) /\
      newest_first l.
Proof.
  intros b s user Hu. unfold getUserTransactions. rewrite Hu. io_cbn.
  eexists. split; [reflexivity|]. split.
  - apply Permutation_map. unfold select_transactions.
    apply order_by_created_at_desc_perm.
  - apply newest_first_map_view_of. apply order_by_created_at_desc_sorted.
Qed.

(** C9 as stated fails: two records of one user with the same
    [created_at] are listed with the lower identifier first. *)
Lemma listing_ties_are_not_by_identifier :
  map (fun v => (id v, createdAt v))
    (listing (fst (getUserTransactions {| tx_user_id := Some (id_number 1) |}
                     same_instant)))
  = [(1, 20); (2, 20)] /\
  ~ newest_first_then_highest_id
      (listing (fst (getUserTransactions
                       {| tx_user_id := Some (id_number 1) |}
                       same_instant))).
Proof.
  split; [vm_compute; reflexivity|].
  intros H. apply StronglySorted_inv in H. destruct H as [_ H].
  apply Forall_inv in H. vm_compute in H.
  destruct H as [H | [_ H]]; discriminate H.
Qed.

(* ----------------------------------------------------------------- *)
(** ** Bill payments *)

(** No bill payment changes a row of [account_balances]: the handler
    sends no UPDATE. *)
Lemma payBill_leaves_the_balances (now : Z) (b : pay_bill_body) (s : store) :
  account_balances (committed (snd (payBill now b s))) =
  account_balances (committed s) /\
  users_user_id_seq (snd (payBill now b s)) = users_user_id_seq s.
Proof.
  pose proof (payBill_outcome now b s) as H. cbv zeta in H.
  break_outcome; use_outcome; split; reflexivity.
Qed.

(** A bill payment with valid fields that passes the funds check is
    answered 200 with the balance as it was: the DEBIT is recorded and no
    balance row is touched. *)
Lemma payBill_accepted
  (now : Z) (b : pay_bill_body) (s : store)
  (user : Z) (merchant : string) (a : Q) (balance : numeric)
  (others : list numeric) :
  user_of (pb_user_id b) = Some user ->
  truthy_string (pb_merchant_id b) = Some merchant ->
  parseFloat (pb_amount b) = Num a ->
  (0 < a)%Q ->
  balance_of user s = balance :: others ->
  js_lt (parseFloat_numeric balance) (Num a) = false ->
  fst (payBill now b s) = respond 200 (new_balance_json balance) /\
  balance_of user (snd (payBill now b s)) = balance :: others /\
  ledger (snd (payBill now b s)) =
    ledger s ++
    [ledger_row now (transactions_transaction_id_seq s) user DEBIT
       (Dec (Binary64.shortest_decimal a)) (pb_description b) None].
Proof.
  intros Hu Hm Ha Hpos Hrow Hlt. unfold balance_of, ledger in *.
  apply user_of_some in Hu. destruct Hu as [field [Hf Hint]].
  unfold payBill. rewrite Hf, Hm, Ha, (js_le_positive a Hpos).
  io_cbn. rewrite Hint. io_cbn. rewrite Hrow. cbn [insufficient].
  rewrite Hlt. cbn [to_numeric]. io_cbn.
  rewrite select_amount_insert_transaction, Hrow. io_cbn.
  rewrite select_amount_insert_transaction, Hrow.
  split; [reflexivity|]. split; reflexivity.
Qed.

(** C1 at work: Alice holds 200 and pays a bill of 75.  The request is
    answered 200 with [new_balance] 200, her balance row still reads 200
    where the claim has 125, and a DEBIT of 75 is on the ledger. *)
Lemma payBill_does_not_debit :
  let paid := payBill 30
                {| pb_user_id := Some (id_number 1);
                   pb_merchant_id := Some "electricity"%string;
                   pb_amount := "75"; pb_description := "October bill" |}
                two_wallets in
  balance_of 1 two_wallets = [Dec 200] /\
  fst paid = respond 200 (new_balance_json (Dec 200)) /\
  balance_of 1 (snd paid) = [Dec 200] /\
  map (fun t => (Transactions.type t, Transactions.amount t))
    (ledger_of 1 (snd paid)) = [(CREDIT, Dec 200); (DEBIT, Dec 75)].
Proof. vm_compute. repeat split; reflexivity. Qed.

(** C2 at work: Alice is registered and receives a deposit of 100, and
    her balance is the net sum of her ledger.  She then pays a bill of
    30: the balance still reads 100 while credits minus debits make 70. *)
Lemma payBill_breaks_reconciliation :
  let before := serve [(10, POST_register alice); (20, deposit 1 "100")]
                  empty_store in
  let after := serve [(30, pay_bill 1 "30")] before in
  reconciled 1 before /\
  balance_of 1 after = [Dec 100] /\
  ledger_net 1 after = Dec 70 /\
  ~ reconciled 1 after.
Proof.
  cbv zeta. split.
  { intros balance Hin. vm_compute in Hin. destruct Hin as [<-|[]].
    vm_compute. reflexivity. }
  split; [vm_compute; reflexivity|].
  split; [vm_compute; reflexivity|].
  intros H. specialize (H (Dec 100)).
  assert (Hin : In (Dec 100)
                  (balance_of 1
                     (serve [(30, pay_bill 1 "30")]
                        (serve [(10, POST_register alice);
                                (20, deposit 1 "100")] empty_store))))
    by (vm_compute; left; reflexivity).
  apply H in Hin. vm_compute in Hin. discriminate Hin.
Qed.

(* ----------------------------------------------------------------- *)
(** ** Amounts that are not numbers *)

(** A deposit or a transfer whose amount reads as zero or as a negative
    Number is answered 400 and the store is left as it was. *)
Lemma amount_not_positive_is_refused
  (now : Z) (af : add_funds_body) (sm : send_money_body) (s : store) (a : Q) :
  (a <= 0)%Q ->
  (parseFloat (af_amount af) = Num a ->
   addFunds now af s =
     (respond 400 (error_json "Valid user ID and positive amount required."),
      s)) /\
  (parseFloat (sm_amount sm) = Num a ->
   sendMoney now sm s =
     (respond 400
        (error_json "Sender ID, recipient, and positive amount required."),
      s)).
Proof.
  intros Ha. split; intros Hparse.
  - unfold addFunds. rewrite Hparse, (js_le_not_positive a Ha).
    now destruct (truthy_field _).
  - unfold sendMoney. rewrite Hparse, (js_le_not_positive a Ha).
    destruct (truthy_field _); [|reflexivity]. now destruct (truthy_string _).
Qed.

(** C4 at work: the amount ["abc"] reads as NaN and [NaN <= 0] is false,
    so validation lets it through.  The deposit is answered 200, the
    balance row of Alice becomes NaN and a CREDIT of NaN is committed;
    the transfer is answered 200 too and turns both balances into NaN. *)
Lemma malformed_amount_is_accepted :
  let deposited := addFunds 30
                     {| af_user_id := Some (id_number 1); af_amount := "abc" |}
                     two_wallets in
  let sent := sendMoney 30
                {| sm_sender_id := Some (id_number 1);
                   sm_recipient_identifier := Some "bob@example.com"%string;
                   sm_amount := "abc" |} two_wallets in
  parseFloat "abc" = NaN /\
  js_le (parseFloat "abc") (Num 0) = false /\
  fst deposited = respond 200 (new_balance_json NNaN) /\
  balance_of 1 (snd deposited) = [NNaN] /\
  map (fun t => (Transactions.type t, Transactions.amount t))
    (ledger_of 1 (snd deposited)) = [(CREDIT, Dec 200); (CREDIT, NNaN)] /\
  status (fst sent) = 200 /\
  balance_of 1 (snd sent) = [NNaN] /\
  balance_of 2 (snd sent) = [NNaN].
Proof. vm_compute. repeat split; reflexivity. Qed.

(* ----------------------------------------------------------------- *)
(** ** Users without a balance row *)

(** C5 as stated fails: user 7 has no balance row, and the bill payment
    is answered 402, not 404. *)
Lemma payBill_without_balance_row_is_not_NotFound :
  let answer := fst (payBill 30
                       {| pb_user_id := Some (id_number 7);
                          pb_merchant_id := Some "electricity"%string;
                          pb_amount := "75"; pb_description := "October bill" |}
                       two_wallets) in
  balance_of 7 two_wallets = [] /\
  answer = respond 402 (error_json "Insufficient funds for this payment.") /\
  ~ NotFound answer.
Proof.
  cbv zeta. split; [vm_compute; reflexivity|].
  split; [vm_compute; reflexivity|].
  unfold NotFound. vm_compute. discriminate.
Qed.

(** The deposit for a user without a balance row: the UPDATE touches no
    row, the CREDIT record is committed, and reading [rows[0]] then
    throws; the answer is 500 and the record stays on the ledger. *)
Lemma addFunds_without_balance_row :
  let deposited := addFunds 30
                     {| af_user_id := Some (id_number 7); af_amount := "75" |}
                     two_wallets in
  fst deposited =
    respond 500 (error_json "Internal server error: Deposit failed.") /\
  map (fun t => (Transactions.type t, Transactions.amount t))
    (ledger_of 7 (snd deposited)) = [(CREDIT, Dec 75)].
Proof. vm_compute. repeat split; reflexivity. Qed.

(* ----------------------------------------------------------------- *)
(** ** The funds check on rounded balances *)

(** C7 at work: Alice holds 199999999999999.99 and pays a bill of
    200000000000000.  The handler reads her balance as the Number
    200000000000000, which is not below the amount: the request is
    answered 200 and a DEBIT of 200000000000000, more than she holds, is
    on the ledger, where the claim has the answer 402 and no record. *)
Theorem payBill_accepts_a_bill_above_the_balance :
  let bill := {| pb_user_id := Some (id_number 1);
                 pb_merchant_id := Some "electricity"%string;
                 pb_amount := "200000000000000";
                 pb_description := "October bill" |} in
  let paid := payBill 30 bill fine_wallet in
  balance_of 1 fine_wallet = [Dec (19999999999999999 # 100)] /\
  literal_value (pb_amount bill) = Num 200000000000000 /\
  (19999999999999999 # 100 < 200000000000000)%Q /\
  parseFloat_numeric (Dec (19999999999999999 # 100)) = Num 200000000000000 /\
  status (fst paid) = 200 /\
  map (fun t => (Transactions.type t, Transactions.amount t))
    (ledger_of 1 (snd paid)) =
  [(CREDIT, Dec 199999999999999); (CREDIT, Dec (99 # 100));
   (DEBIT, Dec 200000000000000)].
Proof. vm_compute. repeat split; reflexivity. Qed.

(** C3 at work: Alice holds 199999999999999.99 and sends
    200000000000000 to Bob.  The funds check reads her balance as the
    Number 200000000000000 and lets the transfer through; the store then
    takes the amount off the decimal it holds, and her balance is
    -0.01. *)
Theorem balance_goes_below_zero :
  let sent := sendMoney 30 (transfer 1 "bob@example.com" "200000000000000")
                fine_wallet in
  balance_of 1 fine_wallet = [Dec (19999999999999999 # 100)] /\
  parseFloat_numeric (Dec (19999999999999999 # 100)) = Num 200000000000000 /\
  fst sent = respond 200 (new_balance_json (Dec (-1 # 100))) /\
  balance_of 1 (snd sent) = [Dec (-1 # 100)] /\
  balance_of 2 (snd sent) = [Dec 200000000000000] /\
  ~ non_negative (Dec (-1 # 100)).
Proof.
  vm_compute. repeat split; try reflexivity. discriminate.
Qed.

(* ----------------------------------------------------------------- *)
(** ** What the runs keep true of the balance rows *)

(** What each handler can have done to [account_balances] and to the
    sequence of user identifiers. *)

Lemma registerUser_balances (now : Z) (b : register_body) (s : store) :
  let s' := snd (registerUser now b s) in
  (account_balances (committed s') = account_balances (committed s) /\
   users_user_id_seq s' = users_user_id_seq s) \/
  (account_balances (committed s') =
     account_balances (committed s) ++
     [{| AccountBalances.user_id := users_user_id_seq s;
         AccountBalances.amount := Dec 0;
         AccountBalances.last_updated_at := now |}] /\
   users_user_id_seq s' = users_user_id_seq s + 1).
Proof.
  unfold registerUser. io_cbn.
  destruct (select_existing_user _ _ _); io_cbn; [|left; now split].
  destruct (reg_password b); io_cbn; [|left; now split].
  right. now split.
Qed.

Lemma addFunds_balances (now : Z) (b : add_funds_body) (s : store) :
  let s' := snd (addFunds now b s) in
  users_user_id_seq s' = users_user_id_seq s /\
  (account_balances (committed s') = account_balances (committed s) \/
   exists (user : Z) (delta : numeric),
     to_numeric (parseFloat (af_amount b)) = Some delta /\
     (delta = NNaN \/ exists a, delta = Dec a /\ (0 < a)%Q) /\
     account_balances (committed s') =
       account_balances
         (snd (update_amount numeric_add delta user now (committed s)))).
Proof.
  pose proof (addFunds_outcome now b s) as H. cbv zeta in H.
  destruct H as [[_ E]|[[field [_ [_ [_ E]]]]
                       |[user [delta [_ [Hle [Hnum E]]]]]]];
    rewrite E; cbn [snd]; (split; [reflexivity|]);
    [left; reflexivity | left; reflexivity |].
  right. exists user, delta. split; [exact Hnum|].
  split; [exact (accepted_amount _ _ Hle Hnum) | reflexivity].
Qed.

Lemma sendMoney_balances (now : Z) (b : send_money_body) (s : store) :
  let s' := snd (sendMoney now b s) in
  let amount := parseFloat (sm_amount b) in
  users_user_id_seq s' = users_user_id_seq s /\
  (account_balances (committed s') = account_balances (committed s) \/
   exists (sender recipientId : Z) (delta : numeric),
     to_numeric amount = Some delta /\
     js_le amount (Num 0) = false /\
     account_balances (committed s') =
       account_balances
         (snd (update_amount numeric_add delta recipientId now
                 (snd (update_amount numeric_sub delta sender now
                         (committed s)))))).
Proof.
  pose proof (sendMoney_outcome now b s) as H. cbv zeta in H.
  destruct H as [[_ E]|[field [identifier [_ [_ [Hle H]]]]]];
    [rewrite E; split; [|left]; reflexivity|].
  destruct H as [[_ E]|[recipient [_ H]]];
    [rewrite E; split; [|left]; reflexivity|].
  destruct H as [[_ E]|[[_ [_ E]]|[sender [_ [_ H]]]]];
    try (rewrite E; split; [|left]; reflexivity).
  destruct H as [[_ E]|[[_ [_ E]]|[[delta [_ [_ [_ E]]]]|H]]];
    try (rewrite E; split; [|left]; reflexivity).
  destruct H as [delta [senderName [names [old [rest [nb [others H]]]]]]].
  destruct H as [_ [Hnum [_ [_ [_ E]]]]]. rewrite E.
  split; [reflexivity|]. right.
  exists sender, (Users.user_id recipient), delta.
  split; [exact Hnum|]. split; [exact Hle | reflexivity].
Qed.

Lemma getUserTransactions_store (b : transactions_body) (s : store) :
  snd (getUserTransactions b s) = s.
Proof.
  unfold getUserTransactions.
  destruct (truthy_field (tx_user_id b)) as [[n|t]|]; reflexivity.
Qed.

Lemma balances_ok_empty : balances_ok empty_store.
Proof. split; cbn; constructor. Qed.

Lemma route_keeps_balances_ok (now : Z) (r : request) (s : store) :
  balances_ok s -> balances_ok (snd (route now r s)).
Proof.
  intros [Hunique Hissued].
  destruct r as [b|b|b|b|b]; cbn [route].
  - (* registerUser *)
    destruct (registerUser_balances now b s) as [[Hb Hq]|[Hb Hq]];
      split; rewrite ?Hb, ?Hq; try assumption.
    + rewrite map_app. cbn [map AccountBalances.user_id].
      apply (Permutation_NoDup (Permutation_cons_append _ _)).
      constructor; [|exact Hunique].
      intros Hin. apply in_map_iff in Hin. destruct Hin as [x [Hx Hin]].
      rewrite Forall_forall in Hissued. specialize (Hissued x Hin). lia.
    + apply Forall_app. split.
      * eapply Forall_impl; [|exact Hissued]. cbn. intros x Hx. lia.
      * repeat constructor. cbn. lia.
  - (* getUserTransactions *)
    rewrite getUserTransactions_store. now split.
  - (* addFunds *)
    destruct (addFunds_balances now b s)
      as [Hq [Hb|[user [delta [_ [Hdelta Hb]]]]]];
      split; rewrite ?Hb, ?Hq; try assumption.
    + now rewrite user_id_update_amount.
    + now apply issued_update_amount.
  - (* sendMoney *)
    destruct (sendMoney_balances now b s)
      as [Hq [Hb|[sender [rid [delta [Hnum [Hle Hb]]]]]]];
      split; rewrite ?Hb, ?Hq; try assumption.
    + now rewrite !user_id_update_amount.
    + now apply issued_update_amount, issued_update_amount.
  - (* payBill *)
    destruct (payBill_leaves_the_balances now b s) as [Hb Hq].
    split; rewrite ?Hb, ?Hq; assumption.
Qed.

Lemma serve_keeps_balances_ok (rs : list (Z * request)) (s : store) :
  balances_ok s -> balances_ok (serve rs s).
Proof.
  revert s. induction rs as [|[now r] rs IH]; intros s Hs; cbn [serve].
  - exact Hs.
  - apply IH. now apply route_keeps_balances_ok.
Qed.

(** Runs in which every amount reads as a number keep NaN out of the
    balances. *)

Lemma to_numeric_decimal (x : number) (delta : numeric) :
  x <> NaN -> to_numeric x = Some delta -> is_decimal delta.
Proof.
  destruct x as [|negative|a]; cbn [to_numeric]; intros Hx [= <-];
    [contradiction|]. now exists (Binary64.shortest_decimal a).
Qed.

Lemma is_decimal_add (x delta : numeric) :
  is_decimal x -> is_decimal delta -> is_decimal (numeric_add x delta).
Proof. intros [q ->] [a ->]. now exists (q + a)%Q. Qed.

Lemma is_decimal_sub (x delta : numeric) :
  is_decimal x -> is_decimal delta -> is_decimal (numeric_sub x delta).
Proof. intros [q ->] [a ->]. now exists (q - a)%Q. Qed.

Lemma route_keeps_decimal_amounts (now : Z) (r : request) (s : store) :
  amount_is_a_number r ->
  decimal_amounts s -> decimal_amounts (snd (route now r s)).
Proof.
  unfold decimal_amounts. intros Hr Hs.
  destruct r as [b|b|b|b|b]; cbn [route amount_is_a_number] in *.
  - destruct (registerUser_balances now b s) as [[Hb _]|[Hb _]]; rewrite Hb;
      [exact Hs|].
    apply Forall_app. split; [exact Hs|].
    constructor; [now exists 0%Q | constructor].
  - now rewrite getUserTransactions_store.
  - destruct (addFunds_balances now b s)
      as [_ [Hb|[user [delta [Hnum [_ Hb]]]]]]; rewrite Hb; [exact Hs|].
    apply amounts_update_amount; [exact Hs|].
    intros x Hx _. apply is_decimal_add.
    + rewrite Forall_forall in Hs. now apply Hs.
    + now apply to_numeric_decimal with (x := parseFloat (af_amount b)).
  - destruct (sendMoney_balances now b s)
      as [_ [Hb|[sender [rid [delta [Hnum [_ Hb]]]]]]]; rewrite Hb;
      [exact Hs|].
    pose proof (to_numeric_decimal _ _ Hr Hnum) as Hdelta.
    assert (Hdebit :
      Forall (fun x => is_decimal (AccountBalances.amount x))
        (account_balances
           (snd (update_amount numeric_sub delta sender now (committed s))))).
    { apply amounts_update_amount; [exact Hs|].
      intros x Hx _. apply is_decimal_sub; [|exact Hdelta].
      rewrite Forall_forall in Hs. now apply Hs. }
    apply amounts_update_amount; [exact Hdebit|].
    intros x Hx _. apply is_decimal_add; [|exact Hdelta].
    rewrite Forall_forall in Hdebit. now apply Hdebit.
  - destruct (payBill_leaves_the_balances now b s) as [Hb _]. now rewrite Hb.
Qed.

Lemma serve_keeps_decimal_amounts (rs : list (Z * request)) (s : store) :
  Forall (fun timed => amount_is_a_number (snd timed)) rs ->
  decimal_amounts s -> decimal_amounts (serve rs s).
Proof.
  revert s. induction rs as [|[now r] rs IH]; intros s Hrs Hs; cbn [serve].
  - exact Hs.
  - apply Forall_cons_iff in Hrs. destruct Hrs as [Hr Hrs].
    apply IH; [exact Hrs|]. now apply route_keeps_decimal_amounts.
Qed.

(** After any run from the empty store a user has at most one balance
    row. *)
Lemma balance_row_is_unique (rs : list (Z * request)) (user : Z) :
  (List.length (balance_of user (serve rs empty_store)) <= 1)%nat.
Proof.
  pose proof (serve_keeps_balances_ok rs empty_store balances_ok_empty)
    as [Hunique _].
  unfold balance_of, select_amount. rewrite List.length_map.
  induction (account_balances (committed (serve rs empty_store)))
    as [|x l IH]; cbn [filter]; [cbn; lia|].
  cbn [map] in Hunique. apply NoDup_cons_iff in Hunique.
  destruct Hunique as [Hx Hl].
  destruct (Z.eqb_spec (AccountBalances.user_id x) user) as [E|E];
    [|now apply IH].
  assert (Hnone : filter (fun b => AccountBalances.user_id b =? user) l = []).
  { destruct (filter _ l) as [|y rest] eqn:Hf; [reflexivity|].
    exfalso. apply Hx.
    assert (Hy : In y (filter (fun b => AccountBalances.user_id b =? user) l))
      by (rewrite Hf; now left).
    apply filter_In in Hy. destruct Hy as [Hy Hid].
    apply Z.eqb_eq in Hid. rewrite E, <- Hid. now apply in_map. }
  rewrite Hnone. cbn. lia.
Qed.

(* ----------------------------------------------------------------- *)
(** ** Amounts as binary64 Numbers *)






















(** The rounding of [Module Binary64] gives what the hardware division
    and addition, which round to nearest with ties to even, give on the
    same exact operands. *)
Lemma binary64_agrees_with_primitive_floats :
  agree (1 / 10)%float (1 # 10) = true /\
  agree (2 / 3)%float (2 # 3) = true /\
  agree (755 / 10)%float (755 # 10) = true /\
  agree (9007199254740992 + 1)%float 9007199254740993 = true /\
  agree (9007199254740992 + 3)%float 9007199254740995 = true /\
  agree (1 / 1267650600228229401496703205376)%float
        (1 # 1267650600228229401496703205376) = true.
Proof. vm_compute. repeat split; reflexivity. Qed.

(** What [toString] writes for some Numbers: one tenth, the sum of the
    Numbers of 0.1 and 0.2, a third, and the largest and the smallest
    Number. *)
Lemma shortest_decimal_samples :
  parseFloat "0.1" = Num (3602879701896397 # 36028797018963968) /\
  to_numeric (parseFloat "0.1") = Some (Dec (1 # 10)) /\
  to_numeric (parseFloat "0.30000000000000004")
  = Some (Dec (7500000000000001 # 25000000000000000)) /\
  to_numeric (parseFloat "0.3333333333333333333")
  = Some (Dec (3333333333333333 # 10000000000000000)) /\
  to_numeric (parseFloat "123456789012345678901")
  = Some (Dec 123456789012345680000) /\
  to_numeric (parseFloat "5e-324")
  = Some (Dec (Qred (inject_Z 5 * pow10 (-324)))) /\
  to_numeric (parseFloat "1e-400") = Some (Dec 0) /\
  to_numeric (parseFloat "1e400") = None.
Proof.
  vm_compute. repeat split; reflexivity.
Qed.

(* ----------------------------------------------------------------- *)
(** ** The theorems at work on the example stores *)

Lemma no_balance_row_is_insufficient_funds_witness :
  balance_of 7 two_wallets = [] /\
  payBill 30 {| pb_user_id := Some (id_number 7);
                pb_merchant_id := Some "electricity"%string;
                pb_amount := "75"; pb_description := "October bill" |}
    two_wallets =
  (respond 402 (error_json "Insufficient funds for this payment."),
   two_wallets) /\
  sendMoney 30 (transfer 7 "bob@example.com" "75") two_wallets =
  (respond 402 (error_json "Insufficient funds."), two_wallets).
Proof.
  assert (Hrows : balance_of 7 two_wallets = []) by (vm_compute; reflexivity).
  destruct (no_balance_row_is_insufficient_funds 30 two_wallets 7 Hrows)
    as [Hbill Htransfer].
  split; [exact Hrows|]. split.
  - apply Hbill; [reflexivity | discriminate | vm_compute; reflexivity].
  - apply (Htransfer _ "bob@example.com"%string bob_row);
      try (vm_compute; reflexivity).
    discriminate.
Defined.


(** Alice has a CREDIT stamped 20 and, after she sent 75 to Bob, a DEBIT
    stamped 30: the listing shows the DEBIT first. *)
Lemma getUserTransactions_newest_first_witness :
  let s := snd (sendMoney 30 (transfer 1 "bob@example.com" "75")
                  two_wallets) in
  map (fun t => (Transactions.transaction_id t, Transactions.created_at t))
    (ledger_of 1 s) = [(1, 20); (3, 30)] /\
  map (fun v => (id v, createdAt v))
    (listing (fst (getUserTransactions
                     {| tx_user_id := Some (id_number 1) |} s)))
  = [(3, 30); (1, 20)] /\
  exists l : list transaction_view,
    getUserTransactions {| tx_user_id := Some (id_number 1) |} s =
      (respond 200 (transactions_json l), s) /\
    Permutation l (map view_of (ledger_of 1 s)) /\
    newest_first l.
Proof.
  cbv zeta. split; [vm_compute; reflexivity|].
  split; [vm_compute; reflexivity|].
  apply (getUserTransactions_newest_first
           {| tx_user_id := Some (id_number 1) |} _ 1).
  reflexivity.
Defined.



(* ----------------------------------------------------------------- *)
(** ** Answers that leave the store alone *)

(** X1.  Whatever the route and the body, a request answered with a
    status from 400 to 499 leaves the whole store, sequences included,
    as it was. *)
Theorem client_error_changes_nothing :
  forall (now : Z) (r : request) (s : store),
    400 <= status (fst (route now r s)) < 500 ->
    snd (route now r s) = s.
Proof.
  intros now r s.
  destruct r as [b|b|b|b|b]; cbn [route].
  - pose proof (registerUser_outcome now b s) as H. cbv zeta in H.
    break_outcome; use_outcome; cbn; intros; reflexivity || lia.
  - intros _. apply getUserTransactions_store.
  - pose proof (addFunds_outcome now b s) as H. cbv zeta in H.
    break_outcome; use_outcome; cbn [fst snd]; intros Hstatus;
      try reflexivity.
    destruct (balance_of _ s); cbn in Hstatus; lia.
  - pose proof (sendMoney_outcome now b s) as H. cbv zeta in H.
    break_outcome; use_outcome; cbn; intros; reflexivity || lia.
  - pose proof (payBill_outcome now b s) as H. cbv zeta in H.
    break_outcome; use_outcome; cbn; intros; reflexivity || lia.
Qed.

(** X2.  On every route but the deposit, a request that is not answered
    200 or 201 commits nothing: users, balances and ledger are as they
    were.  (The sequence of transaction identifiers may have moved.) *)
Theorem failure_commits_nothing :
  forall (now : Z) (r : request) (s : store),
    (forall b, r <> POST_user_funds_add b) ->
    status (fst (route now r s)) <> 200 ->
    status (fst (route now r s)) <> 201 ->
    committed (snd (route now r s)) = committed s.
Proof.
  intros now r s Hroute.
  destruct r as [b|b|b|b|b]; cbn [route].
  - pose proof (registerUser_outcome now b s) as H. cbv zeta in H.
    break_outcome; use_outcome; cbn; intros; reflexivity || contradiction.
  - intros _ _. now rewrite getUserTransactions_store.
  - now contradiction (Hroute b).
  - pose proof (sendMoney_outcome now b s) as H. cbv zeta in H.
    break_outcome; use_outcome; cbn; intros; reflexivity || contradiction.
  - pose proof (payBill_outcome now b s) as H. cbv zeta in H.
    break_outcome; use_outcome; cbn; intros; reflexivity || contradiction.
Qed.

Lemma update_amount_no_row
  (op : numeric -> numeric -> numeric) (delta : numeric) (u now : Z)
  (d : database) :
  select_amount u d = [] ->
  account_balances (snd (update_amount op delta u now d)) = account_balances d.
Proof.
  unfold select_amount, update_amount. cbn [snd account_balances].
  induction (account_balances d) as [|r l IH]; cbn [map filter];
    [reflexivity|].
  destruct (AccountBalances.user_id r =? u); cbn [map]; [discriminate|].
  intros H. now rewrite IH.
Qed.

(** X3.  The deposit is the exception: made with valid fields for a
    user who has no balance row, it is answered 500 and yet its CREDIT
    record, of the Number read from the request as the driver writes
    it, is committed, no balance row being changed. *)
Theorem deposit_without_balance_row_is_recorded :
  forall (now : Z) (b : add_funds_body) (s : store) (user : Z) (a : Q),
    user_of (af_user_id b) = Some user ->
    parseFloat (af_amount b) = Num a ->
    (0 < a)%Q ->
    balance_of user s = [] ->
    fst (addFunds now b s) =
      respond 500 (error_json "Internal server error: Deposit failed.") /\
    ledger (snd (addFunds now b s)) =
      ledger s ++
      [ledger_row now (transactions_transaction_id_seq s) user CREDIT
         (Dec (Binary64.shortest_decimal a))
         "Wallet Deposit (External)" None] /\
    account_balances (committed (snd (addFunds now b s))) =
      account_balances (committed s).
Proof.
  intros now b s user a Hu Ha Hpos Hrows.
  destruct (deposit_of_a_number now b s user a Hu Ha Hpos) as [_ E].
  rewrite E, Hrows. cbn [fst snd].
  split; [reflexivity|]. split; [reflexivity|].
  unfold deposited. cbn [committed snd insert_transaction account_balances].
  now apply update_amount_no_row.
Qed.

(* ----------------------------------------------------------------- *)
(** ** The ledger only grows *)

(** What one request adds to the ledger: at most two records, stamped
    [now], COMPLETED, with fresh identifiers in increasing order. *)
Lemma route_extends_ledger (now : Z) (r : request) (s : store) :
  let s' := snd (route now r s) in
  exists added : list Transactions.row,
    ledger s' = ledger s ++ added /\
    (List.length added <= 2)%nat /\
    transactions_transaction_id_seq s <= transactions_transaction_id_seq s' /\
    StronglySorted Z.lt (map Transactions.transaction_id added) /\
    Forall (fun t =>
              transactions_transaction_id_seq s
                <= Transactions.transaction_id t
                < transactions_transaction_id_seq s' /\
              Transactions.created_at t = now /\
              Transactions.status t = "COMPLETED"%string /\
              positive_or_NaN (Transactions.amount t)) added.
Proof.
  cbv zeta.
  assert (Hsame : forall s', s' = s ->
    exists added : list Transactions.row,
      ledger s' = ledger s ++ added /\
      (List.length added <= 2)%nat /\
      transactions_transaction_id_seq s
        <= transactions_transaction_id_seq s' /\
      StronglySorted Z.lt (map Transactions.transaction_id added) /\
      Forall (fun t =>
                transactions_transaction_id_seq s
                  <= Transactions.transaction_id t
                  < transactions_transaction_id_seq s' /\
                Transactions.created_at t = now /\
                Transactions.status t = "COMPLETED"%string /\
                positive_or_NaN (Transactions.amount t)) added).
  { intros s' ->. exists []. rewrite app_nil_r. cbn.
    repeat split; try constructor; lia. }
  assert (Hamount : forall x delta,
    js_le x (Num 0) = false -> to_numeric x = Some delta ->
    positive_or_NaN delta).
  { intros x delta Hle Hnum.
    destruct (accepted_amount x delta Hle Hnum) as [->|[a [-> Ha]]];
      [exact I|exact Ha]. }
  destruct r as [b|b|b|b|b]; cbn [route].
  - pose proof (registerUser_outcome now b s) as H. cbv zeta in H.
    break_outcome; use_outcome; cbn [snd]; try (now apply Hsame).
    exists []. unfold ledger, registered. cbn. rewrite app_nil_r.
    repeat split; try constructor; lia.
  - apply Hsame, getUserTransactions_store.
  - pose proof (addFunds_outcome now b s) as H. cbv zeta in H.
    break_outcome; use_outcome; cbn [snd]; try (now apply Hsame).
    eexists [_]. unfold ledger, deposited, ledger_row. cbn.
    repeat split;
      try (repeat constructor; cbn; try lia; eapply Hamount; eassumption);
      lia.
  - pose proof (sendMoney_outcome now b s) as H. cbv zeta in H.
    break_outcome; use_outcome; cbn [snd]; try (now apply Hsame).
    + exists []. unfold ledger, identifier_spent. cbn. rewrite app_nil_r.
      repeat split; try constructor; lia.
    + eexists [_; _]. unfold ledger, transferred, ledger_row. cbn.
      rewrite <- app_assoc. cbn.
      repeat split;
      try (repeat constructor; cbn; try lia; eapply Hamount; eassumption);
      lia.
  - pose proof (payBill_outcome now b s) as H. cbv zeta in H.
    break_outcome; use_outcome; cbn [snd]; try (now apply Hsame).
    eexists [_]. unfold ledger, bill_recorded, ledger_row. cbn.
    repeat split;
      try (repeat constructor; cbn; try lia; eapply Hamount; eassumption);
      lia.
Qed.

(** X4.  The ledger is append-only: whatever requests are served, the
    records that were on the ledger stay, unchanged and in place, and
    new records come after them. *)
Theorem ledger_is_append_only :
  forall (rs : list (Z * request)) (s : store),
    exists added : list Transactions.row,
      ledger (serve rs s) = ledger s ++ added.
Proof.
  induction rs as [|[now r] rs IH]; intros s; cbn [serve].
  - exists []. now rewrite app_nil_r.
  - destruct (route_extends_ledger now r s) as [first [Hfirst _]].
    destruct (IH (snd (route now r s))) as [others Hothers].
    exists (first ++ others). now rewrite Hothers, Hfirst, app_assoc.
Qed.

Lemma ledger_ok_empty : ledger_ok empty_store.
Proof. split; cbn; constructor. Qed.

Lemma increasing_app (l added : list Z) (bound : Z) :
  StronglySorted Z.lt l -> Forall (fun i => i < bound) l ->
  StronglySorted Z.lt added -> Forall (fun i => bound <= i) added ->
  StronglySorted Z.lt (l ++ added).
Proof.
  intros Hl Hbelow Hadded Habove.
  induction Hl as [|i l Hl IH Hi]; cbn [app]; [exact Hadded|].
  apply Forall_cons_iff in Hbelow. destruct Hbelow as [Hib Hbelow].
  constructor; [now apply IH|].
  apply Forall_app. split; [exact Hi|].
  eapply Forall_impl; [|exact Habove]. cbn. intros j Hj. lia.
Qed.

Lemma route_keeps_ledger_ok (now : Z) (r : request) (s : store) :
  ledger_ok s -> ledger_ok (snd (route now r s)).
Proof.
  intros [Hsorted Hissued Hrecords].
  destruct (route_extends_ledger now r s)
    as [added [Hledger [_ [Hseq [Hadded Hrows]]]]].
  split; rewrite Hledger.
  - rewrite map_app.
    apply increasing_app with (bound := transactions_transaction_id_seq s).
    + exact Hsorted.
    + apply Forall_map. exact Hissued.
    + exact Hadded.
    + apply Forall_map. eapply Forall_impl; [|exact Hrows].
      cbn. intros t Ht. lia.
  - apply Forall_app. split.
    + eapply Forall_impl; [|exact Hissued]. cbn. intros t Ht. lia.
    + eapply Forall_impl; [|exact Hrows]. cbn. intros t Ht. lia.
  - apply Forall_app. split; [exact Hrecords|].
    eapply Forall_impl; [|exact Hrows]. cbn. intros t Ht. tauto.
Qed.

Lemma serve_keeps_ledger_ok (rs : list (Z * request)) (s : store) :
  ledger_ok s -> ledger_ok (serve rs s).
Proof.
  revert s. induction rs as [|[now r] rs IH]; intros s Hs; cbn [serve].
  - exact Hs.
  - apply IH. now apply route_keeps_ledger_ok.
Qed.

(** X5.  After any run from the empty store, the transaction
    identifiers on the ledger grow strictly along the table, so no two
    records share one, and each was issued by the sequence; every record
    is COMPLETED and its amount is a positive decimal or NaN. *)
Theorem ledger_records_are_numbered_and_completed :
  forall (rs : list (Z * request)),
    let s := serve rs empty_store in
    StronglySorted Z.lt (map Transactions.transaction_id (ledger s)) /\
    NoDup (map Transactions.transaction_id (ledger s)) /\
    (forall t, In t (ledger s) ->
       Transactions.transaction_id t < transactions_transaction_id_seq s /\
       Transactions.status t = "COMPLETED"%string /\
       positive_or_NaN (Transactions.amount t)).
Proof.
  intros rs s.
  destruct (serve_keeps_ledger_ok rs empty_store ledger_ok_empty)
    as [Hsorted Hissued Hrecords].
  fold s in Hsorted, Hissued, Hrecords.
  split; [exact Hsorted|]. split.
  - clear Hissued Hrecords.
    induction (map Transactions.transaction_id (ledger s)) as [|i l IH];
      [constructor|].
    apply StronglySorted_inv in Hsorted. destruct Hsorted as [Hl Hi].
    constructor; [|now apply IH].
    intros Hin. rewrite Forall_forall in Hi. specialize (Hi i Hin). lia.
  - intros t Ht. rewrite Forall_forall in Hissued, Hrecords.
    split; [now apply Hissued|now apply Hrecords].
Qed.

(* ----------------------------------------------------------------- *)
(** ** Users and their balance rows *)

(** The check that opens a registration: no row is found exactly when
    no user has that email address or that mobile number. *)
Lemma select_existing_user_none (email mobile : string) (d : database) :
  select_existing_user email mobile d = [] <->
  (~ In email (map Users.email_id (users d)) /\
   ~ In mobile (map Users.mobile_number (users d))).
Proof.
  unfold select_existing_user.
  induction (users d) as [|u l IH]; cbn [filter map In]; [tauto|].
  destruct (String.eqb_spec (Users.email_id u) email) as [He|He];
    cbn [orb].
  - split; [discriminate|]. intros [H _]. contradiction H. now left.
  - destruct (String.eqb_spec (Users.mobile_number u) mobile) as [Hm|Hm].
    + split; [discriminate|]. intros [_ H]. contradiction H. now left.
    + rewrite IH. tauto.
Qed.

Lemma directory_ok_empty : directory_ok empty_store.
Proof. split; cbn; constructor. Qed.

Lemma NoDup_snoc {A} (l : list A) (x : A) :
  NoDup l -> ~ In x l -> NoDup (l ++ [x]).
Proof.
  intros Hl Hx.
  apply (Permutation_NoDup (Permutation_cons_append l x)).
  now constructor.
Qed.

Lemma route_keeps_directory_ok (now : Z) (r : request) (s : store) :
  directory_ok s -> directory_ok (snd (route now r s)).
Proof.
  intros [Hrows Hemails Hmobiles].
  assert (Hsame : forall s', committed s' = committed s -> directory_ok s')
    by (intros s' E; split; rewrite E; assumption).
  assert (Hbalances : forall s',
    users (committed s') = users (committed s) ->
    map AccountBalances.user_id (account_balances (committed s')) =
    map AccountBalances.user_id (account_balances (committed s)) ->
    directory_ok s')
    by (intros s' Eu Eb; split; rewrite ?Eu, ?Eb; assumption).
  destruct r as [b|b|b|b|b]; cbn [route].
  - pose proof (registerUser_outcome now b s) as H. cbv zeta in H.
    break_outcome; use_outcome; cbn [snd]; try (now apply Hsame).
    match goal with
    | E : select_existing_user _ _ _ = [] |- _ =>
        apply select_existing_user_none in E; destruct E as [He Hm]
    end.
    split; unfold registered; cbn [committed users account_balances];
      rewrite !map_app; cbn [map new_user Users.user_id Users.email_id
                               Users.mobile_number AccountBalances.user_id].
    + now rewrite Hrows.
    + now apply NoDup_snoc.
    + now apply NoDup_snoc.
  - apply Hsame. now rewrite getUserTransactions_store.
  - pose proof (addFunds_outcome now b s) as H. cbv zeta in H.
    break_outcome; use_outcome; cbn [snd]; try (now apply Hsame).
    apply Hbalances; [reflexivity|].
    unfold deposited. cbn [committed snd insert_transaction account_balances].
    apply user_id_update_amount.
  - pose proof (sendMoney_outcome now b s) as H. cbv zeta in H.
    break_outcome; use_outcome; cbn [snd]; try (now apply Hsame).
    apply Hbalances; [reflexivity|].
    unfold transferred.
    cbn [committed snd insert_transaction account_balances].
    now rewrite !user_id_update_amount.
  - pose proof (payBill_outcome now b s) as H. cbv zeta in H.
    break_outcome; use_outcome; cbn [snd]; try (now apply Hsame).
    now apply Hbalances.
Qed.

Lemma serve_keeps_directory_ok (rs : list (Z * request)) (s : store) :
  directory_ok s -> directory_ok (serve rs s).
Proof.
  revert s. induction rs as [|[now r] rs IH]; intros s Hs; cbn [serve].
  - exact Hs.
  - apply IH. now apply route_keeps_directory_ok.
Qed.

(** A user whose identifier is among those of the balance rows has a
    row that [SELECT amount] shows. *)
Lemma balance_row_exists (user : Z) (d : database) :
  In user (map AccountBalances.user_id (account_balances d)) ->
  select_amount user d <> [].
Proof.
  unfold select_amount.
  induction (account_balances d) as [|r l IH]; cbn [map filter In];
    [contradiction|].
  destruct (Z.eqb_spec (AccountBalances.user_id r) user) as [E|E];
    [discriminate|].
  intros [H|H]; [contradiction|now apply IH].
Qed.

(** X6.  After any run from the empty store every user has exactly one
    balance row, no two users share an identifier, an email address or
    a mobile number, and every identifier was issued by the sequence. *)
Theorem every_user_has_one_balance_row :
  forall (rs : list (Z * request)),
    let s := serve rs empty_store in
    (forall u, In u (users (committed s)) ->
       Users.user_id u < users_user_id_seq s /\
       exists balance, balance_of (Users.user_id u) s = [balance]) /\
    NoDup (map Users.user_id (users (committed s))) /\
    NoDup (map Users.email_id (users (committed s))) /\
    NoDup (map Users.mobile_number (users (committed s))).
Proof.
  intros rs s.
  destruct (serve_keeps_directory_ok rs empty_store directory_ok_empty)
    as [Hrows Hemails Hmobiles].
  destruct (serve_keeps_balances_ok rs empty_store balances_ok_empty)
    as [Hunique Hissued].
  fold s in Hrows, Hemails, Hmobiles, Hunique, Hissued.
  split; [|split; [now rewrite Hrows|now split]].
  intros u Hu.
  assert (Hin : In (Users.user_id u)
                  (map AccountBalances.user_id (account_balances (committed s))))
    by (rewrite <- Hrows; now apply in_map).
  split.
  - apply in_map_iff in Hin. destruct Hin as [row [Hid Hrow]].
    rewrite Forall_forall in Hissued. rewrite <- Hid. now apply Hissued.
  - pose proof (balance_row_is_unique rs (Users.user_id u)) as Hone.
    fold s in Hone.
    pose proof (balance_row_exists _ _ Hin) as Hsome.
    unfold balance_of in *.
    destruct (select_amount (Users.user_id u) (committed s))
      as [|balance [|other rest]]; [contradiction| |cbn in Hone; lia].
    now exists balance.
Qed.

(* ----------------------------------------------------------------- *)
(** ** Registration and the resolution of recipients *)

(** X7.  [findRecipient] matches an identifier that contains [@]
    against the email addresses only, and any other identifier against
    the mobile numbers only.  What it answers is a user of the table
    with that email address or mobile number, and it answers nothing
    only when no user has it. *)
Theorem findRecipient_sound_and_complete :
  forall (identifier : string) (s : store),
    let column := if includes "@" identifier
                  then Users.email_id else Users.mobile_number in
    match recipient_of identifier s with
    | Some u => In u (users (committed s)) /\ column u = identifier
    | None => forall u, In u (users (committed s)) -> column u <> identifier
    end.
Proof.
  intros identifier s column. unfold recipient_of, findRecipient.
  io_cbn. unfold select_user_where. fold column.
  induction (users (committed s)) as [|u l IH]; cbn [filter In];
    [intros u []|].
  destruct (String.eqb_spec (column u) identifier) as [E|E].
  - split; [now left|exact E].
  - destruct (filter _ l) as [|v rest].
    + intros w [<-|Hw]; [exact E|now apply IH].
    + destruct IH as [Hv Hcol]. split; [now right|exact Hcol].
Qed.

Lemma select_user_where_snoc (column : Users.row -> string) (v : string)
  (l : list Users.row) (u : Users.row) :
  ~ In v (map column l) -> column u = v ->
  filter (fun x => String.eqb (column x) v) (l ++ [u]) = [u].
Proof.
  intros Hnone Hu. rewrite filter_app. cbn [filter].
  rewrite Hu, String.eqb_refl.
  induction l as [|x l IH]; cbn [filter app]; [reflexivity|].
  cbn [map In] in Hnone.
  destruct (String.eqb_spec (column x) v) as [E|E]; [tauto|].
  apply IH. tauto.
Qed.

(** X8.  A registration answered 201 issues the next identifier of the
    sequence, opens a balance row of 0 for it, and makes the user
    resolvable: by the email address when it contains [@], and by the
    mobile number when that contains none. *)
Theorem registration_opens_a_wallet :
  forall (now : Z) (b : register_body) (s : store),
    status (fst (registerUser now b s)) = 201 ->
    let s' := snd (registerUser now b s) in
    let user := users_user_id_seq s in
    fst (registerUser now b s) =
      respond 201 (user_json user (reg_first_name b) (reg_email_id b) now) /\
    users (committed s') = users (committed s) ++ [new_user now b s] /\
    balance_of user s' = balance_of user s ++ [Dec 0] /\
    ledger s' = ledger s /\
    (includes "@" (reg_email_id b) = true ->
     recipient_of (reg_email_id b) s' = Some (new_user now b s)) /\
    (includes "@" (reg_mobile_number b) = false ->
     recipient_of (reg_mobile_number b) s' = Some (new_user now b s)).
Proof.
  intros now b s. cbv zeta.
  pose proof (registerUser_outcome now b s) as H. cbv zeta in H.
  destruct H as [[_ E]|[[_ [_ E]]|[Hnone [_ E]]]]; rewrite E;
    cbn [fst snd status respond]; try discriminate.
  intros _. apply select_existing_user_none in Hnone.
  destruct Hnone as [Hemail Hmobile].
  split; [reflexivity|]. split; [reflexivity|]. split.
  { unfold balance_of, select_amount, registered.
    cbn [committed account_balances]. rewrite filter_app, map_app.
    cbn [filter AccountBalances.user_id]. now rewrite Z.eqb_refl. }
  split; [reflexivity|].
  split; intros Hat; unfold recipient_of, findRecipient; io_cbn;
    rewrite Hat; unfold select_user_where, registered;
    cbn [committed users].
  - now rewrite (select_user_where_snoc Users.email_id).
  - now rewrite (select_user_where_snoc Users.mobile_number).
Qed.

(** X9.  Once a registration was answered 201, a registration that
    gives the same email address or the same mobile number is answered
    409 and changes nothing. *)
Theorem registration_is_not_repeated :
  forall (now later : Z) (b again : register_body) (s : store),
    status (fst (registerUser now b s)) = 201 ->
    reg_email_id again = reg_email_id b \/
    reg_mobile_number again = reg_mobile_number b ->
    registerUser later again (snd (registerUser now b s)) =
      (respond 409
         (error_json "User with this email or mobile number already exists."),
       snd (registerUser now b s)).
Proof.
  intros now later b again s. 
  pose proof (registerUser_outcome now b s) as H. cbv zeta in H.
  destruct H as [[_ E]|[[_ [_ E]]|[_ [_ E]]]]; rewrite E;
    cbn [fst snd status respond]; try discriminate.
  intros _ Hsame.
  pose proof (registerUser_outcome later again (registered now b s)) as H.
  cbv zeta in H.
  destruct H as [[_ E']|[[Hnone _]|[Hnone _]]]; [exact E'| |];
    apply select_existing_user_none in Hnone; exfalso;
    destruct Hnone as [Hemail Hmobile];
    unfold registered in Hemail, Hmobile;
    cbn [committed users] in Hemail, Hmobile;
    rewrite map_app, in_app_iff in Hemail, Hmobile;
    cbn [map new_user Users.email_id Users.mobile_number In]
      in Hemail, Hmobile;
    destruct Hsame as [Hs|Hs]; rewrite Hs in *; tauto.
Qed.
(* ----------------------------------------------------------------- *)
(** ** Deposits *)

(** X10.  A deposit with valid fields, whose amount reads as the
    positive Number [a], for a user whose balance row holds [old]: the
    driver writes [a] to the store as a positive decimal [credited], the
    answer is 200 with [old + credited], the row then holds
    [old + credited], the rows of the other users are as they were, and
    the ledger grows by one CREDIT of [credited] on the user, with no
    counterparty.  When the amount of the request is exact, [credited]
    is the decimal that the request writes. *)
Theorem deposit_credits_the_balance :
  forall (now : Z) (b : add_funds_body) (s : store) (user : Z) (a old : Q),
    user_of (af_user_id b) = Some user ->
    parseFloat (af_amount b) = Num a ->
    (0 < a)%Q ->
    balance_of user s = [Dec old] ->
    let s' := snd (addFunds now b s) in
    let credited := Binary64.shortest_decimal a in
    (0 < credited)%Q /\
    (forall written, literal_value (af_amount b) = Num written ->
                     amount_is_exact (af_amount b) ->
                     (credited == written)%Q) /\
    fst (addFunds now b s) =
      respond 200 (new_balance_json (Dec (old + credited))) /\
    balance_of user s' = [Dec (old + credited)] /\
    (forall other, other <> user -> balance_of other s' = balance_of other s) /\
    ledger s' =
      ledger s ++
      [ledger_row now (transactions_transaction_id_seq s) user CREDIT
         (Dec credited) "Wallet Deposit (External)" None].
Proof.
  intros now b s user a old Hu Ha Hpos Hrow. cbv zeta.
  destruct (deposit_of_a_number now b s user a Hu Ha Hpos) as [_ E].
  split; [apply shortest_decimal_positive, Hpos|].
  split.
  { intros written Hw Hexact. unfold amount_is_exact in Hexact.
    rewrite Hw, Ha in Hexact. exact Hexact. }
  rewrite E, Hrow. cbn [fst snd].
  unfold balance_of in *. unfold deposited. cbn [committed].
  split; [reflexivity|]. split.
  - now rewrite select_amount_insert_transaction, select_amount_update_same,
      Hrow.
  - split; [|reflexivity].
    intros other Hother.
    now rewrite select_amount_insert_transaction, select_amount_update_other.
Qed.

(* ----------------------------------------------------------------- *)
(** ** Transfers that do not go through *)

(** X11.  A transfer whose fields pass validation and whose recipient
    identifier matches no user is answered 404 and changes nothing,
    whatever the sender is. *)
Theorem transfer_to_unknown_recipient :
  forall (now : Z) (b : send_money_body) (s : store) (identifier : string),
    truthy_field (sm_sender_id b) <> None ->
    truthy_string (sm_recipient_identifier b) = Some identifier ->
    js_le (parseFloat (sm_amount b)) (Num 0) = false ->
    recipient_of identifier s = None ->
    sendMoney now b s = (respond 404 (error_json "Recipient not found."), s).
Proof.
  intros now b s identifier Hs Hi Hle Hnone.
  pose proof (sendMoney_outcome now b s) as H. cbv zeta in H.
  destruct H as [[[H|[H|H]] _]|[x [y [Ex [Ey [_ H]]]]]]; try congruence.
  assert (y = identifier) by congruence. subst y.
  destruct H as [[_ E]|[recipient [H _]]]; [exact E|congruence].
Qed.

(** X12.  A transfer with valid fields, to another user, of an amount
    that reads as a Number above the Number that the balance of the
    sender reads as, is answered 402 and changes nothing. *)
Theorem transfer_above_the_balance :
  forall (now : Z) (b : send_money_body) (s : store)
         (sender : Z) (identifier : string) (recipient : Users.row)
         (a held : Q) (balance : numeric) (others : list numeric),
    user_of (sm_sender_id b) = Some sender ->
    truthy_string (sm_recipient_identifier b) = Some identifier ->
    recipient_of identifier s = Some recipient ->
    Users.user_id recipient <> sender ->
    parseFloat (sm_amount b) = Num a ->
    (0 < a)%Q ->
    balance_of sender s = balance :: others ->
    parseFloat_numeric balance = Num held ->
    (held < a)%Q ->
    sendMoney now b s = (respond 402 (error_json "Insufficient funds."), s).
Proof.
  intros now b s sender identifier recipient a held balance others
    Hs Hi Hr Hother Ha Hpos Hrow Hheld Hlt.
  assert (Hle : js_le (parseFloat (sm_amount b)) (Num 0) = false)
    by (rewrite Ha; apply js_le_positive, Hpos).
  pose proof (sendMoney_to_another now b s sender identifier recipient
                Hs Hi Hle Hr Hother) as H. cbv zeta in H.
  assert (Hins : insufficient (balance_of sender s)
                   (parseFloat (sm_amount b)) = true).
  { rewrite Hrow, Ha. cbn [insufficient]. rewrite Hheld.
    now apply js_lt_iff. }
  rewrite Hins in H.
  destruct H as [[_ E]|[[H _]|[[d [H _]]|[d [n [ns [o [rs [H _]]]]]]]]];
    [exact E | discriminate | discriminate | discriminate].
Qed.

(** A user who has a balance row after a run from the empty store has a
    row in [users]. *)
Lemma funded_sender_has_a_name (s : store) (sender : Z) :
  directory_ok s -> balance_of sender s <> [] ->
  select_first_name sender (committed s) <> [].
Proof.
  intros [Hrows _ _] Hbalance.
  assert (Hin : In sender (map Users.user_id (users (committed s)))).
  { rewrite Hrows. unfold balance_of, select_amount in Hbalance.
    destruct (filter _ (account_balances (committed s))) as [|r l] eqn:Hf;
      [contradiction|].
    assert (Hr : In r (filter (fun x => AccountBalances.user_id x =? sender)
                         (account_balances (committed s))))
      by (rewrite Hf; now left).
    apply filter_In in Hr. destruct Hr as [Hr Hid]. apply Z.eqb_eq in Hid.
    rewrite <- Hid. now apply in_map. }
  apply in_map_iff in Hin. destruct Hin as [u [Hid Hu]].
  unfold select_first_name. intros Hnone.
  assert (Hfilter : In u (filter (fun x => Users.user_id x =? sender)
                            (users (committed s)))).
  { apply filter_In. split; [exact Hu|]. now apply Z.eqb_eq. }
  destruct (filter _ (users (committed s))); [contradiction|discriminate].
Qed.

(** X13.  After any sequence of requests served from the empty store, a
    transfer that is not answered 200 leaves the whole store as it was,
    the sequences included: no transaction identifier is drawn for a
    transfer that does not go through. *)
Theorem transfer_not_carried_out_changes_nothing :
  forall (rs : list (Z * request)) (now : Z) (b : send_money_body),
    let s := serve rs empty_store in
    status (fst (sendMoney now b s)) <> 200 ->
    snd (sendMoney now b s) = s.
Proof.
  intros rs now b s.
  pose proof (serve_keeps_directory_ok rs empty_store directory_ok_empty)
    as Hdir. fold s in Hdir.
  pose proof (sendMoney_outcome now b s) as H. cbv zeta in H.
  destruct H as [[_ E]|[field [identifier [_ [_ [_ H]]]]]];
    [rewrite E; reflexivity|].
  destruct H as [[_ E]|[recipient [_ H]]]; [rewrite E; reflexivity|].
  destruct H as [[_ E]|[[_ [_ E]]|[sender [_ [_ H]]]]];
    try (rewrite E; reflexivity).
  destruct H as [[_ E]|[[_ [_ E]]|[[delta [Hins [_ [Hname _]]]]|H]]];
    try (rewrite E; reflexivity).
  - exfalso. apply (funded_sender_has_a_name s sender Hdir); [|exact Hname].
    intros Hnone. rewrite Hnone in Hins. discriminate Hins.
  - destruct H as [delta [senderName [names [old [rest [nb [others H]]]]]]].
    destruct H as [_ [_ [_ [_ [_ E]]]]]. rewrite E. cbn [fst status respond].
    intros Hstatus. contradiction.
Qed.

(* ----------------------------------------------------------------- *)
(** ** The money in the wallets *)

(** One UPDATE that moves the only row of a user from [x] to [y] moves
    the sum of the table by [y - x]. *)
Lemma total_of_update
  (op : numeric -> numeric -> numeric) (delta : numeric) (u now : Z)
  (d : database) (x y : Q) :
  NoDup (map AccountBalances.user_id (account_balances d)) ->
  select_amount u d = [Dec x] ->
  op (Dec x) delta = Dec y ->
  (total_of (account_balances (snd (update_amount op delta u now d)))
   == total_of (account_balances d) + (y - x))%Q.
Proof.
  unfold select_amount, update_amount. cbn [snd account_balances].
  induction (account_balances d) as [|r l IH]; cbn [map filter];
    [discriminate|].
  intros Hnd Hsel Hop. apply NoDup_cons_iff in Hnd. destruct Hnd as [Hr Hl].
  cbn [total_of fold_right]. fold (total_of l).
  destruct (Z.eqb_spec (AccountBalances.user_id r) u) as [E|E].
  - cbn [map] in Hsel. injection Hsel as Hx Hrest.
    cbn [AccountBalances.amount]. rewrite Hx, Hop. cbn [decimal_value].
    assert (Hsame :
      map (fun b => if AccountBalances.user_id b =? u
                    then {| AccountBalances.user_id := AccountBalances.user_id b;
                            AccountBalances.amount :=
                              op (AccountBalances.amount b) delta;
                            AccountBalances.last_updated_at := now |}
                    else b) l = l).
    { clear IH Hl Hrest. induction l as [|z l IHl]; [reflexivity|].
      cbn [map In] in Hr |- *.
      destruct (Z.eqb_spec (AccountBalances.user_id z) u) as [Ez|Ez];
        [exfalso; apply Hr; left; congruence|].
      f_equal. apply IHl. tauto. }
    rewrite Hsame. fold (total_of l). ring.
  - fold (total_of
            (map (fun b => if AccountBalances.user_id b =? u
                           then {| AccountBalances.user_id :=
                                     AccountBalances.user_id b;
                                   AccountBalances.amount :=
                                     op (AccountBalances.amount b) delta;
                                   AccountBalances.last_updated_at := now |}
                           else b) l)).
    rewrite (IH Hl Hsel Hop). ring.
Qed.

Lemma recipient_of_is_a_user (identifier : string) (s : store)
  (u : Users.row) :
  recipient_of identifier s = Some u -> In u (users (committed s)).
Proof.
  unfold recipient_of, findRecipient. io_cbn. unfold select_user_where.
  destruct (filter _ (users (committed s))) as [|v rest] eqn:Hf;
    [discriminate|].
  intros [= <-].
  assert (Hin : In v (v :: rest)) by now left.
  rewrite <- Hf in Hin. apply filter_In in Hin. tauto.
Qed.

(** In a run whose amounts all read as numbers, a user with a balance
    row has one row, holding a decimal. *)
Lemma single_decimal_row (rs : list (Z * request)) (user : Z) :
  Forall (fun timed => amount_is_a_number (snd timed)) rs ->
  balance_of user (serve rs empty_store) <> [] ->
  exists q, balance_of user (serve rs empty_store) = [Dec q].
Proof.
  intros Hrs Hsome.
  pose proof (balance_row_is_unique rs user) as Hone.
  assert (Hdec : decimal_amounts (serve rs empty_store))
    by (apply serve_keeps_decimal_amounts; [exact Hrs|constructor]).
  destruct (balance_of user (serve rs empty_store))
    as [|balance [|other rest]] eqn:Hrows;
    [contradiction| |cbn in Hone; lia].
  assert (Hin : In balance (balance_of user (serve rs empty_store)))
    by (rewrite Hrows; now left).
  unfold balance_of, select_amount in Hin. apply in_map_iff in Hin.
  destruct Hin as [r [<- Hr]]. apply filter_In in Hr. destruct Hr as [Hr _].
  unfold decimal_amounts in Hdec. rewrite Forall_forall in Hdec.
  destruct (Hdec r Hr) as [q ->]. now exists q.
Qed.

(** X14.  In a run from the empty store whose amounts all read as
    numbers, a deposit answered 200 raises the sum of all balances by
    the decimal that the driver writes for the amount, which reads as a
    positive Number. *)
Theorem deposit_raises_the_total :
  forall (rs : list (Z * request)) (now : Z) (b : add_funds_body),
    let s := serve rs empty_store in
    Forall (fun timed => amount_is_a_number (snd timed)) rs ->
    parseFloat (af_amount b) <> NaN ->
    status (fst (addFunds now b s)) = 200 ->
    exists a : Q,
      parseFloat (af_amount b) = Num a /\ (0 < a)%Q /\
      (0 < Binary64.shortest_decimal a)%Q /\
      (total_balance (snd (addFunds now b s))
       == total_balance s + Binary64.shortest_decimal a)%Q.
Proof.
  intros rs now b s Hrs Hnumber.
  pose proof (addFunds_outcome now b s) as H. cbv zeta in H.
  destruct H as [[_ E]|[[field [_ [_ [_ E]]]]|
                        [user [delta [_ [Hle [Hnum E]]]]]]];
    rewrite E; cbn [fst snd]; try (cbn; discriminate).
  destruct (balance_of user s) as [|old rest] eqn:Hrows;
    [cbn; discriminate|].
  intros _.
  destruct (parseFloat (af_amount b)) as [|negative|a] eqn:Ha;
    [contradiction|discriminate|].
  cbn [to_numeric] in Hnum. injection Hnum as <-.
  exists a. split; [reflexivity|].
  assert (Hpos : (0 < a)%Q).
  { destruct (Qlt_le_dec 0 a) as [P|P]; [exact P|].
    now rewrite (js_le_not_positive a P) in Hle. }
  split; [exact Hpos|].
  split; [apply shortest_decimal_positive, Hpos|].
  destruct (single_decimal_row rs user Hrs) as [x Hx];
    [fold s; now rewrite Hrows|].
  fold s in Hx.
  destruct (serve_keeps_balances_ok rs empty_store balances_ok_empty)
    as [Hunique _]. fold s in Hunique.
  unfold total_balance, deposited.
  cbn [committed snd insert_transaction account_balances].
  rewrite (total_of_update numeric_add (Dec (Binary64.shortest_decimal a))
             user now (committed s)
             x (x + Binary64.shortest_decimal a) Hunique Hx eq_refl).
  ring.
Qed.

(** X15.  In a run from the empty store whose amounts all read as
    numbers, a transfer answered 200 leaves the sum of all balances as
    it was: what the sender loses the recipient gains. *)
Theorem transfer_keeps_the_total :
  forall (rs : list (Z * request)) (now : Z) (b : send_money_body),
    let s := serve rs empty_store in
    Forall (fun timed => amount_is_a_number (snd timed)) rs ->
    parseFloat (sm_amount b) <> NaN ->
    status (fst (sendMoney now b s)) = 200 ->
    (total_balance (snd (sendMoney now b s)) == total_balance s)%Q.
Proof.
  intros rs now b s Hrs Hnumber.
  pose proof (sendMoney_outcome now b s) as H. cbv zeta in H.
  destruct H as [[_ E]|[field [identifier [_ [_ [Hle H]]]]]];
    [rewrite E; cbn; discriminate|].
  destruct H as [[_ E]|[recipient [Hr H]]]; [rewrite E; cbn; discriminate|].
  destruct H as [[_ E]|[[_ [_ E]]|[sender [_ [_ H]]]]];
    try (rewrite E; cbn; discriminate).
  destruct H as [[_ E]|[[_ [_ E]]|[[d [_ [_ [_ E]]]]|
    [delta [senderName [names [old [rest [nb [others
       [_ [Hnum [_ [Hrows [_ E]]]]]]]]]]]]]]];
    rewrite E; cbn [fst snd]; try (cbn; discriminate).
  intros _.
  destruct (parseFloat (sm_amount b)) as [|negative|a] eqn:Ha;
    [contradiction|discriminate|].
  cbn [to_numeric] in Hnum. injection Hnum as <-.
  set (moved := Binary64.shortest_decimal a).
  destruct (single_decimal_row rs sender Hrs) as [x Hx];
    [fold s; now rewrite Hrows|].
  destruct (serve_keeps_directory_ok rs empty_store directory_ok_empty)
    as [Hsync _ _].
  destruct (serve_keeps_balances_ok rs empty_store balances_ok_empty)
    as [Hunique _].
  destruct (single_decimal_row rs (Users.user_id recipient) Hrs) as [z Hz].
  { apply balance_row_exists. rewrite <- Hsync.
    apply in_map. now apply recipient_of_is_a_user with identifier. }
  fold s in Hx, Hz, Hsync, Hunique. unfold balance_of in Hx, Hz.
  unfold total_balance, transferred.
  cbn [committed snd insert_transaction account_balances].
  destruct (Z.eq_dec (Users.user_id recipient) sender) as [Hsame|Hother].
  - rewrite Hsame.
    rewrite (total_of_update numeric_add (Dec moved) sender now
               _ (x - moved) (x - moved + moved)).
    + rewrite (total_of_update numeric_sub (Dec moved) sender now (committed s)
                 x (x - moved) Hunique Hx eq_refl).
      ring.
    + now rewrite user_id_update_amount.
    + now rewrite select_amount_update_same, Hx.
    + reflexivity.
  - rewrite (total_of_update numeric_add (Dec moved) (Users.user_id recipient)
               now _ z (z + moved)).
    + rewrite (total_of_update numeric_sub (Dec moved) sender now (committed s)
                 x (x - moved) Hunique Hx eq_refl).
      ring.
    + now rewrite user_id_update_amount.
    + now rewrite select_amount_update_other.
    + reflexivity.
Qed.

(* ----------------------------------------------------------------- *)
(** ** The latest record comes first *)

Lemma order_by_created_at_desc_latest (l : list Transactions.row)
  (t : Transactions.row) :
  Forall (fun x => Transactions.created_at x < Transactions.created_at t) l ->
  order_by_created_at_desc (l ++ [t]) = t :: order_by_created_at_desc l.
Proof.
  unfold order_by_created_at_desc.
  induction 1 as [|x l Hx Hl IH]; cbn [app fold_right]; [reflexivity|].
  rewrite IH. cbn [insert_by_created_at].
  destruct (Z.leb_spec (Transactions.created_at t)
              (Transactions.created_at x)); [lia|reflexivity].
Qed.

(** X16.  After a deposit that committed its record at a time later
    than every record of the user, the listing of that user shows the
    CREDIT of the deposit first, with the decimal that the driver wrote
    for the amount, followed by the listing as it was. *)
Theorem latest_deposit_is_listed_first :
  forall (now : Z) (b : add_funds_body) (q : transactions_body) (s : store)
         (user : Z) (a : Q),
    user_of (af_user_id b) = Some user ->
    truthy_field (tx_user_id q) = Some (id_number user) ->
    parseFloat (af_amount b) = Num a ->
    (0 < a)%Q ->
    (forall t, In t (ledger_of user s) -> Transactions.created_at t < now) ->
    listing (fst (getUserTransactions q (snd (addFunds now b s)))) =
      view_of (ledger_row now (transactions_transaction_id_seq s) user CREDIT
                 (Dec (Binary64.shortest_decimal a))
                 "Wallet Deposit (External)" None)
      :: listing (fst (getUserTransactions q s)).
Proof.
  intros now b q s user a Hu Hq Ha Hpos Hlater.
  destruct (deposit_of_a_number now b s user a Hu Ha Hpos) as [_ E].
  rewrite E. cbn [snd].
  unfold getUserTransactions. rewrite Hq. io_cbn.
  unfold listing. cbn [body fst respond].
  unfold select_transactions, deposited.
  cbn [committed snd insert_transaction transactions].
  rewrite filter_app. cbn [filter ledger_row Transactions.user_id].
  rewrite Z.eqb_refl.
  fold (ledger_row now (transactions_transaction_id_seq s) user CREDIT
          (Dec (Binary64.shortest_decimal a))
          "Wallet Deposit (External)" None).
  rewrite order_by_created_at_desc_latest; [reflexivity|].
  apply Forall_forall. exact Hlater.
Qed.

(* ----------------------------------------------------------------- *)
(** ** The profile *)

Lemma filter_unique (column : Users.row -> string) (l : list Users.row)
  (u : Users.row) :
  NoDup (map column l) -> In u l ->
  filter (fun x => String.eqb (column x) (column u)) l = [u].
Proof.
  induction l as [| x l IH]; cbn [map filter In]; [contradiction |].
  intros Hnd Hin. apply NoDup_cons_iff in Hnd. destruct Hnd as [Hx Hl].
  assert (Hnone : forall v, ~ In v (map column l) ->
            filter (fun y => String.eqb (column y) v) l = []).
  { clear. intros v. induction l as [| y l IHl]; cbn [map filter In];
      [reflexivity |].
    intros Hv. destruct (String.eqb_spec (column y) v); [tauto |].
    apply IHl. tauto. }
  destruct Hin as [-> | Hin].
  - rewrite String.eqb_refl, Hnone by exact Hx. reflexivity.
  - destruct (String.eqb_spec (column x) (column u)) as [E | _].
    + exfalso. apply Hx. rewrite E. apply in_map. exact Hin.
    + apply IH; assumption.
Qed.

Lemma at_most_one_row (user : Z) (d : database) :
  NoDup (map AccountBalances.user_id (account_balances d)) ->
  (List.length (select_amount user d) <= 1)%nat.
Proof.
  unfold select_amount. rewrite List.length_map.
  induction (account_balances d) as [|x l IH]; cbn [map filter];
    [cbn; lia|].
  intros Hnd. apply NoDup_cons_iff in Hnd. destruct Hnd as [Hx Hl].
  destruct (Z.eqb_spec (AccountBalances.user_id x) user) as [E|E];
    [|now apply IH].
  destruct (filter _ l) as [|y rest] eqn:Hf; [cbn; lia|].
  exfalso. apply Hx.
  assert (Hy : In y (filter (fun b => AccountBalances.user_id b =? user) l))
    by (rewrite Hf; now left).
  apply filter_In in Hy. destruct Hy as [Hy Hid].
  apply Z.eqb_eq in Hid. rewrite E, <- Hid. now apply in_map.
Qed.

(** In a store where users and balance rows go together, the profile of
    a user shows the amount of the one balance row of that user. *)
Lemma profile_of_user (s : store) (u : Users.row) (b : profile_body) :
  directory_ok s -> balances_ok s ->
  In u (users (committed s)) ->
  truthy_string (pf_email_id b) = Some (Users.email_id u) ->
  exists (balance : numeric) (updated : Z),
    balance_of (Users.user_id u) s = [balance] /\
    getUserProfileAndBalance b s =
      ({| profile_status := 200;
          profile_payload :=
            profile_user (Users.user_id u) (Users.first_name u)
              (Users.last_name u) (Users.email_id u)
              (Users.mobile_number u) balance updated |}, s).
Proof.
  intros [Hsync Hemails _] [Hunique _] Hu Hb.
  pose proof (at_most_one_row (Users.user_id u) (committed s) Hunique) as Hone.
  assert (Hsome : select_amount (Users.user_id u) (committed s) <> []).
  { apply balance_row_exists. rewrite <- Hsync. now apply in_map. }
  unfold getUserProfileAndBalance, select_profile. rewrite Hb.
  rewrite (filter_unique Users.email_id _ u Hemails Hu). cbn [flat_map].
  rewrite app_nil_r.
  unfold balance_of, select_amount in *.
  destruct (filter _ (account_balances (committed s)))
    as [|row [|other rest]]; [contradiction| |cbn in Hone; lia].
  exists (AccountBalances.amount row), (AccountBalances.last_updated_at row).
  split; reflexivity.
Qed.

(** X17.  After any run from the empty store, the profile asked with
    the email address of a user is answered 200 with the fields of that
    user and the amount of the one balance row of that user; nothing is
    written. *)
Theorem profile_shows_the_balance :
  forall (rs : list (Z * request)) (u : Users.row) (b : profile_body),
    let s := serve rs empty_store in
    In u (users (committed s)) ->
    truthy_string (pf_email_id b) = Some (Users.email_id u) ->
    exists (balance : numeric) (updated : Z),
      balance_of (Users.user_id u) s = [balance] /\
      getUserProfileAndBalance b s =
        ({| profile_status := 200;
            profile_payload :=
              profile_user (Users.user_id u) (Users.first_name u)
                (Users.last_name u) (Users.email_id u)
                (Users.mobile_number u) balance updated |}, s).
Proof.
  intros rs u b s. apply profile_of_user.
  - apply serve_keeps_directory_ok, directory_ok_empty.
  - apply serve_keeps_balances_ok, balances_ok_empty.
Qed.

(** X18.  The profile asked with an email address is answered 404, and
    nothing is written, when every user with that email address lacks a
    balance row; in particular when no user has that email address. *)
Theorem profile_not_found :
  forall (b : profile_body) (s : store) (email : string),
    truthy_string (pf_email_id b) = Some email ->
    (forall u, In u (users (committed s)) -> Users.email_id u = email ->
               balance_of (Users.user_id u) s = []) ->
    getUserProfileAndBalance b s =
      ({| profile_status := 404;
          profile_payload :=
            profile_error "User profile or balance account not found." |},
       s).
Proof.
  intros b s email Hb Hnone. unfold getUserProfileAndBalance. rewrite Hb.
  assert (Hempty : select_profile email (committed s) = []).
  { unfold select_profile.
    induction (users (committed s)) as [|u l IH]; [reflexivity|].
    cbn [filter].
    destruct (String.eqb_spec (Users.email_id u) email) as [E|E].
    - cbn [flat_map].
      specialize (Hnone u (or_introl eq_refl) E) as Hu.
      unfold balance_of, select_amount in Hu.
      apply map_eq_nil in Hu. rewrite Hu. cbn [map app].
      apply IH. intros v Hv. apply Hnone. now right.
    - apply IH. intros v Hv. apply Hnone. now right. }
  now rewrite Hempty.
Qed.

(** X19.  After any run from the empty store, the balance that a
    deposit for a user reports in its answer 200 is the balance that
    the profile of that user shows next. *)
Theorem profile_follows_the_deposit :
  forall (rs : list (Z * request)) (now : Z) (b : add_funds_body)
         (u : Users.row) (p : profile_body) (reported : numeric),
    let s := serve rs empty_store in
    In u (users (committed s)) ->
    user_of (af_user_id b) = Some (Users.user_id u) ->
    truthy_string (pf_email_id p) = Some (Users.email_id u) ->
    fst (addFunds now b s) = respond 200 (new_balance_json reported) ->
    exists updated : Z,
      fst (getUserProfileAndBalance p (snd (addFunds now b s))) =
        {| profile_status := 200;
           profile_payload :=
             profile_user (Users.user_id u) (Users.first_name u)
               (Users.last_name u) (Users.email_id u)
               (Users.mobile_number u) reported updated |}.
Proof.
  intros rs now b u p reported s Hu Hb Hp Hanswer.
  assert (Hdir : directory_ok (snd (addFunds now b s))).
  { apply (route_keeps_directory_ok now (POST_user_funds_add b)).
    apply serve_keeps_directory_ok, directory_ok_empty. }
  assert (Hbal : balances_ok (snd (addFunds now b s))).
  { apply (route_keeps_balances_ok now (POST_user_funds_add b)).
    apply serve_keeps_balances_ok, balances_ok_empty. }
  pose proof (addFunds_outcome now b s) as H. cbv zeta in H.
  destruct H as [[_ E]|[[field [_ [_ [_ E]]]]|
                        [user [delta [Eu [_ [_ E]]]]]]];
    rewrite E in *; cbn [fst snd] in *; try discriminate.
  assert (user = Users.user_id u) by congruence. subst user.
  destruct (balance_of (Users.user_id u) s) as [|old rest] eqn:Hrows;
    [discriminate|].
  injection Hanswer as <-.
  assert (Hu' : In u (users (committed (deposited now (Users.user_id u)
                                          delta s)))) by exact Hu.
  destruct (profile_of_user _ u p Hdir Hbal Hu' Hp)
    as [balance [updated [Hrow Eprofile]]].
  exists updated. rewrite Eprofile. cbn [fst].
  unfold balance_of, deposited in Hrow. cbn [committed] in Hrow.
  rewrite select_amount_insert_transaction, select_amount_update_same in Hrow.
  unfold balance_of in Hrows. rewrite Hrows in Hrow. cbn [map] in Hrow.
  injection Hrow as <- _. reflexivity.
Qed.
(* ================================================================= *)
(** ** Payment instruments *)

Lemma length_substring_le (n m : nat) (s : string) :
  (String.length (substring n m s) <= m)%nat.
Proof.
  revert n m. induction s as [| c s IH]; intros [| n] [| m]; simpl;
    try lia.
  - specialize (IH 0%nat m). lia.
  - apply (IH n 0%nat).
  - apply (IH n (S m)).
Qed.

Lemma substring_all (s : string) (m : nat) :
  (String.length s <= m)%nat -> substring 0 m s = s.
Proof.
  revert m. induction s as [| c s IH]; intros [| m] H; simpl in *;
    try reflexivity; try lia.
  f_equal. apply IH. lia.
Qed.

Lemma substring_suffix (s : string) (n m : nat) :
  (String.length s <= n + m)%nat ->
  exists p, s = (p ++ substring n m s)%string /\ String.length p = Nat.min n (String.length s).
Proof.
  revert n m. induction s as [| c s IH]; intros n m H.
  - exists EmptyString. destruct n, m; simpl; split; reflexivity.
  - destruct n as [| n].
    + exists EmptyString. simpl (Nat.min _ _). split; [| reflexivity].
      rewrite substring_all by (simpl in *; lia). reflexivity.
    + simpl in H. destruct (IH n m) as [p [Hp Hlen]]; [lia |].
      exists (String c p). split.
      * assert (Hs : substring (S n) m (String c s) = substring n m s)
          by (destruct m; reflexivity).
        rewrite Hs. simpl. f_equal. exact Hp.
      * simpl. rewrite Hlen. reflexivity.
Qed.

Lemma slice_last_short (n : nat) (s : string) :
  (String.length (slice_last n s) <= n)%nat.
Proof. apply length_substring_le. Qed.

Lemma slice_last_suffix (n : nat) (s : string) :
  exists p, s = (p ++ slice_last n s)%string
            /\ String.length p = (String.length s - n)%nat.
Proof.
  destruct (substring_suffix s (String.length s - n) n) as [p [Hp Hlen]];
    [lia |].
  exists p. split; [exact Hp |]. rewrite Hlen. lia.
Qed.

Lemma lower_not_upper (c : ascii) : is_upper (lower c) = false.
Proof. destruct c as [[] [] [] [] [] [] [] []]; reflexivity. Qed.

Lemma lower_white_space (c : ascii) :
  is_white_space (lower c) = is_white_space c.
Proof. destruct c as [[] [] [] [] [] [] [] []]; reflexivity. Qed.

Lemma toLowerCase_no_upper (s : string) : no_upper (toLowerCase s) = true.
Proof.
  induction s as [| c s IH]; simpl; [reflexivity |].
  rewrite lower_not_upper, IH. reflexivity.
Qed.

Lemma first_char_toLowerCase (s : string) :
  dark (first_char (toLowerCase s)) = dark (first_char s).
Proof.
  destruct s as [| c s]; simpl; [reflexivity |].
  rewrite lower_white_space. reflexivity.
Qed.

Lemma last_char_toLowerCase (s : string) :
  dark (last_char (toLowerCase s)) = dark (last_char s).
Proof.
  induction s as [| c s IH]; simpl; [reflexivity |].
  destruct s as [| c' s]; simpl in *.
  - rewrite lower_white_space. reflexivity.
  - exact IH.
Qed.

Lemma first_char_trim_start (s : string) :
  dark (first_char (trim_start s)) = true.
Proof.
  induction s as [| c s IH]; simpl; [reflexivity |].
  destruct (is_white_space c) eqn:E; [exact IH |].
  simpl. rewrite E. reflexivity.
Qed.

Lemma last_char_trim_end (s : string) :
  dark (last_char (trim_end s)) = true.
Proof.
  induction s as [| c s IH]; simpl; [reflexivity |].
  destruct (trim_end s) as [| c' kept] eqn:E.
  - destruct (is_white_space c) eqn:Ec; simpl; [reflexivity |].
    rewrite Ec. reflexivity.
  - exact IH.
Qed.

Lemma first_char_trim_end (s : string) :
  dark (first_char s) = true -> dark (first_char (trim_end s)) = true.
Proof.
  destruct s as [| c s]; simpl; [reflexivity |].
  intros H. destruct (trim_end s); [| exact H].
  destruct (is_white_space c) eqn:E; [discriminate |].
  simpl. rewrite E. reflexivity.
Qed.

Lemma normalised_toLowerCase_trim (s : string) :
  normalised (toLowerCase (trim s)).
Proof.
  unfold normalised, trim. split; [apply toLowerCase_no_upper |].
  rewrite first_char_toLowerCase, last_char_toLowerCase. split.
  - apply first_char_trim_end, first_char_trim_start.
  - apply last_char_trim_end.
Qed.

Lemma insert_by_perm {A} (precedes : A -> A -> bool) (r : A) (l : list A) :
  Permutation (insert_by precedes r l) (r :: l).
Proof.
  induction l as [| x l IH]; simpl; [reflexivity |].
  destruct (precedes r x); [reflexivity |].
  rewrite IH. apply perm_swap.
Qed.

Lemma order_by_perm {A} (precedes : A -> A -> bool) (l : list A) :
  Permutation (order_by precedes l) l.
Proof.
  induction l as [| x l IH]; simpl; [reflexivity |].
  rewrite insert_by_perm. constructor. exact IH.
Qed.

Lemma insert_by_sorted {A} (precedes : A -> A -> bool) (r : A) (l : list A) :
  (forall a b, precedes a b = false -> precedes b a = true) ->
  (forall a b c, precedes a b = true -> precedes b c = true ->
                 precedes a c = true) ->
  StronglySorted (fun a b => precedes a b = true) l ->
  StronglySorted (fun a b => precedes a b = true) (insert_by precedes r l).
Proof.
  intros Htotal Htrans. induction 1 as [| x l Hsorted IH Hx]; simpl.
  - repeat constructor.
  - destruct (precedes r x) eqn:E.
    + constructor; [constructor; assumption |].
      constructor; [exact E |].
      rewrite Forall_forall in *. intros y Hy. eauto.
    + constructor; [exact IH |].
      rewrite Forall_forall in *. intros y Hy.
      apply (Permutation_in _ (insert_by_perm precedes r l)) in Hy.
      destruct Hy as [<- | Hy]; auto.
Qed.

Lemma order_by_sorted {A} (precedes : A -> A -> bool) (l : list A) :
  (forall a b, precedes a b = false -> precedes b a = true) ->
  (forall a b c, precedes a b = true -> precedes b c = true ->
                 precedes a c = true) ->
  StronglySorted (fun a b => precedes a b = true) (order_by precedes l).
Proof.
  intros Htotal Htrans. induction l as [| x l IH]; simpl.
  - constructor.
  - apply insert_by_sorted; assumption.
Qed.

Lemma insert_by_primaries_first {A} (is_primary : A -> bool)
  (next : A -> A -> bool) (r : A) (l : list A) :
  primaries_first (map is_primary l) ->
  primaries_first
    (map is_primary (insert_by (primary_first is_primary next) r l)).
Proof.
  unfold primaries_first. induction l as [| x l IH]; simpl; intros H.
  - repeat constructor.
  - inversion H as [| ? ? Hsorted Hx]; subst.
    unfold primary_first at 1.
    destruct (is_primary r) eqn:Er, (is_primary x) eqn:Ex; simpl.
    + destruct (next r x); simpl.
      * rewrite Er, Ex. constructor; [exact H |].
        rewrite Forall_forall. reflexivity.
      * rewrite Ex. constructor; [apply IH; exact Hsorted |].
        rewrite Forall_forall. reflexivity.
    + rewrite Er, Ex. constructor; [exact H |].
      rewrite Forall_forall. reflexivity.
    + rewrite Ex. constructor; [apply IH; exact Hsorted |].
      rewrite Forall_forall. reflexivity.
    + assert (Hall : Forall (fun b => b = false) (map is_primary l)).
      { rewrite Forall_forall in *. intros b Hb.
        destruct b; [| reflexivity]. specialize (Hx _ Hb eq_refl).
        discriminate. }
      destruct (next r x); simpl.
      * rewrite Er, Ex. constructor; [exact H |].
        constructor; [discriminate |].
        rewrite Forall_forall in *. intros b Hb Hb'.
        rewrite (Hall _ Hb) in Hb'. discriminate.
      * rewrite Ex. constructor; [apply IH; exact Hsorted |].
        rewrite Forall_forall in *. intros b Hb Hb'.
        apply (Permutation_in _
                 (Permutation_map is_primary
                    (insert_by_perm (primary_first is_primary next) r l)))
          in Hb.
        simpl in Hb. destruct Hb as [<- | Hb]; [congruence |].
        rewrite (Hall _ Hb) in Hb'. discriminate.
Qed.

Lemma order_by_primaries_first {A} (is_primary : A -> bool)
  (next : A -> A -> bool) (l : list A) :
  primaries_first
    (map is_primary (order_by (primary_first is_primary next) l)).
Proof.
  induction l as [| x l IH]; simpl.
  - constructor.
  - apply insert_by_primaries_first. exact IH.
Qed.


Lemma truthy_string_some (v : option string) (s : string) :
  truthy_string v = Some s -> v = Some s /\ s <> EmptyString.
Proof.
  destruct v as [x |]; simpl; [| discriminate].
  destruct (String.eqb x EmptyString) eqn:E; [discriminate |].
  intros [= <-]. split; [reflexivity |]. apply String.eqb_neq. exact E.
Qed.

Lemma addCard_outcome (now : Z) (simulatedToken : string) (i : insertion)
  (b : add_card_body) (t : instruments) :
  (snd (addCard now simulatedToken i b t) = t
   /\ (instrument_status (fst (addCard now simulatedToken i b t)) = 400
       \/ instrument_status (fst (addCard now simulatedToken i b t)) = 500))
  \/ (exists user number type expiry cvv,
        truthy_id (ac_user_id b) = Some user
        /\ truthy_string (ac_card_number b) = Some number
        /\ truthy_string (ac_card_type b) = Some type
        /\ truthy_string (ac_expiry_date b) = Some expiry
        /\ truthy_string (ac_cvv b) = Some cvv
        /\ (type = "DEBIT"%string \/ type = "CREDIT"%string)
        /\ raised i = None
        /\ addCard now simulatedToken i b t =
           (answer 201 (card_json (issued i) type (slice_last 4 number)),
            {| user_bank_accounts := user_bank_accounts t;
               user_upi_ids := user_upi_ids t;
               user_cards :=
                 user_cards t ++
                 [{| UserCards.card_id := issued i;
                     UserCards.user_id := user;
                     UserCards.masked_card_number := slice_last 4 number;
                     UserCards.card_type := type;
                     UserCards.expiry_date := expiry;
                     UserCards.token := simulatedToken;
                     UserCards.is_primary := primary i;
                     UserCards.created_at := now |}] |})).
Proof.
  unfold addCard.
  destruct (truthy_id (ac_user_id b)) as [user |];
    [| left; split; [reflexivity | left; reflexivity]].
  destruct (truthy_string (ac_card_number b)) as [number |];
    [| left; split; [reflexivity | left; reflexivity]].
  destruct (truthy_string (ac_card_type b)) as [type |];
    [| left; split; [reflexivity | left; reflexivity]].
  destruct (truthy_string (ac_expiry_date b)) as [expiry |];
    [| left; split; [reflexivity | left; reflexivity]].
  destruct (truthy_string (ac_cvv b)) as [cvv |];
    [| left; split; [reflexivity | left; reflexivity]].
  destruct (String.eqb type "DEBIT") eqn:Ed;
    [| destruct (String.eqb type "CREDIT") eqn:Ec];
    simpl negb; cbv beta iota;
    try (left; split; [reflexivity | left; reflexivity]).
  - destruct (raised i) eqn:Er;
      [left; split; [reflexivity | right; reflexivity] |].
    right. exists user, number, type, expiry, cvv.
    apply String.eqb_eq in Ed. repeat split; auto.
  - destruct (raised i) eqn:Er;
      [left; split; [reflexivity | right; reflexivity] |].
    right. exists user, number, type, expiry, cvv.
    apply String.eqb_eq in Ec. repeat split; auto.
Qed.

Lemma addUpiId_outcome (now : Z) (i : insertion) (b : add_upi_id_body)
  (t : instruments) :
  (snd (addUpiId now i b t) = t
   /\ (instrument_status (fst (addUpiId now i b t)) = 400
       \/ instrument_status (fst (addUpiId now i b t)) = 409
       \/ instrument_status (fst (addUpiId now i b t)) = 500))
  \/ (exists user vpa,
        truthy_id (au_user_id b) = Some user
        /\ truthy_string (au_vpa b) = Some vpa
        /\ raised i = None
        /\ addUpiId now i b t =
           (answer 201 (upi_id_json (issued i) (toLowerCase (trim vpa))),
            {| user_bank_accounts := user_bank_accounts t;
               user_upi_ids :=
                 user_upi_ids t ++
                 [{| UserUpiIds.upi_id := issued i;
                     UserUpiIds.user_id := user;
                     UserUpiIds.vpa := toLowerCase (trim vpa);
                     UserUpiIds.is_primary := primary i;
                     UserUpiIds.created_at := now |}];
               user_cards := user_cards t |})).
Proof.
  unfold addUpiId.
  destruct (truthy_id (au_user_id b)) as [user |];
    [| left; split; [reflexivity | left; reflexivity]].
  destruct (truthy_string (au_vpa b)) as [vpa |];
    [| left; split; [reflexivity | left; reflexivity]].
  destruct (raised i) as [code |] eqn:Er.
  - destruct (String.eqb code "23505"); left; split; try reflexivity;
      right; [left | right]; reflexivity.
  - right. exists user, vpa. repeat split; reflexivity.
Qed.





Lemma primary_then_newest_sorted {A} (P : A -> bool) (C : A -> Z)
  (l : list A) :
  StronglySorted
    (fun a b => primary_then_newest (P a) (P b) (C a) (C b))
    (order_by (primary_first P (fun r x => C x <=? C r)) l).
Proof.
  assert (Hsorted := order_by_sorted
    (primary_first P (fun r x => C x <=? C r)) l).
  assert (Hmono : forall l',
    StronglySorted
      (fun a b => primary_first P (fun r x => C x <=? C r) a b = true) l' ->
    StronglySorted
      (fun a b => primary_then_newest (P a) (P b) (C a) (C b)) l').
  { induction 1 as [| x l' Hl' IH Hx]; constructor; [exact IH |].
    rewrite Forall_forall in *. intros y Hy. specialize (Hx y Hy).
    unfold primary_first in Hx. unfold primary_then_newest.
    destruct (P x), (P y); simpl in Hx; try discriminate;
      split; try congruence; intros _; lia. }
  apply Hmono, Hsorted.
  - intros a b. unfold primary_first.
    destruct (P a), (P b); simpl; try congruence; lia.
  - intros a b c. unfold primary_first.
    destruct (P a), (P b), (P c); simpl; try congruence; lia.
Qed.

Lemma order_by_snoc_other {A} (precedes : A -> A -> bool) (keep : A -> bool)
  (l : list A) (r : A) :
  keep r = false ->
  order_by precedes (filter keep (l ++ [r]))
  = order_by precedes (filter keep l).
Proof.
  intros H. rewrite filter_app. simpl. rewrite H, app_nil_r. reflexivity.
Qed.

(** X20 ([addCard]): an accepted card adds one row to [user_cards] and
    nothing else; the row holds the last four characters of the card
    number (all of it when it has fewer), never more, together with the
    token, and the response shows the same characters. *)
Theorem card_number_is_masked (now : Z) (simulatedToken : string)
  (i : insertion) (b : add_card_body) (t : instruments) :
  instrument_status (fst (addCard now simulatedToken i b t)) = 201 ->
  exists number row,
    ac_card_number b = Some number
    /\ snd (addCard now simulatedToken i b t) =
       {| user_bank_accounts := user_bank_accounts t;
          user_upi_ids := user_upi_ids t;
          user_cards := user_cards t ++ [row] |}
    /\ UserCards.masked_card_number row = slice_last 4 number
    /\ (String.length (UserCards.masked_card_number row) <= 4)%nat
    /\ (exists p, number = (p ++ UserCards.masked_card_number row)%string
                  /\ String.length p = (String.length number - 4)%nat)
    /\ UserCards.token row = simulatedToken
    /\ instrument_body (fst (addCard now simulatedToken i b t)) =
       card_json (UserCards.card_id row) (UserCards.card_type row)
         (UserCards.masked_card_number row).
Proof.
  destruct (addCard_outcome now simulatedToken i b t)
    as [[_ [H | H]] | [user [number [type [expiry [cvv H]]]]]];
    try (rewrite H; discriminate).
  destruct H as [_ [Hn [_ [_ [_ [_ [_ E]]]]]]]. rewrite E. intros _.
  apply truthy_string_some in Hn. destruct Hn as [Hn _].
  eexists number, _. split; [exact Hn |]. split; [reflexivity |].
  cbn. repeat split.
  - apply slice_last_short.
  - apply slice_last_suffix.
Qed.

(** X21 ([addBankAccount], [addUpiId], [addCard]): a bank account or a UPI
    identifier is answered with 409 exactly when every field is there and
    the store raises the error 23505 (a duplicate); a card is never
    answered with 409, whatever the store raises. *)
Theorem duplicate_is_a_conflict_except_for_cards :
  (forall i b t,
     instrument_status (fst (addBankAccount i b t)) = 409 <->
     (truthy_id (ba_user_id b) <> None
      /\ truthy_string (ba_bank_name b) <> None
      /\ truthy_string (ba_account_number b) <> None
      /\ truthy_string (ba_ifsc_code b) <> None
      /\ truthy_string (ba_account_holder_name b) <> None
      /\ raised i = Some "23505"%string))
  /\ (forall now i b t,
        instrument_status (fst (addUpiId now i b t)) = 409 <->
        (truthy_id (au_user_id b) <> None
         /\ truthy_string (au_vpa b) <> None
         /\ raised i = Some "23505"%string))
  /\ (forall now simulatedToken i b t,
        instrument_status (fst (addCard now simulatedToken i b t)) <> 409).
Proof.
  split; [| split].
  - intros i b t. unfold addBankAccount.
    destruct (truthy_id (ba_user_id b));
      [| cbn; split; [discriminate | tauto]].
    destruct (truthy_string (ba_bank_name b));
      [| cbn; split; [discriminate | tauto]].
    destruct (truthy_string (ba_account_number b));
      [| cbn; split; [discriminate | tauto]].
    destruct (truthy_string (ba_ifsc_code b));
      [| cbn; split; [discriminate | tauto]].
    destruct (truthy_string (ba_account_holder_name b));
      [| cbn; split; [discriminate | tauto]].
    destruct (raised i) as [code |];
      [| cbn; split; [discriminate | intros H; decompose [and] H; discriminate]].
    destruct (String.eqb code "23505") eqn:E; cbn.
    + apply String.eqb_eq in E. subst code.
      split; [intros _; repeat split; discriminate | reflexivity].
    + apply String.eqb_neq in E.
      split; [discriminate | intros H; decompose [and] H; congruence].
  - intros now i b t. unfold addUpiId.
    destruct (truthy_id (au_user_id b));
      [| cbn; split; [discriminate | tauto]].
    destruct (truthy_string (au_vpa b));
      [| cbn; split; [discriminate | tauto]].
    destruct (raised i) as [code |];
      [| cbn; split; [discriminate | intros H; decompose [and] H; discriminate]].
    destruct (String.eqb code "23505") eqn:E; cbn.
    + apply String.eqb_eq in E. subst code.
      split; [intros _; repeat split; discriminate | reflexivity].
    + apply String.eqb_neq in E.
      split; [discriminate | intros H; decompose [and] H; congruence].
  - intros now token i b t.
    destruct (addCard_outcome now token i b t)
      as [[_ [H | H]] | [user [number [type [expiry [cvv H]]]]]];
      try (rewrite H; discriminate).
    destruct H as [_ [_ [_ [_ [_ [_ [_ E]]]]]]]. rewrite E. discriminate.
Qed.

(** X22 ([addUpiId], [getUpiIds]): an accepted UPI identifier is stored and
    answered trimmed and in lower case: no capital letter, no white space
    at either end; the listing of its user then shows it in that form, and
    the listing of any other user is as before. *)
Theorem vpa_is_stored_normalised (now : Z) (i : insertion)
  (b : add_upi_id_body) (t : instruments) :
  instrument_status (fst (addUpiId now i b t)) = 201 ->
  exists user vpa row,
    truthy_id (au_user_id b) = Some user
    /\ au_vpa b = Some vpa
    /\ snd (addUpiId now i b t) =
       {| user_bank_accounts := user_bank_accounts t;
          user_upi_ids := user_upi_ids t ++ [row];
          user_cards := user_cards t |}
    /\ UserUpiIds.vpa row = toLowerCase (trim vpa)
    /\ normalised (UserUpiIds.vpa row)
    /\ instrument_body (fst (addUpiId now i b t)) =
       upi_id_json (UserUpiIds.upi_id row) (UserUpiIds.vpa row)
    /\ In (upi_view_of row) (select_upi_ids user (snd (addUpiId now i b t)))
    /\ (forall other, other <> user ->
          select_upi_ids other (snd (addUpiId now i b t))
          = select_upi_ids other t).
Proof.
  destruct (addUpiId_outcome now i b t)
    as [[_ [H | [H | H]]] | [user [vpa H]]];
    try (rewrite H; discriminate).
  destruct H as [Hu [Hv [_ E]]]. rewrite E. intros _.
  apply truthy_string_some in Hv. destruct Hv as [Hv _].
  eexists user, vpa, _. split; [exact Hu |]. split; [exact Hv |].
  split; [reflexivity |]. cbn [UserUpiIds.vpa UserUpiIds.upi_id fst snd].
  split; [reflexivity |]. split; [apply normalised_toLowerCase_trim |].
  split; [reflexivity |]. split.
  - unfold select_upi_ids. apply in_map.
    eapply Permutation_in; [symmetry; apply order_by_perm |].
    cbn [user_upi_ids]. apply filter_In. split.
    + apply in_or_app. right. left. reflexivity.
    + cbn. apply Z.eqb_refl.
  - intros other Hother. unfold select_upi_ids. cbn [user_upi_ids].
    rewrite order_by_snoc_other; [reflexivity |].
    cbn. apply Z.eqb_neq. congruence.
Qed.

(** X23 ([addUpiId]): the check for a missing VPA comes before the
    trimming, so a VPA of white space only is accepted and stored as the
    empty text. *)
Theorem blank_vpa_is_accepted (now : Z) (i : insertion)
  (b : add_upi_id_body) (t : instruments) (user : Z) (vpa : string) :
  au_user_id b = Some user -> user <> 0 ->
  au_vpa b = Some vpa -> vpa <> EmptyString -> trim_start vpa = EmptyString ->
  raised i = None ->
  addUpiId now i b t =
  (answer 201 (upi_id_json (issued i) EmptyString),
   {| user_bank_accounts := user_bank_accounts t;
      user_upi_ids :=
        user_upi_ids t ++
        [{| UserUpiIds.upi_id := issued i;
            UserUpiIds.user_id := user;
            UserUpiIds.vpa := EmptyString;
            UserUpiIds.is_primary := primary i;
            UserUpiIds.created_at := now |}];
      user_cards := user_cards t |}).
Proof.
  intros Hu Huser Hv Hvpa Hblank Hraised. unfold addUpiId.
  rewrite Hu, Hv. cbn [truthy_id truthy_string].
  apply Z.eqb_neq in Huser. apply String.eqb_neq in Hvpa.
  rewrite Huser, Hvpa, Hraised. unfold trim. rewrite Hblank. reflexivity.
Qed.


(** X25 ([getCards], [getUpiIds]): a listing that is answered with 200
    shows the rows of the user, each once, primary ones first and among
    equals the newest first. *)
Theorem cards_and_upi_ids_are_listed_primary_then_newest
  (b : instruments_body) (t : instruments) :
  (instrument_status (fst (getCards b t)) = 200 ->
   exists user rows,
     truthy_id (ib_user_id b) = Some user
     /\ instrument_body (fst (getCards b t)) =
        cards_json (map card_view_of rows)
     /\ Permutation rows
          (filter (fun r => UserCards.user_id r =? user) (user_cards t))
     /\ StronglySorted
          (fun r x => primary_then_newest
                        (UserCards.is_primary r) (UserCards.is_primary x)
                        (UserCards.created_at r) (UserCards.created_at x))
          rows)
  /\ (instrument_status (fst (getUpiIds b t)) = 200 ->
      exists user rows,
        truthy_id (ib_user_id b) = Some user
        /\ instrument_body (fst (getUpiIds b t)) =
           upi_ids_json (map upi_view_of rows)
        /\ Permutation rows
             (filter (fun r => UserUpiIds.user_id r =? user) (user_upi_ids t))
        /\ StronglySorted
             (fun r x => primary_then_newest
                           (UserUpiIds.is_primary r) (UserUpiIds.is_primary x)
                           (UserUpiIds.created_at r) (UserUpiIds.created_at x))
             rows).
Proof.
  unfold getCards, getUpiIds.
  destruct (truthy_id (ib_user_id b)) as [user |]; cbn;
    [| split; discriminate].
  split; intros _; exists user; eexists; (split; [reflexivity |]);
    (split; [reflexivity |]);
    (split; [apply order_by_perm |]).
  - apply (primary_then_newest_sorted UserCards.is_primary
             UserCards.created_at).
  - apply (primary_then_newest_sorted UserUpiIds.is_primary
             UserUpiIds.created_at).
Qed.

(** X26 ([getUserBankAccounts]): a listing that is answered with 200 shows
    the bank accounts of the user, each once, primary ones first, and of
    each account number its last four characters at most; when the
    collation is a total preorder, accounts that are equally primary come
    in its order of their bank names. *)
Theorem bank_accounts_are_listed_masked
  (collate : string -> string -> bool) (b : instruments_body)
  (t : instruments) :
  instrument_status (fst (getUserBankAccounts collate b t)) = 200 ->
  exists user rows,
    truthy_id (ib_user_id b) = Some user
    /\ instrument_body (fst (getUserBankAccounts collate b t)) =
       bank_accounts_json (map bank_account_view_of rows)
    /\ Permutation rows
         (filter (fun r => UserBankAccounts.user_id r =? user)
            (user_bank_accounts t))
    /\ primaries_first (map UserBankAccounts.is_primary rows)
    /\ Forall
         (fun r =>
            (String.length (masked_account (bank_account_view_of r)) <= 4)%nat
            /\ exists p,
                 UserBankAccounts.account_number r =
                 (p ++ masked_account (bank_account_view_of r))%string)
         rows
    /\ ((forall x y, collate x y = false -> collate y x = true) ->
        (forall x y z, collate x y = true -> collate y z = true ->
                       collate x z = true) ->
        StronglySorted
          (fun r x =>
             UserBankAccounts.is_primary r = UserBankAccounts.is_primary x ->
             collate (UserBankAccounts.bank_name r)
                     (UserBankAccounts.bank_name x) = true)
          rows).
Proof.
  unfold getUserBankAccounts.
  destruct (truthy_id (ib_user_id b)) as [user |]; cbn; [| discriminate].
  intros _. exists user. eexists. split; [reflexivity |].
  split; [reflexivity |]. split; [apply order_by_perm |].
  split; [apply order_by_primaries_first |]. split.
  - apply Forall_forall. intros r _. cbn. split.
    + apply slice_last_short.
    + destruct (slice_last_suffix 4 (UserBankAccounts.account_number r))
        as [p [Hp _]].
      exists p. exact Hp.
  - intros Htotal Htrans.
    match goal with
    | |- StronglySorted _ (order_by ?p ?l) =>
        assert (Hsorted := order_by_sorted p l)
    end.
    eapply StronglySorted_ind
      with (P := fun l => StronglySorted _ l);
      [constructor | | apply Hsorted].
    + intros x l _ IH Hx. constructor; [exact IH |].
      rewrite Forall_forall in *. intros y Hy Hsame.
      specialize (Hx y Hy). unfold primary_first in Hx.
      rewrite Hsame, Bool.eqb_reflx in Hx. exact Hx.
    + intros x y. unfold primary_first.
      destruct (UserBankAccounts.is_primary x),
               (UserBankAccounts.is_primary y); simpl;
        try congruence; apply Htotal.
    + intros x y z. unfold primary_first.
      destruct (UserBankAccounts.is_primary x),
               (UserBankAccounts.is_primary y),
               (UserBankAccounts.is_primary z); simpl;
        try congruence; apply Htrans.
Qed.

(** X27 ([addCard], [getCards]): after a card is accepted, the listing of
    its user shows it with the identifier issued, the masked number and
    the type and expiry date given, and is one entry longer; the listing
    of any other user is as before. *)
Theorem added_card_is_listed (now : Z) (simulatedToken : string)
  (i : insertion) (b : add_card_body) (t : instruments) :
  instrument_status (fst (addCard now simulatedToken i b t)) = 201 ->
  exists user number type expiry,
    truthy_id (ac_user_id b) = Some user
    /\ ac_card_number b = Some number
    /\ ac_card_type b = Some type
    /\ ac_expiry_date b = Some expiry
    /\ In {| view_card_id := issued i;
             view_masked_card_number := slice_last 4 number;
             view_card_type := type;
             view_expiry_date := expiry;
             view_card_is_primary := primary i |}
          (select_cards user (snd (addCard now simulatedToken i b t)))
    /\ List.length (select_cards user (snd (addCard now simulatedToken i b t)))
       = S (List.length (select_cards user t))
    /\ (forall other, other <> user ->
          select_cards other (snd (addCard now simulatedToken i b t))
          = select_cards other t).
Proof.
  destruct (addCard_outcome now simulatedToken i b t)
    as [[_ [H | H]] | [user [number [type [expiry [cvv H]]]]]];
    try (rewrite H; discriminate).
  destruct H as [Hu [Hn [Ht [He [_ [_ [_ E]]]]]]]. rewrite E. intros _.
  apply truthy_string_some in Hn, Ht, He.
  exists user, number, type, expiry.
  split; [exact Hu |]. split; [tauto |]. split; [tauto |]. split; [tauto |].
  cbn [snd]. unfold select_cards. cbn [user_cards].
  match goal with
  | |- In ?v (map _ (order_by ?p (filter ?k (?l ++ [?row])))) /\ _ =>
      assert (Hfilter : filter k (l ++ [row]) = filter k l ++ [row])
        by (rewrite filter_app; cbn; rewrite Z.eqb_refl; reflexivity);
      assert (Hperm := order_by_perm p (filter k (l ++ [row])));
      change v with (card_view_of row)
  end.
  rewrite Hfilter in Hperm at 2.
  split; [| split].
  - apply in_map. eapply Permutation_in; [symmetry; exact Hperm |].
    apply in_or_app. right. left. reflexivity.
  - rewrite !length_map.
    rewrite (Permutation_length Hperm), length_app.
    rewrite (Permutation_length (order_by_perm _ _)). simpl. lia.
  - intros other Hother. rewrite order_by_snoc_other; [reflexivity |].
    cbn. apply Z.eqb_neq. congruence.
Qed.

(* ----------------------------------------------------------------- *)
(** *** Logging in *)

Lemma login_of_user (compare : string -> Users.row -> bool) (s : store)
  (u : Users.row) (identifier password : string) :
  directory_ok s -> In u (users (committed s)) ->
  (if includes "@" identifier then Users.email_id u
   else Users.mobile_number u) = identifier ->
  fst (loginUser compare
         {| login_email_id := Some identifier;
            login_password := Some password |} s) =
  if compare password u then
    {| login_status := 200;
       login_payload :=
         login_user (Users.user_id u) (Users.first_name u)
           (Users.email_id u) |}
  else
    {| login_status := 401;
       login_payload :=
         login_error "Invalid email/mobile number or password." |}.
Proof.
  intros [_ Hemails Hmobiles] Hin Hu.
  unfold loginUser, select_login, select_user_where.
  cbn [login_email_id login_password].
  destruct (includes "@" identifier); rewrite <- Hu;
    [rewrite (filter_unique Users.email_id) by assumption
    | rewrite (filter_unique Users.mobile_number) by assumption];
    destruct (compare password u); reflexivity.
Qed.

(** X28 ([loginUser]): an answer 200 names a user of the table whose
    email address (for an identifier with an at sign) or mobile number
    (for one without) is the identifier given, and for whom
    [bcrypt.compare] accepts the password.  An answer 401 carries one and
    the same text, whether the identifier is unknown or the password is
    wrong. *)
Theorem login_names_a_matching_user
  (compare : string -> Users.row -> bool) (b : login_body) (s : store) :
  (login_status (fst (loginUser compare b s)) = 200 ->
   exists identifier password user,
     login_email_id b = Some identifier
     /\ login_password b = Some password
     /\ In user (users (committed s))
     /\ (if includes "@" identifier then Users.email_id user
         else Users.mobile_number user) = identifier
     /\ compare password user = true
     /\ login_payload (fst (loginUser compare b s)) =
        login_user (Users.user_id user) (Users.first_name user)
          (Users.email_id user))
  /\ (login_status (fst (loginUser compare b s)) = 401 ->
      login_payload (fst (loginUser compare b s)) =
      login_error "Invalid email/mobile number or password.").
Proof.
  unfold loginUser.
  destruct (login_email_id b) as [identifier |];
    [| cbn; split; discriminate].
  destruct (select_login _ identifier (committed s)) as [| user rest] eqn:E;
    [cbn; split; [discriminate | reflexivity] |].
  destruct (login_password b) as [password |];
    [| cbn; split; discriminate].
  destruct (compare password user) eqn:Ec; cbn;
    [| split; [discriminate | reflexivity]].
  split; [| discriminate].
  intros _. exists identifier, password, user.
  assert (Hin : In user (select_login (includes "@" identifier) identifier
                           (committed s)))
    by (rewrite E; left; reflexivity).
  unfold select_login, select_user_where in Hin.
  destruct (includes "@" identifier); apply filter_In in Hin;
    destruct Hin as [Hin Heq]; apply String.eqb_eq in Heq;
    repeat split; assumption.
Qed.

(** X29 ([registerUser], [loginUser]): after a registration is answered
    201, logging in with its email address, when that has an at sign, or
    with its mobile number, when that has none, is answered 200 with the
    new user if [bcrypt.compare] accepts the password, and 401 if not. *)
Theorem registered_user_can_log_in
  (compare : string -> Users.row -> bool) (now : Z) (b : register_body)
  (s : store) (identifier password : string) :
  directory_ok s ->
  status (fst (registerUser now b s)) = 201 ->
  (if includes "@" identifier then reg_email_id b
   else reg_mobile_number b) = identifier ->
  fst (loginUser compare
         {| login_email_id := Some identifier;
            login_password := Some password |}
         (snd (registerUser now b s))) =
  if compare password (new_user now b s) then
    {| login_status := 200;
       login_payload :=
         login_user (users_user_id_seq s) (reg_first_name b)
           (reg_email_id b) |}
  else
    {| login_status := 401;
       login_payload :=
         login_error "Invalid email/mobile number or password." |}.
Proof.
  intros Hdir Hstatus Hid.
  assert (Hdir' := route_keeps_directory_ok now (POST_register b) s Hdir).
  cbn [route] in Hdir'.
  destruct (registerUser_outcome now b s) as [[_ E] | [[_ [_ E]] | [_ [_ E]]]];
    rewrite E in Hstatus; try discriminate.
  rewrite E in *. cbn [snd] in *.
  rewrite (login_of_user compare (registered now b s) (new_user now b s));
    [reflexivity | exact Hdir' | | exact Hid].
  cbn. apply in_or_app. right. left. reflexivity.
Qed.

(** X30 ([loginUser]): an identifier without an at sign is looked up
    among the mobile numbers only; when no user has it as a mobile number
    the answer is 401, also for a user who has it as an email address and
    gives the right password. *)
Theorem identifier_without_at_sign_is_a_mobile_number
  (compare : string -> Users.row -> bool) (s : store)
  (identifier : string) (password : option string) :
  includes "@" identifier = false ->
  (forall u, In u (users (committed s)) ->
             Users.mobile_number u <> identifier) ->
  fst (loginUser compare
         {| login_email_id := Some identifier;
            login_password := password |} s) =
  {| login_status := 401;
     login_payload :=
       login_error "Invalid email/mobile number or password." |}.
Proof.
  intros Hat Hnone. unfold loginUser, select_login, select_user_where.
  cbn [login_email_id]. rewrite Hat.
  assert (E : filter (fun u => String.eqb (Users.mobile_number u) identifier)
                (users (committed s)) = []).
  { induction (users (committed s)) as [| x l IH]; cbn [filter];
      [reflexivity |].
    destruct (String.eqb_spec (Users.mobile_number x) identifier) as [Hx | _].
    - exfalso. apply (Hnone x); [left; reflexivity | exact Hx].
    - apply IH. intros u Hu. apply Hnone. right. exact Hu. }
  rewrite E. reflexivity.
Qed.

(* ================================================================= *)
(** ** The further properties at work on the example stores *)

Lemma client_error_changes_nothing_witness :
  snd (route 30 (deposit 1 "-5") two_wallets) = two_wallets.
Proof.
  apply client_error_changes_nothing.
  assert (E : status (fst (route 30 (deposit 1 "-5") two_wallets)) = 400)
    by (vm_compute; reflexivity).
  rewrite E. lia.
Defined.

Lemma failure_commits_nothing_witness :
  committed
    (snd (route 30
            (POST_user_transfer_p2p (transfer 1 "nobody@example.com" "5"))
            two_wallets))
  = committed two_wallets.
Proof.
  apply failure_commits_nothing;
    [intros b; discriminate | vm_compute; discriminate
    | vm_compute; discriminate].
Defined.

Lemma deposit_without_balance_row_is_recorded_witness :
  fst (addFunds 30 {| af_user_id := Some (id_number 7); af_amount := "5" |} two_wallets)
  = respond 500 (error_json "Internal server error: Deposit failed.")
  /\ List.length
       (ledger (snd (addFunds 30 {| af_user_id := Some (id_number 7); af_amount := "5" |}
                       two_wallets)))
     = S (List.length (ledger two_wallets)).
Proof.
  destruct (deposit_without_balance_row_is_recorded 30
              {| af_user_id := Some (id_number 7); af_amount := "5" |} two_wallets 7 5)
    as [Hanswer [Hledger _]]; try (vm_compute; reflexivity).
  split; [exact Hanswer |].
  rewrite Hledger, List.length_app. simpl. lia.
Defined.

Lemma registration_opens_a_wallet_witness :
  balance_of 3 (snd (registerUser 12 carol two_wallets)) = [Dec 0]
  /\ recipient_of "carol@example.com" (snd (registerUser 12 carol two_wallets))
     = Some (new_user 12 carol two_wallets).
Proof.
  destruct (registration_opens_a_wallet 12 carol two_wallets eq_refl)
    as [_ [_ [Hbalance [_ [Hemail _]]]]].
  split; [exact Hbalance | apply Hemail; reflexivity].
Defined.

Lemma registration_is_not_repeated_witness :
  registerUser 11 alice (snd (registerUser 10 alice empty_store)) =
  (respond 409
     (error_json "User with this email or mobile number already exists."),
   snd (registerUser 10 alice empty_store)).
Proof.
  apply (registration_is_not_repeated 10 11 alice alice empty_store);
    [reflexivity | left; reflexivity].
Defined.

Lemma deposit_credits_the_balance_witness :
  fst (addFunds 30 {| af_user_id := Some (id_text "1"); af_amount := "0.1" |}
         two_wallets)
  = respond 200
      (new_balance_json
         (Dec (200 + Binary64.shortest_decimal
                       (3602879701896397 # 36028797018963968))))
  /\ (Binary64.shortest_decimal (3602879701896397 # 36028797018963968)
      == 1 # 10)%Q
  /\ balance_of 2
       (snd (addFunds 30
               {| af_user_id := Some (id_text "1"); af_amount := "0.1" |}
               two_wallets))
     = balance_of 2 two_wallets.
Proof.
  destruct (deposit_credits_the_balance 30
              {| af_user_id := Some (id_text "1"); af_amount := "0.1" |}
              two_wallets 1 (3602879701896397 # 36028797018963968) 200)
    as [_ [Hexact [Hanswer [_ [Hothers _]]]]];
    [reflexivity | vm_compute; reflexivity | reflexivity | reflexivity |].
  split; [exact Hanswer |].
  split; [| apply Hothers; discriminate].
  apply Hexact; vm_compute; reflexivity.
Defined.

Lemma transfer_to_unknown_recipient_witness :
  sendMoney 30 (transfer 1 "nobody@example.com" "5") two_wallets =
  (respond 404 (error_json "Recipient not found."), two_wallets).
Proof.
  apply (transfer_to_unknown_recipient 30 _ two_wallets "nobody@example.com");
    [discriminate | reflexivity | vm_compute; reflexivity
    | vm_compute; reflexivity].
Defined.

Lemma transfer_above_the_balance_witness :
  sendMoney 30 (transfer 2 "alice@example.com" "75") two_wallets =
  (respond 402 (error_json "Insufficient funds."), two_wallets).
Proof.
  apply (transfer_above_the_balance 30 _ two_wallets 2 "alice@example.com"
           alice_row 75 10 (Dec 10) []);
    try (vm_compute; reflexivity).
  discriminate.
Defined.

Lemma transfer_not_carried_out_changes_nothing_witness :
  snd (sendMoney 30 (transfer 2 "alice@example.com" "75") two_wallets)
  = two_wallets.
Proof.
  apply (transfer_not_carried_out_changes_nothing
           [(10, POST_register alice); (11, POST_register bob);
            (20, deposit 1 "200"); (21, deposit 2 "10")]
           30 (transfer 2 "alice@example.com" "75")).
  vm_compute. discriminate.
Defined.

Lemma deposit_raises_the_total_witness :
  exists a : Q,
    parseFloat "5" = Num a /\ (0 < a)%Q /\
    (0 < Binary64.shortest_decimal a)%Q /\
    (total_balance
       (snd (addFunds 30
               {| af_user_id := Some (id_number 1); af_amount := "5" |}
               two_wallets))
     == total_balance two_wallets + Binary64.shortest_decimal a)%Q.
Proof.
  apply (deposit_raises_the_total
           [(10, POST_register alice); (11, POST_register bob);
            (20, deposit 1 "200"); (21, deposit 2 "10")]
           30 {| af_user_id := Some (id_number 1); af_amount := "5" |}).
  - repeat (apply Forall_cons; [cbn; try exact I; vm_compute; discriminate |]).
    apply Forall_nil.
  - vm_compute. discriminate.
  - vm_compute. reflexivity.
Defined.

Lemma transfer_keeps_the_total_witness :
  (total_balance
     (snd (sendMoney 30 (transfer 1 "bob@example.com" "75") two_wallets))
   == total_balance two_wallets)%Q.
Proof.
  apply (transfer_keeps_the_total
           [(10, POST_register alice); (11, POST_register bob);
            (20, deposit 1 "200"); (21, deposit 2 "10")]
           30 (transfer 1 "bob@example.com" "75")).
  - repeat (apply Forall_cons; [cbn; try exact I; vm_compute; discriminate |]).
    apply Forall_nil.
  - vm_compute. discriminate.
  - reflexivity.
Defined.

Lemma latest_deposit_is_listed_first_witness :
  listing
    (fst (getUserTransactions {| tx_user_id := Some (id_number 1) |}
            (snd (addFunds 30 {| af_user_id := Some (id_number 1); af_amount := "5" |}
                    two_wallets)))) =
  view_of (ledger_row 30 (transactions_transaction_id_seq two_wallets) 1
             CREDIT (Dec (Binary64.shortest_decimal 5))
             "Wallet Deposit (External)" None)
  :: listing (fst (getUserTransactions {| tx_user_id := Some (id_number 1) |} two_wallets)).
Proof.
  apply (latest_deposit_is_listed_first 30
           {| af_user_id := Some (id_number 1); af_amount := "5" |}
           {| tx_user_id := Some (id_number 1) |} two_wallets 1 5);
    try reflexivity.
  intros t Hin. vm_compute in Hin. destruct Hin as [<- | []]. reflexivity.
Defined.

Lemma profile_shows_the_balance_witness :
  exists (balance : numeric) (updated : Z),
    balance_of 1 two_wallets = [balance] /\
    getUserProfileAndBalance
      {| pf_email_id := Some "alice@example.com"%string |} two_wallets =
    ({| profile_status := 200;
        profile_payload :=
          profile_user 1 "Alice" "Liddell" "alice@example.com" "9000000001"
            balance updated |}, two_wallets).
Proof.
  apply (profile_shows_the_balance
           [(10, POST_register alice); (11, POST_register bob);
            (20, deposit 1 "200"); (21, deposit 2 "10")]
           alice_row {| pf_email_id := Some "alice@example.com"%string |}).
  - vm_compute. left. reflexivity.
  - reflexivity.
Defined.

Lemma profile_not_found_witness :
  getUserProfileAndBalance
    {| pf_email_id := Some "nobody@example.com"%string |} two_wallets =
  ({| profile_status := 404;
      profile_payload :=
        profile_error "User profile or balance account not found." |},
   two_wallets).
Proof.
  apply (profile_not_found _ two_wallets "nobody@example.com");
    [reflexivity |].
  intros u Hin. vm_compute in Hin.
  destruct Hin as [<- | [<- | []]]; intros E; vm_compute in E; discriminate.
Defined.

Lemma profile_follows_the_deposit_witness :
  exists updated : Z,
    fst (getUserProfileAndBalance
           {| pf_email_id := Some "alice@example.com"%string |}
           (snd (addFunds 30 {| af_user_id := Some (id_number 1); af_amount := "5" |}
                   two_wallets))) =
    {| profile_status := 200;
       profile_payload :=
         profile_user 1 "Alice" "Liddell" "alice@example.com" "9000000001"
           (Dec (200 + 5)) updated |}.
Proof.
  apply (profile_follows_the_deposit
           [(10, POST_register alice); (11, POST_register bob);
            (20, deposit 1 "200"); (21, deposit 2 "10")]
           30 {| af_user_id := Some (id_number 1); af_amount := "5" |} alice_row
           {| pf_email_id := Some "alice@example.com"%string |}
           (Dec (200 + 5))).
  - vm_compute. left. reflexivity.
  - reflexivity.
  - reflexivity.
  - vm_compute. reflexivity.
Defined.

Lemma card_number_is_masked_witness :
  exists number row,
    ac_card_number visa = Some number
    /\ snd (addCard 40 "00ff" (unconstrained 3) visa some_instruments) =
       {| user_bank_accounts := user_bank_accounts some_instruments;
          user_upi_ids := user_upi_ids some_instruments;
          user_cards := user_cards some_instruments ++ [row] |}
    /\ UserCards.masked_card_number row = slice_last 4 number
    /\ (String.length (UserCards.masked_card_number row) <= 4)%nat
    /\ (exists p, number = (p ++ UserCards.masked_card_number row)%string
                  /\ String.length p = (String.length number - 4)%nat)
    /\ UserCards.token row = "00ff"%string
    /\ instrument_body
         (fst (addCard 40 "00ff" (unconstrained 3) visa some_instruments)) =
       card_json (UserCards.card_id row) (UserCards.card_type row)
         (UserCards.masked_card_number row).
Proof.
  apply (card_number_is_masked 40 "00ff" (unconstrained 3) visa
           some_instruments).
  reflexivity.
Defined.

Lemma vpa_is_stored_normalised_witness :
  exists user vpa row,
    truthy_id (Some 2) = Some user
    /\ Some " Bob@UPI "%string = Some vpa
    /\ snd (addUpiId 40 (unconstrained 2)
              {| au_user_id := Some 2; au_vpa := Some " Bob@UPI "%string |}
              some_instruments) =
       {| user_bank_accounts := user_bank_accounts some_instruments;
          user_upi_ids := user_upi_ids some_instruments ++ [row];
          user_cards := user_cards some_instruments |}
    /\ UserUpiIds.vpa row = toLowerCase (trim vpa)
    /\ normalised (UserUpiIds.vpa row)
    /\ instrument_body
         (fst (addUpiId 40 (unconstrained 2)
                 {| au_user_id := Some 2; au_vpa := Some " Bob@UPI "%string |}
                 some_instruments)) =
       upi_id_json (UserUpiIds.upi_id row) (UserUpiIds.vpa row)
    /\ In (upi_view_of row)
          (select_upi_ids user
             (snd (addUpiId 40 (unconstrained 2)
                     {| au_user_id := Some 2;
                        au_vpa := Some " Bob@UPI "%string |}
                     some_instruments)))
    /\ (forall other, other <> user ->
          select_upi_ids other
            (snd (addUpiId 40 (unconstrained 2)
                    {| au_user_id := Some 2;
                       au_vpa := Some " Bob@UPI "%string |}
                    some_instruments))
          = select_upi_ids other some_instruments).
Proof.
  apply (vpa_is_stored_normalised 40 (unconstrained 2)
           {| au_user_id := Some 2; au_vpa := Some " Bob@UPI "%string |}
           some_instruments).
  reflexivity.
Defined.

Lemma blank_vpa_is_accepted_witness :
  instrument_body
    (fst (addUpiId 40 (unconstrained 2)
            {| au_user_id := Some 2; au_vpa := Some "  "%string |}
            some_instruments))
  = upi_id_json 2 EmptyString.
Proof.
  rewrite (blank_vpa_is_accepted 40 (unconstrained 2)
             {| au_user_id := Some 2; au_vpa := Some "  "%string |}
             some_instruments 2 "  ");
    try reflexivity; discriminate.
Defined.

Lemma cards_and_upi_ids_are_listed_primary_then_newest_witness :
  exists user rows,
    truthy_id (Some 1) = Some user
    /\ instrument_body (fst (getCards {| ib_user_id := Some 1 |}
                               some_instruments)) =
       cards_json (map card_view_of rows)
    /\ Permutation rows
         (filter (fun r => UserCards.user_id r =? user)
            (user_cards some_instruments))
    /\ StronglySorted
         (fun r x => primary_then_newest
                       (UserCards.is_primary r) (UserCards.is_primary x)
                       (UserCards.created_at r) (UserCards.created_at x))
         rows.
Proof.
  apply (proj1 (cards_and_upi_ids_are_listed_primary_then_newest
                  {| ib_user_id := Some 1 |} some_instruments)).
  reflexivity.
Defined.

Lemma bank_accounts_are_listed_masked_witness :
  exists rows,
    instrument_body
      (fst (getUserBankAccounts String.leb {| ib_user_id := Some 1 |}
              some_instruments)) =
    bank_accounts_json (map bank_account_view_of rows)
    /\ primaries_first (map UserBankAccounts.is_primary rows).
Proof.
  destruct (bank_accounts_are_listed_masked String.leb
              {| ib_user_id := Some 1 |} some_instruments eq_refl)
    as [user [rows [_ [Hbody [_ [Hprimary _]]]]]].
  exists rows. split; [exact Hbody | exact Hprimary].
Defined.

Lemma added_card_is_listed_witness :
  exists user number type expiry,
    truthy_id (ac_user_id visa) = Some user
    /\ ac_card_number visa = Some number
    /\ ac_card_type visa = Some type
    /\ ac_expiry_date visa = Some expiry
    /\ In {| view_card_id := 3;
             view_masked_card_number := slice_last 4 number;
             view_card_type := type;
             view_expiry_date := expiry;
             view_card_is_primary := false |}
          (select_cards user
             (snd (addCard 40 "00ff" (unconstrained 3) visa some_instruments)))
    /\ List.length
         (select_cards user
            (snd (addCard 40 "00ff" (unconstrained 3) visa some_instruments)))
       = S (List.length (select_cards user some_instruments))
    /\ (forall other, other <> user ->
          select_cards other
            (snd (addCard 40 "00ff" (unconstrained 3) visa some_instruments))
          = select_cards other some_instruments).
Proof.
  apply (added_card_is_listed 40 "00ff" (unconstrained 3) visa
           some_instruments).
  reflexivity.
Defined.

Lemma login_names_a_matching_user_witness :
  exists identifier password user,
    Some "9000000002"%string = Some identifier
    /\ Some "secret"%string = Some password
    /\ In user (users (committed two_wallets))
    /\ (if includes "@" identifier then Users.email_id user
        else Users.mobile_number user) = identifier
    /\ same_password "secret" password user = true
    /\ login_payload
         (fst (loginUser (same_password "secret")
                 {| login_email_id := Some "9000000002"%string;
                    login_password := Some "secret"%string |} two_wallets)) =
       login_user (Users.user_id user) (Users.first_name user)
         (Users.email_id user).
Proof.
  apply (proj1 (login_names_a_matching_user (same_password "secret")
                  {| login_email_id := Some "9000000002"%string;
                     login_password := Some "secret"%string |} two_wallets)).
  reflexivity.
Defined.

Lemma registered_user_can_log_in_witness :
  fst (loginUser (same_password "secret")
         {| login_email_id := Some "carol@example.com"%string;
            login_password := Some "secret"%string |}
         (snd (registerUser 12 carol two_wallets))) =
  {| login_status := 200;
     login_payload := login_user 3 "Carol" "carol@example.com" |}.
Proof.
  apply (registered_user_can_log_in (same_password "secret") 12 carol
           two_wallets "carol@example.com" "secret").
  - apply (serve_keeps_directory_ok
             [(10, POST_register alice); (11, POST_register bob);
              (20, deposit 1 "200"); (21, deposit 2 "10")] empty_store).
    apply directory_ok_empty.
  - reflexivity.
  - reflexivity.
Defined.

Lemma identifier_without_at_sign_is_a_mobile_number_witness :
  fst (loginUser (same_password "secret")
         {| login_email_id := Some "alice"%string;
            login_password := Some "secret"%string |} two_wallets) =
  {| login_status := 401;
     login_payload :=
       login_error "Invalid email/mobile number or password." |}.
Proof.
  apply (identifier_without_at_sign_is_a_mobile_number
           (same_password "secret") two_wallets "alice" (Some "secret"%string));
    [reflexivity |].
  intros u Hin. vm_compute in Hin.
  destruct Hin as [<- | [<- | []]]; intros E; vm_compute in E; discriminate.
Defined.

